(** * kernel/bpf/offload.c: host-side bookkeeping of device-offloaded BPF programs

    A shallow embedding of the offload registry of [kernel/bpf/offload.c]:
    the descriptor ([struct bpf_prog_offload]), the global list
    [bpf_prog_offload_devs], and every entry point of the file, written in a
    small state-and-fault monad over an explicit kernel state.  Pointers are
    addresses into finite maps; a NULL pointer is [None]; dereferencing NULL
    or freed memory is a fault.  Calls that leave the file (locks, the
    allocator, the driver's [ndo_bpf], [bpf_prog_free_id], [WARN]) are
    recorded in a chronological event log. *)

From stdpp Require Import gmap list fin_maps strings.

Local Open Scope Z_scope.

(** ** Error numbers (include/uapi/asm-generic/errno-base.h, errno.h) *)

Definition EPERM : Z := 1.
Definition ENOENT : Z := 2.
Definition ENOMEM : Z := 12.
Definition ENODEV : Z := 19.
Definition EINVAL : Z := 22.
Definition EOPNOTSUPP : Z := 95.

Definition NOTIFY_OK : Z := 1.

(** ** Data model *)

(** Addresses of the three kinds of objects the file touches. *)
Abbreviation prog_ptr := nat (only parsing).
Abbreviation off_ptr := nat (only parsing).
Abbreviation dev_ptr := nat (only parsing).
Abbreviation net_ptr := nat (only parsing).

(** [enum bpf_netdev_command], restricted to the commands this file issues. *)
Inductive bpf_netdev_command :=
  | BPF_OFFLOAD_VERIFIER_PREP
  | BPF_OFFLOAD_TRANSLATE
  | BPF_OFFLOAD_DESTROY.

Global Instance bpf_netdev_command_eq_dec : EqDecision bpf_netdev_command.
Proof. solve_decision. Defined.

(** [netdev->reg_state]. *)
Inductive netreg_state :=
  | NETREG_UNINITIALIZED
  | NETREG_REGISTERED
  | NETREG_UNREGISTERING
  | NETREG_UNREGISTERED
  | NETREG_RELEASED
  | NETREG_DUMMY.

Global Instance netreg_state_eq_dec : EqDecision netreg_state.
Proof. solve_decision. Defined.

(** Netdevice notifier events ([ulong event]). *)
Inductive netdev_event :=
  | NETDEV_UP
  | NETDEV_DOWN
  | NETDEV_CHANGE
  | NETDEV_REGISTER
  | NETDEV_UNREGISTER
  | NETDEV_CHANGEMTU
  | NETDEV_CHANGENAME.

Global Instance netdev_event_eq_dec : EqDecision netdev_event.
Proof. solve_decision. Defined.

(** [struct bpf_ext_analyzer_ops]: the hook table a driver hands back from
    VERIFIER_PREP.  [insn_hook env insn_idx prev_insn_idx]; the verifier
    environment is identified with the program it verifies. *)
Record bpf_ext_analyzer_ops := {
  insn_hook : prog_ptr -> Z -> Z -> Z
}.

(** What one call of [ndo_bpf(netdev, data)] yields: the return code and the
    [data->verifier.ops] field as the driver left it ([data] starts zeroed,
    so a driver that does not fill it leaves NULL). *)
Record ndo_reply := {
  ndo_ret : Z;
  ndo_verifier_ops : option bpf_ext_analyzer_ops
}.

(** [struct net_device], the fields read here.  [ndo_bpf] is
    [netdev->netdev_ops->ndo_bpf], NULL when the driver has no handler. *)
Record net_device := {
  ifindex : Z;
  reg_state : netreg_state;
  nd_net : net_ptr;
  ndo_bpf : option (bpf_netdev_command -> prog_ptr -> ndo_reply)
}.

(** [struct bpf_prog_offload].  The list node [offloads] is represented by
    membership in [bpf_prog_offload_devs] below. *)
Record bpf_prog_offload := {
  prog : option prog_ptr;
  netdev : option dev_ptr;
  dev_ops : option bpf_ext_analyzer_ops;
  dev_state : bool
}.

(** Log of calls that leave this file, oldest first. *)
Inductive event :=
  | EvRtnlLock
  | EvRtnlUnlock
  | EvDownWrite
  | EvUpWrite
  | EvDownRead
  | EvUpRead
  | EvKzalloc (r : option off_ptr)
  | EvKfree (o : off_ptr)
  | EvDevGetByIndex (net : net_ptr) (idx : Z) (r : option dev_ptr)
  | EvDevPut (d : dev_ptr)
  | EvRegStateRead (d : dev_ptr)
  | EvListAddTail (o : off_ptr)
  | EvListDelInit (o : off_ptr)
  | EvNdo (d : dev_ptr) (cmd : bpf_netdev_command) (p : prog_ptr) (ret : Z)
  | EvWarnOn (code : Z)
  | EvFreeId (p : prog_ptr)
  | EvGetNet (n : net_ptr)
  | EvPathPut
  | EvWarn (msg : string).

Global Instance event_eq_dec : EqDecision event.
Proof. solve_decision. Defined.

(** [prog->bpf_func]: the function run when the program is invoked in
    software, given the context pointer and the instructions.  A call yields
    its return value and the events it logs. *)
Definition bpf_func_t : Type := Z -> list Z -> Z * list event.

(** [struct bpf_prog] with the fields of [prog->aux] used here. *)
Record bpf_prog := {
  aux_offload : option off_ptr;
  aux_id : Z;
  bpf_func : bpf_func_t
}.

(** The kernel state seen by the file. *)
Record kstate := {
  offloads : gmap nat bpf_prog_offload;     (* live kzalloc'ed descriptors *)
  progs : gmap nat bpf_prog;
  netdevs : gmap nat net_device;
  bpf_prog_offload_devs : list nat;         (* LIST_HEAD, head to tail *)
  trace : list event
}.

(** [struct bpf_prog_info], the fields filled in here. *)
Record bpf_prog_info := {
  info_ifindex : Z;
  netns_dev : Z;
  netns_ino : Z
}.

(** [union bpf_attr], the fields read by [bpf_prog_offload_init]; both are
    [__u32]. *)
Record bpf_attr := {
  prog_flags : Z;
  prog_ifindex : Z
}.

(** The value a [__u32] has once converted to [int], as happens to
    [attr->prog_ifindex] at the call of [dev_get_by_index]: values from 2^31
    on wrap to the negative numbers. *)
Definition int_of_u32 (x : Z) : Z := (x + 2 ^ 31) mod 2 ^ 32 - 2 ^ 31.
Global Arguments int_of_u32 : simpl never.

(** ** The state-and-fault monad *)

Inductive fault :=
  | NullDeref       (* a NULL pointer was dereferenced *)
  | BadPointer      (* a pointer to freed or never allocated memory was used *)
  | Diverge.        (* a loop did not reach its exit *)

Inductive outcome (A : Type) :=
  | Done (a : A) (s : kstate)
  | Oops (f : fault).
Arguments Done {A} a s.
Arguments Oops {A} f.

Definition M (A : Type) : Type := kstate -> outcome A.

Definition ret {A} (a : A) : M A := fun s => Done a s.

Definition bind {A B} (m : M A) (k : A -> M B) : M B :=
  fun s => match m s with
           | Done a s' => k a s'
           | Oops f => Oops f
           end.

Notation "'let*' x ':=' m 'in' k" := (bind m (fun x => k))
  (at level 10, x name, m at level 100, k at level 200).
Notation "m ';;' k" := (bind m (fun _ => k))
  (at level 100, k at level 200, right associativity).

Definition oops {A} (f : fault) : M A := fun _ => Oops f.

Definition get_state : M kstate := fun s => Done s s.

Definition emit (e : event) : M unit := fun s =>
  Done tt {| offloads := offloads s; progs := progs s; netdevs := netdevs s;
             bpf_prog_offload_devs := bpf_prog_offload_devs s;
             trace := trace s ++ [e] |}.

(** Following a pointer. *)
Definition deref {A} (x : option A) : M A :=
  match x with
  | Some a => ret a
  | None => oops NullDeref
  end.

Definition load_prog (p : prog_ptr) : M bpf_prog := fun s =>
  match progs s !! p with
  | Some v => Done v s
  | None => Oops BadPointer
  end.

Definition load_offload (o : off_ptr) : M bpf_prog_offload := fun s =>
  match offloads s !! o with
  | Some v => Done v s
  | None => Oops BadPointer
  end.

Definition load_netdev (d : dev_ptr) : M net_device := fun s =>
  match netdevs s !! d with
  | Some v => Done v s
  | None => Oops BadPointer
  end.

Definition store_prog (p : prog_ptr) (v : bpf_prog) : M unit := fun s =>
  match progs s !! p with
  | Some _ =>
      Done tt {| offloads := offloads s; progs := <[p := v]> (progs s);
                 netdevs := netdevs s;
                 bpf_prog_offload_devs := bpf_prog_offload_devs s;
                 trace := trace s |}
  | None => Oops BadPointer
  end.

Definition store_offload (o : off_ptr) (v : bpf_prog_offload) : M unit := fun s =>
  match offloads s !! o with
  | Some _ =>
      Done tt {| offloads := <[o := v]> (offloads s); progs := progs s;
                 netdevs := netdevs s;
                 bpf_prog_offload_devs := bpf_prog_offload_devs s;
                 trace := trace s |}
  | None => Oops BadPointer
  end.

(** Field updates, as the assignments of the source. *)
Definition set_prog (p : prog_ptr) (o : bpf_prog_offload) : bpf_prog_offload :=
  {| prog := Some p; netdev := netdev o; dev_ops := dev_ops o; dev_state := dev_state o |}.
Definition set_netdev (d : option dev_ptr) (o : bpf_prog_offload) : bpf_prog_offload :=
  {| prog := prog o; netdev := d; dev_ops := dev_ops o; dev_state := dev_state o |}.
Definition set_dev_ops (ops : option bpf_ext_analyzer_ops) (o : bpf_prog_offload) : bpf_prog_offload :=
  {| prog := prog o; netdev := netdev o; dev_ops := ops; dev_state := dev_state o |}.
Definition set_dev_state (b : bool) (o : bpf_prog_offload) : bpf_prog_offload :=
  {| prog := prog o; netdev := netdev o; dev_ops := dev_ops o; dev_state := b |}.

Definition set_aux_offload (o : option off_ptr) (p : bpf_prog) : bpf_prog :=
  {| aux_offload := o; aux_id := aux_id p; bpf_func := bpf_func p |}.
Definition set_aux_id (i : Z) (p : bpf_prog) : bpf_prog :=
  {| aux_offload := aux_offload p; aux_id := i; bpf_func := bpf_func p |}.
Definition set_bpf_func (f : bpf_func_t) (p : bpf_prog) : bpf_prog :=
  {| aux_offload := aux_offload p; aux_id := aux_id p; bpf_func := f |}.

(** ** Kernel services called by the file *)

(** [kzalloc] of one descriptor, [GFP_USER].  The allocator's answer [r] is an
    input: NULL, or the address of a zeroed object. *)
Definition kzalloc (r : option off_ptr) : M (option off_ptr) := fun s =>
  match r with
  | None =>
      Done None {| offloads := offloads s; progs := progs s; netdevs := netdevs s;
                   bpf_prog_offload_devs := bpf_prog_offload_devs s;
                   trace := trace s ++ [EvKzalloc None] |}
  | Some a =>
      Done (Some a)
           {| offloads := <[a := {| prog := None; netdev := None;
                                    dev_ops := None; dev_state := false |}]> (offloads s);
              progs := progs s; netdevs := netdevs s;
              bpf_prog_offload_devs := bpf_prog_offload_devs s;
              trace := trace s ++ [EvKzalloc (Some a)] |}
  end.

(** [kfree(offload)]. *)
Definition kfree (o : off_ptr) : M unit := fun s =>
  match offloads s !! o with
  | Some _ =>
      Done tt {| offloads := delete o (offloads s); progs := progs s;
                 netdevs := netdevs s;
                 bpf_prog_offload_devs := bpf_prog_offload_devs s;
                 trace := trace s ++ [EvKfree o] |}
  | None => Oops BadPointer
  end.

(** [dev_get_by_index(net, ifindex)]: the device of that namespace with that
    index, with a reference taken, or NULL. *)
Definition find_netdev (net : net_ptr) (idx : Z) (s : kstate) : option dev_ptr :=
  (fun r : nat * (nat * net_device) => r.2.1) <$>
    list_find (fun kv : nat * net_device =>
                 nd_net kv.2 = net /\ ifindex kv.2 = idx)
              (map_to_list (netdevs s)).

Definition dev_get_by_index (net : net_ptr) (idx : Z) : M (option dev_ptr) :=
  let* s := get_state in
  let r := find_netdev net idx s in
  emit (EvDevGetByIndex net idx r);;
  ret r.

Definition dev_put (d : dev_ptr) : M unit := emit (EvDevPut d).

(** [list_add_tail(&offload->offloads, &bpf_prog_offload_devs)]. *)
Definition list_add_tail (o : off_ptr) : M unit := fun s =>
  Done tt {| offloads := offloads s; progs := progs s; netdevs := netdevs s;
             bpf_prog_offload_devs := bpf_prog_offload_devs s ++ [o];
             trace := trace s ++ [EvListAddTail o] |}.

(** [list_del_init(&offload->offloads)]: unlink the node and leave it linked
    to itself, so that unlinking it again changes nothing. *)
Definition list_del_init (o : off_ptr) : M unit := fun s =>
  Done tt {| offloads := offloads s; progs := progs s; netdevs := netdevs s;
             bpf_prog_offload_devs :=
               filter (fun x => x <> o) (bpf_prog_offload_devs s);
             trace := trace s ++ [EvListDelInit o] |}.

(** [bpf_prog_free_id(prog, true)] (kernel/bpf/syscall.c): the program's id
    is released and reads 0 from then on. *)
Definition bpf_prog_free_id (p : prog_ptr) : M unit :=
  let* v := load_prog p in
  store_prog p (set_aux_id 0 v);;
  emit (EvFreeId p).

(** [p->field = ...] on a descriptor. *)
Definition upd_offload (o : off_ptr) (f : bpf_prog_offload -> bpf_prog_offload) : M unit :=
  let* off := load_offload o in
  store_offload o (f off).

Definition upd_prog (p : prog_ptr) (f : bpf_prog -> bpf_prog) : M unit :=
  let* v := load_prog p in
  store_prog p (f v).

(** ** The functions of offload.c *)

Definition bpf_dev_offload_check (nd : option dev_ptr) : M Z :=
  match nd with
  | None => ret (- EINVAL)
  | Some d =>
      let* dev := load_netdev d in
      match ndo_bpf dev with
      | None => ret (- EOPNOTSUPP)
      | Some _ => ret 0
      end
  end.

(** The exit path [err_maybe_put:] of [bpf_prog_offload_init]. *)
Definition init_err_maybe_put (o : off_ptr) (err : Z) : M Z :=
  let* off := load_offload o in
  match netdev off with
  | Some d => dev_put d
  | None => ret tt
  end;;
  kfree o;;
  ret err.

(** [bpf_prog_offload_init(prog, attr)].  [capable] is the answer of
    [capable(CAP_SYS_ADMIN)], [net_ns] is [current->nsproxy->net_ns] and
    [mem] is the allocator's answer to the [kzalloc]. *)
Definition bpf_prog_offload_init (capable : bool) (net_ns : net_ptr)
    (mem : option off_ptr) (p : prog_ptr) (attr : bpf_attr) : M Z :=
  if negb capable then ret (- EPERM)
  else if decide (prog_flags attr <> 0) then ret (- EINVAL)
  else
    let* r := kzalloc mem in
    match r with
    | None => ret (- ENOMEM)
    | Some o =>
        upd_offload o (set_prog p);;
        let* nd := dev_get_by_index net_ns (int_of_u32 (prog_ifindex attr)) in
        upd_offload o (set_netdev nd);;
        let* off := load_offload o in
        let* err := bpf_dev_offload_check (netdev off) in
        if decide (err <> 0) then init_err_maybe_put o err
        else
          emit EvDownWrite;;
          let* off := load_offload o in
          let* d := deref (netdev off) in
          let* dev := load_netdev d in
          emit (EvRegStateRead d);;
          if decide (reg_state dev <> NETREG_REGISTERED) then
            emit EvUpWrite;;
            init_err_maybe_put o (- EINVAL)
          else
            upd_prog p (set_aux_offload (Some o));;
            list_add_tail o;;
            dev_put d;;
            emit EvUpWrite;;
            ret 0
    end.

(** [__bpf_offload_ndo(prog, cmd, data)].  [data] carries the program; the
    reply holds the return code and [data->verifier.ops] afterwards.
    [ASSERT_RTNL()] only checks that the caller holds the lock. *)
Definition __bpf_offload_ndo (p : prog_ptr) (cmd : bpf_netdev_command) : M ndo_reply :=
  let* v := load_prog p in
  let* o := deref (aux_offload v) in
  let* off := load_offload o in
  match netdev off with
  | None => ret {| ndo_ret := - ENODEV; ndo_verifier_ops := None |}
  | Some d =>
      let* dev := load_netdev d in
      let* handler := deref (ndo_bpf dev) in
      let r := handler cmd p in
      emit (EvNdo d cmd p (ndo_ret r));;
      ret r
  end.

(** [bpf_prog_offload_verifier_prep(env)], with [env->prog = p]. *)
Definition bpf_prog_offload_verifier_prep (p : prog_ptr) : M Z :=
  emit EvRtnlLock;;
  let* r := __bpf_offload_ndo p BPF_OFFLOAD_VERIFIER_PREP in
  (if decide (ndo_ret r <> 0) then ret tt
   else
     let* v := load_prog p in
     let* o := deref (aux_offload v) in
     upd_offload o (set_dev_ops (ndo_verifier_ops r));;
     upd_offload o (set_dev_state true));;
  emit EvRtnlUnlock;;
  ret (ndo_ret r).

(** [bpf_prog_offload_verify_insn(env, insn_idx, prev_insn_idx)]. *)
Definition bpf_prog_offload_verify_insn (p : prog_ptr) (insn_idx prev_insn_idx : Z) : M Z :=
  emit EvDownRead;;
  let* v := load_prog p in
  let* o := deref (aux_offload v) in
  let* off := load_offload o in
  let* r :=
    match netdev off with
    | Some _ =>
        let* ops := deref (dev_ops off) in
        ret (insn_hook ops p insn_idx prev_insn_idx)
    | None => ret (- ENODEV)
    end in
  emit EvUpRead;;
  ret r.

(** [__bpf_prog_offload_destroy(prog)]. *)
Definition __bpf_prog_offload_destroy (p : prog_ptr) : M unit :=
  let* v := load_prog p in
  let* o := deref (aux_offload v) in
  let* off := load_offload o in
  (if dev_state off then
     let* r := __bpf_offload_ndo p BPF_OFFLOAD_DESTROY in
     if decide (ndo_ret r <> 0) then emit (EvWarnOn (ndo_ret r)) else ret tt
   else ret tt);;
  bpf_prog_free_id p;;
  upd_offload o (set_dev_state false);;
  list_del_init o;;
  upd_offload o (set_netdev None).

(** [bpf_prog_offload_destroy(prog)]. *)
Definition bpf_prog_offload_destroy (p : prog_ptr) : M unit :=
  let* v := load_prog p in
  let offload := aux_offload v in
  emit EvRtnlLock;;
  emit EvDownWrite;;
  __bpf_prog_offload_destroy p;;
  emit EvUpWrite;;
  emit EvRtnlUnlock;;
  match offload with
  | Some o => kfree o
  | None => ret tt
  end.

Definition bpf_prog_offload_translate (p : prog_ptr) : M Z :=
  emit EvRtnlLock;;
  let* r := __bpf_offload_ndo p BPF_OFFLOAD_TRANSLATE in
  emit EvRtnlUnlock;;
  ret (ndo_ret r).

Definition bpf_prog_warn_on_exec : bpf_func_t := fun ctx insn =>
  (0, [EvWarn "attempt to execute device eBPF program on the host!"]).

(** [bpf_prog_offload_compile(prog)]. *)
Definition bpf_prog_offload_compile (p : prog_ptr) : M Z :=
  upd_prog p (set_bpf_func bpf_prog_warn_on_exec);;
  bpf_prog_offload_translate p.

(** *** Info reporting *)

Definition set_info_ifindex (i : Z) (info : bpf_prog_info) : bpf_prog_info :=
  {| info_ifindex := i; netns_dev := netns_dev info; netns_ino := netns_ino info |}.

(** What [ns_get_path_cb] (fs/nsfs.c) hands back: an error pointer, or the
    path of the namespace, of which the inode's [i_sb->s_dev] and [i_ino]
    are read. *)
Inductive ns_path_result :=
  | NsErr (err : Z)
  | NsPath (s_dev i_ino : Z).

(** [bpf_prog_offload_info_fill_ns(private_data)], the callback given to
    [ns_get_path_cb]: it writes [args->info->ifindex] and returns the
    namespace to resolve, or NULL. *)
Definition bpf_prog_offload_info_fill_ns (p : prog_ptr) (info : bpf_prog_info)
    : M (bpf_prog_info * option net_ptr) :=
  let* v := load_prog p in
  emit EvRtnlLock;;
  emit EvDownRead;;
  let* r :=
    match aux_offload v with
    | Some o =>
        let* off := load_offload o in
        let* d := deref (netdev off) in
        let* dev := load_netdev d in
        emit (EvGetNet (nd_net dev));;
        ret (set_info_ifindex (ifindex dev) info, Some (nd_net dev))
    | None => ret (set_info_ifindex 0 info, None)
    end in
  emit EvUpRead;;
  emit EvRtnlUnlock;;
  ret r.

Section InfoFill.

(** The two helpers of other files that [bpf_prog_offload_info_fill]
    calls: [ns_get_path_cb], seen as a function of the namespace its
    callback returned, and [new_encode_dev] (linux/kdev_t.h). *)
Variable ns_get_path_cb : option net_ptr -> ns_path_result.
Variable new_encode_dev : Z -> Z.

(** [bpf_prog_offload_info_fill(info, prog)]: the return code and [*info]
    afterwards. *)
Definition bpf_prog_offload_info_fill (info : bpf_prog_info) (p : prog_ptr)
    : M (Z * bpf_prog_info) :=
  let* r := bpf_prog_offload_info_fill_ns p info in
  let info1 := r.1 in
  match ns_get_path_cb r.2 with
  | NsErr err =>
      if decide (info_ifindex info1 = 0) then ret (- ENODEV, info1)
      else ret (err, info1)
  | NsPath s_dev i_ino =>
      emit EvPathPut;;
      ret (0, {| info_ifindex := info_ifindex info1;
                 netns_dev := new_encode_dev s_dev;
                 netns_ino := i_ino |})
  end.

End InfoFill.

(** *** The netdevice notifier *)

(** The intrusive list, read through a cursor: [None] is the list head,
    [Some o] the node of descriptor [o].  A node that is not on the list is
    linked to itself (the state [list_del_init] leaves it in). *)
Fixpoint list_after (o : off_ptr) (l : list nat) : option (option off_ptr) :=
  match l with
  | [] => None
  | x :: l' => if decide (x = o) then Some (head l') else list_after o l'
  end.

Definition list_next (c : option off_ptr) (s : kstate) : option off_ptr :=
  match c with
  | None => head (bpf_prog_offload_devs s)
  | Some o =>
      match list_after o (bpf_prog_offload_devs s) with
      | Some n => n
      | None => Some o
      end
  end.

(** The body and the stepping of
    [list_for_each_entry_safe(offload, tmp, &bpf_prog_offload_devs, offloads)]
    in [bpf_offload_notification]: the loop runs until [offload] is the head;
    [fuel] bounds the number of iterations. *)
Fixpoint offload_sweep (fuel : nat) (nd : dev_ptr) (offload tmp : option off_ptr)
    : M unit :=
  match offload with
  | None => ret tt
  | Some o =>
      match fuel with
      | O => oops Diverge
      | S fuel' =>
          let* off := load_offload o in
          (if decide (netdev off = Some nd) then
             let* p := deref (prog off) in
             __bpf_prog_offload_destroy p
           else ret tt);;
          let* s := get_state in
          offload_sweep fuel' nd tmp (list_next tmp s)
      end
  end.

(** [bpf_offload_notification(notifier, event, ptr)], with
    [netdev_notifier_info_to_dev(ptr) = nd]. *)
Definition bpf_offload_notification (ev : netdev_event) (nd : dev_ptr) : M Z :=
  match ev with
  | NETDEV_UNREGISTER =>
      let* dev := load_netdev nd in
      if decide (reg_state dev <> NETREG_UNREGISTERING) then ret NOTIFY_OK
      else
        emit EvDownWrite;;
        let* s := get_state in
        let first := list_next None s in
        offload_sweep (length (bpf_prog_offload_devs s)) nd
                      first (list_next first s);;
        emit EvUpWrite;;
        ret NOTIFY_OK
  | _ => ret NOTIFY_OK
  end.

(** ** Registry invariants *)

(** The invariant of the specification: a live descriptor is on the list
    exactly when its device field is set. *)
Definition registry_inv (s : kstate) : Prop :=
  forall o off, offloads s !! o = Some off ->
    (o ∈ bpf_prog_offload_devs s <-> netdev off <> None).

(** The well-formedness the entry points maintain. *)
Record wf (s : kstate) : Prop := {
  wf_member : registry_inv s;
  wf_live : forall o, o ∈ bpf_prog_offload_devs s -> is_Some (offloads s !! o);
  wf_nodup : NoDup (bpf_prog_offload_devs s);
  wf_owner : forall o off, o ∈ bpf_prog_offload_devs s ->
      offloads s !! o = Some off ->
      exists p v, prog off = Some p /\ progs s !! p = Some v /\ aux_offload v = Some o;
  wf_dev : forall o off d, offloads s !! o = Some off -> netdev off = Some d ->
      exists dev h, netdevs s !! d = Some dev /\ ndo_bpf dev = Some h
}.

(** Before any program is offloaded. *)
Definition initial (s : kstate) : Prop :=
  offloads s = ∅ /\ bpf_prog_offload_devs s = [] /\
  forall p v, progs s !! p = Some v -> aux_offload v = None.

Definition set_reg_state (rs : netreg_state) (dev : net_device) : net_device :=
  {| ifindex := ifindex dev; reg_state := rs; nd_net := nd_net dev; ndo_bpf := ndo_bpf dev |}.

(** The device layer moving a device through its registration states. *)
Definition netdev_set_reg_state (d : dev_ptr) (rs : netreg_state) (s : kstate) : kstate :=
  {| offloads := offloads s; progs := progs s;
     netdevs := alter (set_reg_state rs) d (netdevs s);
     bpf_prog_offload_devs := bpf_prog_offload_devs s;
     trace := trace s |}.

Section Steps.

Variable ns_get_path_cb : option net_ptr -> ns_path_result.
Variable new_encode_dev : Z -> Z.

(** One completed operation.  [init] is called on a program that has no
    descriptor yet, and the allocator hands out memory that is not in use. *)
Inductive step (s : kstate) : kstate -> Prop :=
  | step_init capable net_ns mem p attr r s' :
      (forall a, mem = Some a -> offloads s !! a = None) ->
      (forall v, progs s !! p = Some v -> aux_offload v = None) ->
      bpf_prog_offload_init capable net_ns mem p attr s = Done r s' ->
      step s s'
  | step_verifier_prep p r s' :
      bpf_prog_offload_verifier_prep p s = Done r s' -> step s s'
  | step_verify_insn p i j r s' :
      bpf_prog_offload_verify_insn p i j s = Done r s' -> step s s'
  | step_compile p r s' :
      bpf_prog_offload_compile p s = Done r s' -> step s s'
  | step_destroy p s' :
      bpf_prog_offload_destroy p s = Done tt s' -> step s s'
  | step_info_fill info p r s' :
      bpf_prog_offload_info_fill ns_get_path_cb new_encode_dev info p s = Done r s' ->
      step s s'
  | step_notification ev nd r s' :
      bpf_offload_notification ev nd s = Done r s' -> step s s'
  | step_reg_state d rs :
      step s (netdev_set_reg_state d rs s).

Inductive reachable : kstate -> Prop :=
  | reachable_initial s : initial s -> reachable s
  | reachable_step s s' : reachable s -> step s s' -> reachable s'.

End Steps.

(** ** Closed forms used in the proofs *)

(** The events of the dispatch at the head of [__bpf_prog_offload_destroy]. *)
Definition destroy_dispatch_events (s : kstate) (p : prog_ptr)
    (off : bpf_prog_offload) : list event :=
  if dev_state off then
    match netdev off with
    | Some d =>
        match netdevs s !! d with
        | Some dev =>
            match ndo_bpf dev with
            | Some handler =>
                let r := ndo_ret (handler BPF_OFFLOAD_DESTROY p) in
                EvNdo d BPF_OFFLOAD_DESTROY p r ::
                  (if decide (r <> 0) then [EvWarnOn r] else [])
            | None => []
            end
        | None => []
        end
    | None => [EvWarnOn (- ENODEV)]
    end
  else [].

Definition unbound (off : bpf_prog_offload) : bpf_prog_offload :=
  {| prog := prog off; netdev := None; dev_ops := dev_ops off; dev_state := false |}.

(** The state [__bpf_prog_offload_destroy p] leaves when [o] is the
    descriptor of [p]. *)
Definition unbind (o : off_ptr) (p : prog_ptr) (s : kstate) : kstate :=
  match offloads s !! o, progs s !! p with
  | Some off, Some v =>
      {| offloads := <[o := unbound off]> (offloads s);
         progs := <[p := set_aux_id 0 v]> (progs s);
         netdevs := netdevs s;
         bpf_prog_offload_devs := filter (fun x => x <> o) (bpf_prog_offload_devs s);
         trace := trace s ++ destroy_dispatch_events s p off
                          ++ [EvFreeId p; EvListDelInit o] |}
  | _, _ => s
  end.

(** One iteration of the sweep, and the sweep over a snapshot of the list. *)
Definition sweep_one (nd : dev_ptr) (s : kstate) (o : off_ptr) : kstate :=
  match offloads s !! o with
  | Some off =>
      if decide (netdev off = Some nd) then
        match prog off with
        | Some p => unbind o p s
        | None => s
        end
      else s
  | None => s
  end.

Definition sweep_all (nd : dev_ptr) (l : list nat) (s : kstate) : kstate :=
  foldl (sweep_one nd) s l.

(** ** Reading the event log *)

Definition is_dispatch (cmd : bpf_netdev_command) (p : prog_ptr) (e : event) : bool :=
  match e with
  | EvNdo _ c q _ => bool_decide (c = cmd /\ q = p)
  | _ => false
  end.

(** How often the driver was handed [cmd] for program [p]. *)
Fixpoint dispatches (cmd : bpf_netdev_command) (p : prog_ptr) (t : list event) : nat :=
  match t with
  | [] => 0%nat
  | e :: t' => ((if is_dispatch cmd p e then 1 else 0) + dispatches cmd p t')%nat
  end.

(** Position of the first occurrence of an event. *)
Fixpoint index_of (e : event) (t : list event) : option nat :=
  match t with
  | [] => None
  | x :: t' => if decide (x = e) then Some 0%nat else S <$> index_of e t'
  end.

(** The synchronisation skeleton of a log: lock operations and the reads of
    a device's registration state. *)
Definition is_sync (e : event) : bool :=
  match e with
  | EvRtnlLock | EvRtnlUnlock | EvDownWrite | EvUpWrite | EvDownRead | EvUpRead
  | EvRegStateRead _ => true
  | _ => false
  end.

Definition sync_events (t : list event) : list event :=
  filter (fun e => is_sync e = true) t.

Inductive rwsem_state := Unlocked | ReadLocked | WriteLocked.

Global Instance rwsem_state_eq_dec : EqDecision rwsem_state.
Proof. solve_decision. Defined.

(** Which of the two locks the running thread holds. *)
Record lock_state := {
  rtnl_held : bool;
  devs_lock : rwsem_state
}.

Global Instance lock_state_eq_dec : EqDecision lock_state.
Proof. solve_decision. Defined.

Definition no_locks : lock_state := {| rtnl_held := false; devs_lock := Unlocked |}.
Definition rtnl_only : lock_state := {| rtnl_held := true; devs_lock := Unlocked |}.

Definition lock_after (l : lock_state) (e : event) : lock_state :=
  match e with
  | EvRtnlLock => {| rtnl_held := true; devs_lock := devs_lock l |}
  | EvRtnlUnlock => {| rtnl_held := false; devs_lock := devs_lock l |}
  | EvDownWrite => {| rtnl_held := rtnl_held l; devs_lock := WriteLocked |}
  | EvDownRead => {| rtnl_held := rtnl_held l; devs_lock := ReadLocked |}
  | EvUpWrite | EvUpRead => {| rtnl_held := rtnl_held l; devs_lock := Unlocked |}
  | _ => l
  end.

(** The fixed order: RTNL is never taken while [bpf_devs_lock] is held. *)
Fixpoint lock_order_ok (l : lock_state) (t : list event) : bool :=
  match t with
  | [] => true
  | e :: t' =>
      match e with
      | EvRtnlLock => bool_decide (devs_lock l = Unlocked)
      | _ => true
      end && lock_order_ok (lock_after l e) t'
  end.

(** The locks held at each read of a device's registration state. *)
Fixpoint locks_at_reg_check (l : lock_state) (t : list event) : list lock_state :=
  match t with
  | [] => []
  | e :: t' =>
      match e with
      | EvRegStateRead _ => [l]
      | _ => []
      end ++ locks_at_reg_check (lock_after l e) t'
  end.

(** [syncs m L]: every completed run of [m] appends events whose
    synchronisation skeleton is [L]. *)
Definition syncs {A} (m : M A) (L : list event) : Prop :=
  forall s a s', m s = Done a s' ->
    exists new, trace s' = trace s ++ new /\ sync_events new = L.

(** The entry points of the file, with their arguments. *)
Inductive call :=
  | CallInit (capable : bool) (net_ns : net_ptr) (mem : option off_ptr)
             (p : prog_ptr) (attr : bpf_attr)
  | CallVerifierPrep (p : prog_ptr)
  | CallVerifyInsn (p : prog_ptr) (insn_idx prev_insn_idx : Z)
  | CallCompile (p : prog_ptr)
  | CallDestroy (p : prog_ptr)
  | CallInfoFill (ns_get_path_cb : option net_ptr -> ns_path_result)
                 (new_encode_dev : Z -> Z) (info : bpf_prog_info) (p : prog_ptr)
  | CallNotification (ev : netdev_event) (nd : dev_ptr).

Definition run_call (c : call) : M unit :=
  match c with
  | CallInit capable net_ns mem p attr =>
      bpf_prog_offload_init capable net_ns mem p attr;; ret tt
  | CallVerifierPrep p => bpf_prog_offload_verifier_prep p;; ret tt
  | CallVerifyInsn p i j => bpf_prog_offload_verify_insn p i j;; ret tt
  | CallCompile p => bpf_prog_offload_compile p;; ret tt
  | CallDestroy p => bpf_prog_offload_destroy p
  | CallInfoFill cb enc info p => bpf_prog_offload_info_fill cb enc info p;; ret tt
  | CallNotification ev nd => bpf_offload_notification ev nd;; ret tt
  end.

(** The locks the caller already holds: the notifier chain runs under RTNL
    ([ASSERT_RTNL] in [bpf_offload_notification]); the other entry points
    take what they need themselves. *)
Definition entry_locks (c : call) : lock_state :=
  match c with
  | CallNotification _ _ => rtnl_only
  | _ => no_locks
  end.

Definition write_locked_only : lock_state :=
  {| rtnl_held := false; devs_lock := WriteLocked |}.

(** [s] with further events logged. *)
Definition log (new : list event) (s : kstate) : kstate :=
  {| offloads := offloads s; progs := progs s; netdevs := netdevs s;
     bpf_prog_offload_devs := bpf_prog_offload_devs s;
     trace := trace s ++ new |}.

(** The device of a descriptor, when set, is there and has a handler. *)
Definition dispatchable (s : kstate) (off : bpf_prog_offload) : Prop :=
  forall d, netdev off = Some d ->
    exists dev h, netdevs s !! d = Some dev /\ ndo_bpf dev = Some h.

(** What the driver bound to [p] answers to [cmd]. *)
Definition driver_reply (s : kstate) (p : prog_ptr) (cmd : bpf_netdev_command)
    : option ndo_reply :=
  match progs s !! p with
  | Some v =>
      match aux_offload v with
      | Some o =>
          match offloads s !! o with
          | Some off =>
              match netdev off with
              | Some d =>
                  match netdevs s !! d with
                  | Some dev =>
                      match ndo_bpf dev with
                      | Some handler => Some (handler cmd p)
                      | None => None
                      end
                  | None => None
                  end
              | None => None
              end
          | None => None
          end
      | None => None
      end
  | None => None
  end.

(** The descriptor after a successful VERIFIER_PREP answered by [r]. *)
Definition prepared (r : ndo_reply) (off : bpf_prog_offload) : bpf_prog_offload :=
  {| prog := prog off; netdev := netdev off;
     dev_ops := ndo_verifier_ops r; dev_state := true |}.

Definition with_offloads (m : gmap nat bpf_prog_offload) (s : kstate) : kstate :=
  {| offloads := m; progs := progs s; netdevs := netdevs s;
     bpf_prog_offload_devs := bpf_prog_offload_devs s; trace := trace s |}.

Definition with_progs (m : gmap nat bpf_prog) (s : kstate) : kstate :=
  {| offloads := offloads s; progs := m; netdevs := netdevs s;
     bpf_prog_offload_devs := bpf_prog_offload_devs s; trace := trace s |}.

(** What the sweep needs of the entries still ahead of the cursor: each is a
    live descriptor, owned by a program that points back at it, and its
    device can be dispatched to. *)
Definition sweep_ready (s : kstate) (rest : list nat) : Prop :=
  forall o, o ∈ rest ->
    exists off p v,
      offloads s !! o = Some off /\ prog off = Some p /\
      progs s !! p = Some v /\ aux_offload v = Some o /\ dispatchable s off.

(** The events one iteration of the sweep logs for entry [o], read off the
    state the sweep starts in. *)
Definition sweep_entry_events (s : kstate) (nd : dev_ptr) (o : off_ptr) : list event :=
  match offloads s !! o with
  | Some off =>
      if decide (netdev off = Some nd) then
        match prog off with
        | Some p => destroy_dispatch_events s p off ++ [EvFreeId p; EvListDelInit o]
        | None => []
        end
      else []
  | None => []
  end.

Definition sweep_events (s : kstate) (nd : dev_ptr) (l : list nat) : list event :=
  flat_map (sweep_entry_events s nd) l.

(** Entry [o] is a prepared descriptor of program [p] bound to [nd]. *)
Definition destroy_due (s : kstate) (nd : dev_ptr) (p : prog_ptr) (o : off_ptr) : bool :=
  match offloads s !! o with
  | Some off =>
      bool_decide (prog off = Some p /\ netdev off = Some nd) && dev_state off
  | None => false
  end.

(** The device-reference events of a log, in the order they happened. *)
Definition is_dev_ref (e : event) : bool :=
  match e with
  | EvDevGetByIndex _ _ _ | EvDevPut _ => true
  | _ => false
  end.

Definition dev_ref_events (t : list event) : list event :=
  filter (fun e => is_dev_ref e = true) t.

(** A log that leaves no device reference behind after one lookup of
    [(net, idx)] at most: no lookup at all, a lookup that found nothing, or a
    lookup that found [d] followed by the one [dev_put] of that same [d]. *)
Definition dev_refs_settled (net : net_ptr) (idx : Z) (t : list event) : Prop :=
  dev_ref_events t = [] \/
  dev_ref_events t = [EvDevGetByIndex net idx None] \/
  exists d, dev_ref_events t = [EvDevGetByIndex net idx (Some d); EvDevPut d].

(** The descriptor [bpf_prog_offload_init] links in for program [p] on
    device [d]. *)
Definition fresh_binding (p : prog_ptr) (d : dev_ptr) : bpf_prog_offload :=
  {| prog := Some p; netdev := Some d; dev_ops := None; dev_state := false |}.

(** A descriptor whose [dev_state] is set still has its device. *)
Definition active_bound (s : kstate) : Prop :=
  forall o off, offloads s !! o = Some off -> dev_state off = true ->
    netdev off <> None.

(** ** Sample states *)

Module Sample.

Definition hooks : bpf_ext_analyzer_ops :=
  {| insn_hook := fun _ i j => 100 + 10 * i + j |}.

(** A driver that accepts every command. *)
Definition driver (cmd : bpf_netdev_command) (p : prog_ptr) : ndo_reply :=
  match cmd with
  | BPF_OFFLOAD_VERIFIER_PREP => {| ndo_ret := 0; ndo_verifier_ops := Some hooks |}
  | _ => {| ndo_ret := 0; ndo_verifier_ops := None |}
  end.

Definition interp : bpf_func_t := fun _ insn => (Z.of_nat (length insn), []).

Definition dev (idx : Z) (rs : netreg_state) : net_device :=
  {| ifindex := idx; reg_state := rs; nd_net := 1%nat; ndo_bpf := Some driver |}.

Definition fresh_prog (id : Z) : bpf_prog :=
  {| aux_offload := None; aux_id := id; bpf_func := interp |}.

(** Two registered devices (addresses 10 and 11, indices 2 and 3), three
    programs without a descriptor, an empty registry. *)
Definition boot : kstate :=
  {| offloads := ∅;
     progs := <[1%nat := fresh_prog 41]> (<[2%nat := fresh_prog 42]>
                (<[3%nat := fresh_prog 43]> ∅));
     netdevs := <[10%nat := dev 2 NETREG_REGISTERED]>
                  (<[11%nat := dev 3 NETREG_REGISTERED]> ∅);
     bpf_prog_offload_devs := [];
     trace := [] |}.

Definition attr (idx : Z) : bpf_attr := {| prog_flags := 0; prog_ifindex := idx |}.

Definition zero_info : bpf_prog_info :=
  {| info_ifindex := 0; netns_dev := 0; netns_ino := 0 |}.

(** A resolver in the manner of fs/nsfs.c: no namespace, no path. *)
Definition ns_resolver (ns : option net_ptr) : ns_path_result :=
  match ns with
  | None => NsErr (- ENOENT)
  | Some n => NsPath 4 (4026531840 + Z.of_nat n)
  end.

Definition encode_dev (d : Z) : Z := d.

(** Running a computation and keeping the state. *)
Definition exec {A} (m : M A) (s : kstate) : kstate :=
  match m s with
  | Done _ s' => s'
  | Oops _ => s
  end.

Definition clear_trace (s : kstate) : kstate :=
  {| offloads := offloads s; progs := progs s; netdevs := netdevs s;
     bpf_prog_offload_devs := bpf_prog_offload_devs s; trace := [] |}.

(** Program 1 bound to device 10 (descriptor at 100). *)
Definition bound1 : kstate :=
  clear_trace (exec (bpf_prog_offload_init true 1%nat (Some 100%nat) 1%nat (attr 2)) boot).

(** ... and prepared by the driver. *)
Definition prepped1 : kstate :=
  clear_trace (exec (bpf_prog_offload_verifier_prep 1%nat) bound1).

(** Program 2 bound to the same device (descriptor at 101), not prepared;
    program 3 bound to device 11 (descriptor at 102) and prepared. *)
Definition three_bound : kstate :=
  clear_trace
    (exec (bpf_prog_offload_verifier_prep 3%nat)
       (exec (bpf_prog_offload_init true 1%nat (Some 102%nat) 3%nat (attr 3))
          (exec (bpf_prog_offload_init true 1%nat (Some 101%nat) 2%nat (attr 2))
             prepped1))).

(** Device 10 starts to unregister. *)
Definition unregistering : kstate :=
  netdev_set_reg_state 10%nat NETREG_UNREGISTERING three_bound.

(** ... and the notifier has run. *)
Definition swept : kstate :=
  clear_trace (exec (bpf_offload_notification NETDEV_UNREGISTER 10%nat) unregistering).

(** The boot state with one more device (address 12, index 4) whose driver
    has no [ndo_bpf]. *)
Definition with_plain_dev : kstate :=
  {| offloads := offloads boot; progs := progs boot;
     netdevs := <[12%nat := {| ifindex := 4; reg_state := NETREG_REGISTERED;
                               nd_net := 1%nat; ndo_bpf := None |}]>
                  (netdevs boot);
     bpf_prog_offload_devs := []; trace := [] |}.

(** A driver that refuses every command with -EIO. *)
Definition failing_driver (cmd : bpf_netdev_command) (p : prog_ptr) : ndo_reply :=
  {| ndo_ret := -5; ndo_verifier_ops := None |}.

(** Program 1 bound and prepared on device 10, whose driver has since
    started to fail. *)
Definition driver_failing : kstate :=
  {| offloads := offloads prepped1; progs := progs prepped1;
     netdevs := <[10%nat := {| ifindex := 2; reg_state := NETREG_REGISTERED;
                               nd_net := 1%nat; ndo_bpf := Some failing_driver |}]>
                  (netdevs prepped1);
     bpf_prog_offload_devs := bpf_prog_offload_devs prepped1; trace := [] |}.

End Sample.

(** ** Running the monad *)

Lemma bind_Done {A B} (m : M A) (k : A -> M B) s b s' :
  bind m k s = Done b s' ->
  exists a s1, m s = Done a s1 /\ k a s1 = Done b s'.
Proof.
  unfold bind. destruct (m s) as [a s1|f]; [eauto | discriminate].
Qed.

Lemma bind_run {A B} (m : M A) (k : A -> M B) s a s1 :
  m s = Done a s1 -> bind m k s = k a s1.
Proof. unfold bind. by intros ->. Qed.

Lemma bind_fault {A B} (m : M A) (k : A -> M B) s f :
  m s = Oops f -> bind m k s = Oops f.
Proof. unfold bind. by intros ->. Qed.

(** Unfolds the primitives in a hypothesis or in the goal. *)
Ltac unfold_m :=
  unfold upd_offload, upd_prog, bpf_prog_free_id, dev_put, dev_get_by_index,
    list_add_tail, list_del_init, kfree, kzalloc, store_offload, store_prog,
    load_netdev, load_offload, load_prog, deref, emit, get_state, oops,
    bind, ret in *.

Ltac run := unfold_m; simpl in *; repeat (case_match; simplify_eq; simpl in * ).

(** ** Admission errors of [bpf_prog_offload_init] *)

(** C7: without CAP_SYS_ADMIN, [bpf_prog_offload_init] returns -EPERM, and
    with the capability but nonzero [prog_flags] it returns -EINVAL; in both
    cases the kernel state is untouched and nothing is logged: no
    allocation, no device lookup, no lock. *)
Theorem init_admission_errors (net_ns : nat) (mem : option nat) (p : nat)
    (attr : bpf_attr) (s : kstate) :
  bpf_prog_offload_init false net_ns mem p attr s = Done (- EPERM) s /\
  (prog_flags attr <> 0 ->
     bpf_prog_offload_init true net_ns mem p attr s = Done (- EINVAL) s).
Proof.
  split; [reflexivity |].
  intros Hflags. unfold bpf_prog_offload_init. simpl.
  destruct (decide (prog_flags attr <> 0)); [reflexivity | contradiction].
Qed.

Lemma init_admission_errors_witness :
  bpf_prog_offload_init false 1%nat (Some 100%nat) 1%nat
      {| prog_flags := 4; prog_ifindex := 2 |} Sample.boot
    = Done (- EPERM) Sample.boot /\
  bpf_prog_offload_init true 1%nat (Some 100%nat) 1%nat
      {| prog_flags := 4; prog_ifindex := 2 |} Sample.boot
    = Done (- EINVAL) Sample.boot.
Proof.
  destruct (init_admission_errors 1%nat (Some 100%nat) 1%nat
              {| prog_flags := 4; prog_ifindex := 2 |} Sample.boot) as [H1 H2].
  split; [exact H1 | apply H2; simpl; lia].
Defined.

Lemma emit_log e s : emit e s = Done tt (log [e] s).
Proof. reflexivity. Qed.

Lemma log_log a b s : log b (log a s) = log (a ++ b) s.
Proof. unfold log; simpl. by rewrite app_assoc. Qed.

Lemma log_nil s : log [] s = s.
Proof. destruct s; unfold log; simpl. by rewrite app_nil_r. Qed.

(** Closes goals that equate two explicit states. *)
Ltac state_eq :=
  unfold log, with_offloads, with_progs, unbound, prepared,
    set_netdev, set_dev_state, set_dev_ops, set_prog; simpl;
  rewrite ?insert_insert_eq, ?delete_insert_eq, <- ?app_assoc; simpl;
  try reflexivity.

(** ** Closed forms of the entry points *)

Lemma offload_ndo_run s p v o off d dev h cmd :
  progs s !! p = Some v -> aux_offload v = Some o ->
  offloads s !! o = Some off -> netdev off = Some d ->
  netdevs s !! d = Some dev -> ndo_bpf dev = Some h ->
  __bpf_offload_ndo p cmd s
    = Done (h cmd p) (log [EvNdo d cmd p (ndo_ret (h cmd p))] s).
Proof.
  intros Hp Hv Ho Hd Hdev Hh. unfold __bpf_offload_ndo. unfold_m.
  rewrite Hp, Hv; simpl. rewrite Ho, Hd; simpl. rewrite Hdev, Hh. reflexivity.
Qed.

Lemma offload_ndo_nodev s p v o off cmd :
  progs s !! p = Some v -> aux_offload v = Some o ->
  offloads s !! o = Some off -> netdev off = None ->
  __bpf_offload_ndo p cmd s
    = Done {| ndo_ret := - ENODEV; ndo_verifier_ops := None |} s.
Proof.
  intros Hp Hv Ho Hd. unfold __bpf_offload_ndo. unfold_m.
  rewrite Hp, Hv; simpl. rewrite Ho, Hd. reflexivity.
Qed.

Lemma destroy_in_place_run s p v o off :
  progs s !! p = Some v -> aux_offload v = Some o ->
  offloads s !! o = Some off -> dispatchable s off ->
  __bpf_prog_offload_destroy p s = Done tt (unbind o p s).
Proof.
  intros Hp Hv Ho Hd.
  unfold __bpf_prog_offload_destroy, unbind, destroy_dispatch_events.
  rewrite Ho, Hp.
  unfold bind at 1. unfold load_prog at 1. rewrite Hp.
  unfold bind at 1. unfold deref at 1. rewrite Hv. unfold ret at 1.
  unfold bind at 1. unfold load_offload at 1. rewrite Ho.
  destruct (dev_state off) eqn:Hst.
  - destruct (netdev off) as [d|] eqn:Hnd.
    + destruct (Hd d Hnd) as (dev & h & Hdev & Hh).
      rewrite Hdev, Hh.
      unfold bind at 1. unfold bind at 1.
      rewrite (offload_ndo_run s p v o off d dev h) by done.
      destruct (decide (ndo_ret (h BPF_OFFLOAD_DESTROY p) <> 0));
        unfold_m; simpl; simplify_map_eq; simpl;
        f_equal; f_equal; state_eq.
    + unfold bind at 1. unfold bind at 1.
      rewrite (offload_ndo_nodev s p v o off) by done.
      simpl. unfold_m; simpl; simplify_map_eq; simpl.
      f_equal; f_equal; state_eq.
  - unfold_m; simpl; simplify_map_eq; simpl.
    f_equal; f_equal; state_eq.
Qed.

Lemma dispatchable_log s new off : dispatchable s off -> dispatchable (log new s) off.
Proof. intros H. exact H. Qed.

Lemma destroy_dispatch_events_log s new p off :
  destroy_dispatch_events (log new s) p off = destroy_dispatch_events s p off.
Proof. reflexivity. Qed.

Lemma destroy_run s p v o off :
  progs s !! p = Some v -> aux_offload v = Some o ->
  offloads s !! o = Some off -> dispatchable s off ->
  bpf_prog_offload_destroy p s = Done tt
    {| offloads := delete o (offloads s);
       progs := <[p := set_aux_id 0 v]> (progs s);
       netdevs := netdevs s;
       bpf_prog_offload_devs := filter (fun x => x <> o) (bpf_prog_offload_devs s);
       trace := trace s ++ [EvRtnlLock; EvDownWrite]
                        ++ destroy_dispatch_events s p off
                        ++ [EvFreeId p; EvListDelInit o; EvUpWrite;
                            EvRtnlUnlock; EvKfree o] |}.
Proof.
  intros Hp Hv Ho Hd. unfold bpf_prog_offload_destroy.
  unfold bind at 1. unfold load_prog at 1. rewrite Hp, Hv.
  unfold bind at 1. rewrite emit_log.
  unfold bind at 1. rewrite emit_log, log_log.
  unfold bind at 1.
  rewrite (destroy_in_place_run (log ([EvRtnlLock] ++ [EvDownWrite]) s) p v o off Hp Hv Ho Hd).
  unfold unbind. simpl. rewrite Ho, Hp.
  unfold_m. simpl. simplify_map_eq. simpl.
  f_equal; f_equal; state_eq.
Qed.

Lemma destroy_in_place_inv s p s1 :
  __bpf_prog_offload_destroy p s = Done tt s1 ->
  exists v o off,
    progs s !! p = Some v /\ aux_offload v = Some o /\
    offloads s !! o = Some off /\ s1 = unbind o p s.
Proof.
  intros H.
  unfold __bpf_prog_offload_destroy, __bpf_offload_ndo in H.
  unfold unbind, destroy_dispatch_events.
  run; eexists _, _, _; (repeat split; [eassumption ..|]);
    simplify_map_eq; simpl; f_equal; state_eq;
    match goal with H : dev_state _ = _ |- _ => rewrite H end; reflexivity.
Qed.

Lemma unbind_eq s p v o off :
  progs s !! p = Some v -> offloads s !! o = Some off ->
  unbind o p s =
    {| offloads := <[o := unbound off]> (offloads s);
       progs := <[p := set_aux_id 0 v]> (progs s);
       netdevs := netdevs s;
       bpf_prog_offload_devs := filter (fun x => x <> o) (bpf_prog_offload_devs s);
       trace := trace s ++ destroy_dispatch_events s p off
                        ++ [EvFreeId p; EvListDelInit o] |}.
Proof. intros Hp Ho. unfold unbind. by rewrite Ho, Hp. Qed.

Lemma filter_ne_idemp (o : nat) (l : list nat) :
  filter (fun x => x <> o) (filter (fun x => x <> o) l) = filter (fun x => x <> o) l.
Proof.
  induction l as [|x l IH]; [done |].
  destruct (decide (x = o)) as [->|Hne].
  - by rewrite filter_cons_False by (intros Hx; by apply Hx).
  - rewrite filter_cons_True by done. rewrite filter_cons_True by done.
    by rewrite IH.
Qed.

Lemma filter_ne_notin (o : nat) (l : list nat) :
  o ∉ l -> filter (fun x => x <> o) l = l.
Proof.
  induction l as [|x l IH]; [done |].
  intros Hnot. apply not_elem_of_cons in Hnot as [Hne Hnot].
  rewrite filter_cons_True by done. by rewrite IH.
Qed.

(** ** Teardown *)

(** C9, as the code orders it: [bpf_prog_offload_destroy] takes RTNL and the
    registry lock, dispatches DESTROY to the driver when [dev_state] is set,
    only then releases the program's id, unlinks the descriptor, drops the
    locks and last frees the descriptor, once; the descriptor is then off the
    list and no longer allocated. *)
Theorem destroy_teardown_order (s : kstate) (p : nat) (v : bpf_prog) (o : nat)
    (off : bpf_prog_offload) :
  progs s !! p = Some v -> aux_offload v = Some o ->
  offloads s !! o = Some off -> dispatchable s off ->
  exists s',
    bpf_prog_offload_destroy p s = Done tt s' /\
    trace s' = trace s ++ [EvRtnlLock; EvDownWrite]
                       ++ destroy_dispatch_events s p off
                       ++ [EvFreeId p; EvListDelInit o; EvUpWrite;
                           EvRtnlUnlock; EvKfree o] /\
    (dev_state off = false -> destroy_dispatch_events s p off = []) /\
    (dev_state off = true ->
       forall d dev h, netdev off = Some d -> netdevs s !! d = Some dev ->
         ndo_bpf dev = Some h ->
         let r := ndo_ret (h BPF_OFFLOAD_DESTROY p) in
         destroy_dispatch_events s p off
           = EvNdo d BPF_OFFLOAD_DESTROY p r
               :: (if decide (r <> 0) then [EvWarnOn r] else [])) /\
    offloads s' !! o = None /\
    o ∉ bpf_prog_offload_devs s'.
Proof.
  intros Hp Hv Ho Hd. eexists. split; [by eapply destroy_run |].
  simpl. split; [done |]. split; [| split; [| split]].
  - intros Hst. unfold destroy_dispatch_events. by rewrite Hst.
  - intros Hst d dev h Hnd Hdev Hh. unfold destroy_dispatch_events.
    by rewrite Hst, Hnd, Hdev, Hh.
  - apply lookup_delete_eq.
  - rewrite list_elem_of_filter. by intros [Hne _].
Qed.

Lemma destroy_teardown_order_witness :
  exists s',
    bpf_prog_offload_destroy 1%nat Sample.prepped1 = Done tt s' /\
    trace s' = [EvRtnlLock; EvDownWrite; EvNdo 10%nat BPF_OFFLOAD_DESTROY 1%nat 0;
                EvFreeId 1%nat; EvListDelInit 100%nat; EvUpWrite; EvRtnlUnlock;
                EvKfree 100%nat].
Proof.
  destruct (destroy_teardown_order Sample.prepped1 1%nat
              {| aux_offload := Some 100%nat; aux_id := 41;
                 bpf_func := Sample.interp |}
              100%nat
              {| prog := Some 1%nat; netdev := Some 10%nat;
                 dev_ops := Some Sample.hooks; dev_state := true |})
    as (s' & Hrun & Htr & _).
  - reflexivity.
  - reflexivity.
  - reflexivity.
  - intros d Hd. injection Hd as <-.
    exists (Sample.dev 2 NETREG_REGISTERED), Sample.driver. split; reflexivity.
  - exists s'. split; [exact Hrun |]. rewrite Htr. reflexivity.
Defined.

(** C9 as claimed fails: on a prepared program the driver's DESTROY is
    dispatched first and the id is released after it. *)
Lemma destroy_free_id_after_dispatch :
  let t := trace (Sample.exec (bpf_prog_offload_destroy 1%nat) Sample.prepped1) in
  t = [EvRtnlLock; EvDownWrite; EvNdo 10%nat BPF_OFFLOAD_DESTROY 1%nat 0;
       EvFreeId 1%nat; EvListDelInit 100%nat; EvUpWrite; EvRtnlUnlock;
       EvKfree 100%nat] /\
  index_of (EvNdo 10%nat BPF_OFFLOAD_DESTROY 1%nat 0) t = Some 2%nat /\
  index_of (EvFreeId 1%nat) t = Some 3%nat /\
  ~ (exists i j, index_of (EvFreeId 1%nat) t = Some i /\
                 index_of (EvNdo 10%nat BPF_OFFLOAD_DESTROY 1%nat 0) t = Some j /\
                 (i < j)%nat).
Proof.
  assert (Ht : trace (Sample.exec (bpf_prog_offload_destroy 1%nat) Sample.prepped1)
    = [EvRtnlLock; EvDownWrite; EvNdo 10%nat BPF_OFFLOAD_DESTROY 1%nat 0;
       EvFreeId 1%nat; EvListDelInit 100%nat; EvUpWrite; EvRtnlUnlock;
       EvKfree 100%nat]) by (vm_compute; reflexivity).
  cbv zeta. rewrite Ht. repeat split.
  intros (i & j & Hi & Hj & Hlt).
  vm_compute in Hi, Hj. simplify_eq. lia.
Qed.

Lemma unbound_idemp off : unbound (unbound off) = unbound off.
Proof. reflexivity. Qed.

Lemma set_aux_id_idemp v : set_aux_id 0 (set_aux_id 0 v) = set_aux_id 0 v.
Proof. reflexivity. Qed.

(** C3, as the code has it: once [__bpf_prog_offload_destroy] has run for a
    program (from the notifier's sweep or otherwise), running it again
    dispatches nothing to the driver and leaves descriptors, programs,
    devices and the list as they are; [bpf_prog_offload_destroy] run after it
    dispatches nothing either, leaves the list as it is and frees the
    descriptor. *)
Theorem teardown_after_unbind_is_quiet (s : kstate) (p : nat) (s1 : kstate) :
  __bpf_prog_offload_destroy p s = Done tt s1 ->
  exists o,
    (progs s1 !! p ≫= aux_offload) = Some o /\
    (exists s2,
       __bpf_prog_offload_destroy p s1 = Done tt s2 /\
       offloads s2 = offloads s1 /\ progs s2 = progs s1 /\
       netdevs s2 = netdevs s1 /\
       bpf_prog_offload_devs s2 = bpf_prog_offload_devs s1 /\
       trace s2 = trace s1 ++ [EvFreeId p; EvListDelInit o]) /\
    (exists s3,
       bpf_prog_offload_destroy p s1 = Done tt s3 /\
       offloads s3 = delete o (offloads s1) /\ progs s3 = progs s1 /\
       netdevs s3 = netdevs s1 /\
       bpf_prog_offload_devs s3 = bpf_prog_offload_devs s1 /\
       trace s3 = trace s1 ++ [EvRtnlLock; EvDownWrite; EvFreeId p;
                               EvListDelInit o; EvUpWrite; EvRtnlUnlock;
                               EvKfree o]).
Proof.
  intros H. apply destroy_in_place_inv in H as (v & o & off & Hp & Hv & Ho & ->).
  rewrite (unbind_eq s p v o off Hp Ho).
  set (s1 := {| offloads := _ |}).
  assert (Hp1 : progs s1 !! p = Some (set_aux_id 0 v)) by apply lookup_insert_eq.
  assert (Ho1 : offloads s1 !! o = Some (unbound off)) by apply lookup_insert_eq.
  assert (Hd1 : dispatchable s1 (unbound off)) by (intros d Hd; discriminate).
  exists o. split; [by rewrite Hp1 |]. split.
  - eexists. split; [by eapply destroy_in_place_run |].
    rewrite (unbind_eq s1 p _ o _ Hp1 Ho1). simpl.
    rewrite !insert_insert_eq, filter_ne_idemp. done.
  - eexists. split; [by eapply destroy_run |]. simpl.
    rewrite !insert_insert_eq, filter_ne_idemp. done.
Qed.

Lemma teardown_after_unbind_is_quiet_witness :
  let s1 := Sample.exec (__bpf_prog_offload_destroy 1%nat) Sample.prepped1 in
  __bpf_prog_offload_destroy 1%nat Sample.prepped1 = Done tt s1 /\
  exists s3,
    bpf_prog_offload_destroy 1%nat s1 = Done tt s3 /\
    bpf_prog_offload_devs s3 = bpf_prog_offload_devs s1 /\
    trace s3 = trace s1 ++ [EvRtnlLock; EvDownWrite; EvFreeId 1%nat;
                            EvListDelInit 100%nat; EvUpWrite; EvRtnlUnlock;
                            EvKfree 100%nat].
Proof.
  assert (Hfirst : __bpf_prog_offload_destroy 1%nat Sample.prepped1
            = Done tt (Sample.exec (__bpf_prog_offload_destroy 1%nat) Sample.prepped1))
    by (vm_compute; reflexivity).
  cbv zeta. split; [exact Hfirst |].
  destruct (teardown_after_unbind_is_quiet Sample.prepped1 1%nat _ Hfirst)
    as (o & Ho & _ & (s3 & Hrun & _ & _ & _ & Hl & Ht)).
  vm_compute in Ho. injection Ho as <-.
  exists s3. split; [exact Hrun |]. split; [exact Hl | exact Ht].
Defined.

(** C3 as claimed fails: [bpf_prog_offload_destroy] frees the descriptor and
    leaves [prog->aux->offload] pointing at it, so a second call reads freed
    memory. *)
Lemma destroy_twice_uses_freed_descriptor :
  (exists s1, bpf_prog_offload_destroy 1%nat Sample.prepped1 = Done tt s1 /\
              offloads s1 !! 100%nat = None /\
              (progs s1 !! 1%nat ≫= aux_offload) = Some 100%nat) /\
  bpf_prog_offload_destroy 1%nat
    (Sample.exec (bpf_prog_offload_destroy 1%nat) Sample.prepped1)
    = Oops BadPointer.
Proof.
  split.
  - eexists. split; [| split].
    + eapply (destroy_run Sample.prepped1 1%nat _ 100%nat _); try reflexivity.
      intros d Hd. injection Hd as <-.
      exists (Sample.dev 2 NETREG_REGISTERED), Sample.driver. split; reflexivity.
    + reflexivity.
    + reflexivity.
  - vm_compute. reflexivity.
Qed.

(** ** Verifier hooks *)

Lemma verifier_prep_inv s p r s' :
  bpf_prog_offload_verifier_prep p s = Done r s' ->
  exists v o off,
    progs s !! p = Some v /\ aux_offload v = Some o /\
    offloads s !! o = Some off /\
    ((netdev off = None /\ r = - ENODEV /\
      s' = log [EvRtnlLock; EvRtnlUnlock] s) \/
     (exists d dev h,
        netdev off = Some d /\ netdevs s !! d = Some dev /\
        ndo_bpf dev = Some h /\
        r = ndo_ret (h BPF_OFFLOAD_VERIFIER_PREP p) /\
        ((r <> 0 /\
          s' = log [EvRtnlLock; EvNdo d BPF_OFFLOAD_VERIFIER_PREP p r;
                    EvRtnlUnlock] s) \/
         (r = 0 /\
          s' = log [EvRtnlLock; EvNdo d BPF_OFFLOAD_VERIFIER_PREP p r;
                    EvRtnlUnlock]
                 (with_offloads
                    (<[o := prepared (h BPF_OFFLOAD_VERIFIER_PREP p) off]>
                       (offloads s)) s))))).
Proof.
  intros H.
  unfold bpf_prog_offload_verifier_prep, __bpf_offload_ndo in H.
  run; eexists _, _, _; (repeat split; [eassumption ..|]).
  all: try (left; repeat split; state_eq; done).
  all: right; eexists _, _, _; (repeat split; [eassumption ..|]).
  all: first [ left; split; [done |]; state_eq; done
             | right; split; [done |]; unfold with_offloads, prepared;
               state_eq; done
             | idtac ].
  simplify_map_eq. right. split; [lia |].
  unfold with_offloads, prepared. state_eq.
Qed.

Lemma verify_insn_nodev s p v o off i j :
  progs s !! p = Some v -> aux_offload v = Some o ->
  offloads s !! o = Some off -> netdev off = None ->
  bpf_prog_offload_verify_insn p i j s
    = Done (- ENODEV) (log [EvDownRead; EvUpRead] s).
Proof.
  intros Hp Hv Ho Hnd.
  unfold bpf_prog_offload_verify_insn. unfold_m. simpl.
  rewrite Hp, Hv. simpl. rewrite Ho. simpl. rewrite Hnd.
  f_equal. state_eq.
Qed.

Lemma verify_insn_unprepared s p v o off d i j :
  progs s !! p = Some v -> aux_offload v = Some o ->
  offloads s !! o = Some off -> netdev off = Some d -> dev_ops off = None ->
  bpf_prog_offload_verify_insn p i j s = Oops NullDeref.
Proof.
  intros Hp Hv Ho Hnd Hops.
  unfold bpf_prog_offload_verify_insn. unfold_m. simpl.
  rewrite Hp, Hv. simpl. rewrite Ho. simpl. by rewrite Hnd, Hops.
Qed.

(** ** Translation *)

Lemma compile_run s p v o off :
  progs s !! p = Some v -> aux_offload v = Some o ->
  offloads s !! o = Some off -> dispatchable s off ->
  exists r new,
    bpf_prog_offload_compile p s
      = Done r (log new (with_progs (<[p := set_bpf_func bpf_prog_warn_on_exec v]>
                                       (progs s)) s)).
Proof.
  intros Hp Hv Ho Hd.
  unfold bpf_prog_offload_compile, bpf_prog_offload_translate, __bpf_offload_ndo.
  unfold_m. simpl.
  repeat (progress (rewrite ?Hp, ?Hv, ?Ho, ?lookup_insert_eq; simpl)).
  destruct (netdev off) as [d|] eqn:Hnd; simpl.
  - destruct (Hd d Hnd) as (dev & h & Hdev & Hh). rewrite Hdev, Hh. simpl.
    eexists _, [_; _; _]. f_equal. state_eq.
  - eexists _, [_; _]. f_equal. state_eq.
Qed.

Lemma compile_inv s p r s' :
  bpf_prog_offload_compile p s = Done r s' ->
  exists v new,
    progs s !! p = Some v /\
    s' = log new (with_progs (<[p := set_bpf_func bpf_prog_warn_on_exec v]>
                                (progs s)) s).
Proof.
  intros H.
  unfold bpf_prog_offload_compile, bpf_prog_offload_translate,
    __bpf_offload_ndo in H.
  run; eexists _;
    [ eexists [EvRtnlLock; EvNdo _ _ _ _; EvRtnlUnlock]
    | exists [EvRtnlLock; EvRtnlUnlock] ];
    (split; [reflexivity |]); unfold with_progs; state_eq.
Qed.

(** C8: [bpf_prog_offload_compile] points [prog->bpf_func] at
    [bpf_prog_warn_on_exec] whatever the driver answers to TRANSLATE, and it
    does return for a program whose descriptor is in place; the guard,
    whatever context and instructions it is called with, runs nothing: it
    logs the warning and returns 0. *)
Theorem compile_installs_guard (s : kstate) (p : nat) :
  (forall r s',
     bpf_prog_offload_compile p s = Done r s' ->
     exists v', progs s' !! p = Some v' /\
                bpf_func v' = bpf_prog_warn_on_exec) /\
  (forall v o off,
     progs s !! p = Some v -> aux_offload v = Some o ->
     offloads s !! o = Some off -> dispatchable s off ->
     exists r s', bpf_prog_offload_compile p s = Done r s') /\
  (forall ctx insn,
     bpf_prog_warn_on_exec ctx insn
       = (0, [EvWarn "attempt to execute device eBPF program on the host!"])).
Proof.
  split; [| split].
  - intros r s' H. apply compile_inv in H as (v & new & Hp & ->).
    eexists. split; [apply lookup_insert_eq | reflexivity].
  - intros v o off Hp Hv Ho Hd.
    destruct (compile_run s p v o off Hp Hv Ho Hd) as (r & new & H). eauto.
  - reflexivity.
Qed.

Lemma compile_installs_guard_witness :
  exists r s' v',
    bpf_prog_offload_compile 1%nat Sample.prepped1 = Done r s' /\
    progs s' !! 1%nat = Some v' /\
    bpf_func v' 7 [1; 2; 3]
      = (0, [EvWarn "attempt to execute device eBPF program on the host!"]).
Proof.
  destruct (compile_installs_guard Sample.prepped1 1%nat) as (Hguard & Hret & Hwarn).
  destruct (Hret {| aux_offload := Some 100%nat; aux_id := 41;
                    bpf_func := Sample.interp |}
                 100%nat
                 {| prog := Some 1%nat; netdev := Some 10%nat;
                    dev_ops := Some Sample.hooks; dev_state := true |})
    as (r & s' & Hrun); try reflexivity.
  { intros d Hd. injection Hd as <-.
    exists (Sample.dev 2 NETREG_REGISTERED), Sample.driver. split; reflexivity. }
  destruct (Hguard r s' Hrun) as (v' & Hv' & Hf).
  exists r, s', v'. split; [exact Hrun |]. split; [exact Hv' |].
  rewrite Hf. apply Hwarn.
Defined.

(** ** Info reporting *)

Lemma info_fill_ns_null_netdev s p v o off info :
  progs s !! p = Some v -> aux_offload v = Some o ->
  offloads s !! o = Some off -> netdev off = None ->
  bpf_prog_offload_info_fill_ns p info s = Oops NullDeref.
Proof.
  intros Hp Hv Ho Hnd. unfold bpf_prog_offload_info_fill_ns. unfold_m. simpl.
  rewrite Hp. simpl. rewrite Hv. simpl. rewrite Ho. simpl. by rewrite Hnd.
Qed.

(** C5 fails on the code: after the notifier has cleared the descriptor of
    program 1, [bpf_prog_offload_verify_insn] answers -ENODEV, but
    [bpf_prog_offload_info_fill] tests [aux->offload] only and follows the
    NULL [netdev]. *)
Theorem info_fill_after_removal_faults :
  bpf_offload_notification NETDEV_UNREGISTER 10%nat Sample.unregistering
    = Done NOTIFY_OK
        (Sample.exec (bpf_offload_notification NETDEV_UNREGISTER 10%nat)
           Sample.unregistering) /\
  (offloads Sample.swept !! 100%nat ≫= netdev) = None /\
  bpf_prog_offload_verify_insn 1%nat 0 0 Sample.swept
    = Done (- ENODEV) (log [EvDownRead; EvUpRead] Sample.swept) /\
  bpf_prog_offload_info_fill Sample.ns_resolver Sample.encode_dev
      Sample.zero_info 1%nat Sample.swept
    = Oops NullDeref.
Proof.
  split; [vm_compute; reflexivity |].
  split; [reflexivity |].
  split.
  - apply (verify_insn_nodev Sample.swept 1%nat
             {| aux_offload := Some 100%nat; aux_id := 0;
                bpf_func := Sample.interp |}
             100%nat
             {| prog := Some 1%nat; netdev := None;
                dev_ops := Some Sample.hooks; dev_state := false |});
      reflexivity.
  - unfold bpf_prog_offload_info_fill.
    rewrite (bind_fault _ _ _ NullDeref); [reflexivity |].
    apply (info_fill_ns_null_netdev Sample.swept 1%nat
             {| aux_offload := Some 100%nat; aux_id := 0;
                bpf_func := Sample.interp |}
             100%nat
             {| prog := Some 1%nat; netdev := None;
                dev_ops := Some Sample.hooks; dev_state := false |});
      reflexivity.
Qed.

Lemma info_fill_ns_no_descriptor s p v info :
  progs s !! p = Some v -> aux_offload v = None ->
  bpf_prog_offload_info_fill_ns p info s
    = Done (set_info_ifindex 0 info, None)
           (log [EvRtnlLock; EvDownRead; EvUpRead; EvRtnlUnlock] s).
Proof.
  intros Hp Hv. unfold bpf_prog_offload_info_fill_ns. unfold_m. simpl.
  rewrite Hp. simpl. rewrite Hv. simpl. f_equal. state_eq.
Qed.

Lemma info_fill_ns_bound s p v o off d dev info :
  progs s !! p = Some v -> aux_offload v = Some o ->
  offloads s !! o = Some off -> netdev off = Some d ->
  netdevs s !! d = Some dev ->
  bpf_prog_offload_info_fill_ns p info s
    = Done (set_info_ifindex (ifindex dev) info, Some (nd_net dev))
           (log [EvRtnlLock; EvDownRead; EvGetNet (nd_net dev); EvUpRead;
                 EvRtnlUnlock] s).
Proof.
  intros Hp Hv Ho Hnd Hdev. unfold bpf_prog_offload_info_fill_ns. unfold_m. simpl.
  rewrite Hp. simpl. rewrite Hv. simpl. rewrite Ho. simpl. rewrite Hnd. simpl.
  rewrite Hdev. simpl. f_equal. state_eq.
Qed.

(** C6, as the code has it: for a program without a descriptor,
    [bpf_prog_offload_info_fill] writes [ifindex = 0] and, the namespace
    lookup having failed, returns -ENODEV; for a program bound to a device it
    returns the lookup's own error when the lookup fails (and -ENODEV should
    the device's index be 0), and 0 with the namespace identity filled in
    when it succeeds. *)
Theorem info_fill_return_codes
    (ns_get_path_cb : option nat -> ns_path_result) (new_encode_dev : Z -> Z)
    (s : kstate) (p : nat) (info : bpf_prog_info) :
  (forall v err,
     progs s !! p = Some v -> aux_offload v = None ->
     ns_get_path_cb None = NsErr err ->
     bpf_prog_offload_info_fill ns_get_path_cb new_encode_dev info p s
       = Done (- ENODEV, set_info_ifindex 0 info)
              (log [EvRtnlLock; EvDownRead; EvUpRead; EvRtnlUnlock] s)) /\
  (forall v o off d dev,
     progs s !! p = Some v -> aux_offload v = Some o ->
     offloads s !! o = Some off -> netdev off = Some d ->
     netdevs s !! d = Some dev ->
     bpf_prog_offload_info_fill ns_get_path_cb new_encode_dev info p s
       = match ns_get_path_cb (Some (nd_net dev)) with
         | NsErr err =>
             Done (if decide (ifindex dev = 0) then - ENODEV else err,
                   set_info_ifindex (ifindex dev) info)
                  (log [EvRtnlLock; EvDownRead; EvGetNet (nd_net dev);
                        EvUpRead; EvRtnlUnlock] s)
         | NsPath s_dev i_ino =>
             Done (0, {| info_ifindex := ifindex dev;
                         netns_dev := new_encode_dev s_dev;
                         netns_ino := i_ino |})
                  (log [EvRtnlLock; EvDownRead; EvGetNet (nd_net dev);
                        EvUpRead; EvRtnlUnlock; EvPathPut] s)
         end).
Proof.
  split.
  - intros v err Hp Hv Hcb. unfold bpf_prog_offload_info_fill.
    rewrite (bind_run _ _ _ _ _ (info_fill_ns_no_descriptor s p v info Hp Hv)).
    simpl. rewrite Hcb. reflexivity.
  - intros v o off d dev Hp Hv Ho Hnd Hdev. unfold bpf_prog_offload_info_fill.
    rewrite (bind_run _ _ _ _ _ (info_fill_ns_bound s p v o off d dev info
                                   Hp Hv Ho Hnd Hdev)).
    simpl. destruct (ns_get_path_cb (Some (nd_net dev))) as [err|sd ino].
    + destruct (decide (ifindex dev = 0)); reflexivity.
    + unfold_m. simpl. f_equal. state_eq.
Qed.

Lemma info_fill_return_codes_witness :
  bpf_prog_offload_info_fill Sample.ns_resolver Sample.encode_dev
      Sample.zero_info 2%nat Sample.boot
    = Done (- ENODEV, Sample.zero_info)
           (log [EvRtnlLock; EvDownRead; EvUpRead; EvRtnlUnlock] Sample.boot) /\
  bpf_prog_offload_info_fill Sample.ns_resolver Sample.encode_dev
      Sample.zero_info 1%nat Sample.bound1
    = Done (0, {| info_ifindex := 2; netns_dev := 4; netns_ino := 4026531841 |})
           (log [EvRtnlLock; EvDownRead; EvGetNet 1%nat; EvUpRead;
                 EvRtnlUnlock; EvPathPut] Sample.bound1).
Proof.
  split.
  - apply (proj1 (info_fill_return_codes Sample.ns_resolver Sample.encode_dev
                    Sample.boot 2%nat Sample.zero_info)
             (Sample.fresh_prog 42) (- ENOENT)); reflexivity.
  - apply (proj2 (info_fill_return_codes Sample.ns_resolver Sample.encode_dev
                    Sample.bound1 1%nat Sample.zero_info)
             {| aux_offload := Some 100%nat; aux_id := 41;
                bpf_func := Sample.interp |}
             100%nat
             {| prog := Some 1%nat; netdev := Some 10%nat;
                dev_ops := None; dev_state := false |}
             10%nat (Sample.dev 2 NETREG_REGISTERED)); reflexivity.
Defined.

(** C6 as claimed fails: for a program that was never offloaded the failed
    namespace lookup comes back as the error -ENODEV, not as success. *)
Lemma info_fill_unbound_is_an_error :
  (progs Sample.boot !! 2%nat ≫= aux_offload) = None /\
  exists s',
    bpf_prog_offload_info_fill Sample.ns_resolver Sample.encode_dev
        Sample.zero_info 2%nat Sample.boot
      = Done (- ENODEV, Sample.zero_info) s' /\
    - ENODEV <> 0.
Proof.
  split; [reflexivity |].
  eexists. split; [| unfold ENODEV; lia].
  unfold bpf_prog_offload_info_fill.
  rewrite (bind_run _ _ _ _ _
             (info_fill_ns_no_descriptor Sample.boot 2%nat (Sample.fresh_prog 42)
                Sample.zero_info eq_refl eq_refl)).
  reflexivity.
Qed.

(** ** Lock discipline *)

Lemma sync_events_app t1 t2 :
  sync_events (t1 ++ t2) = sync_events t1 ++ sync_events t2.
Proof. apply filter_app. Qed.

Lemma sync_events_cons e t :
  sync_events (e :: t) = if is_sync e then e :: sync_events t else sync_events t.
Proof.
  unfold sync_events. rewrite filter_cons.
  destruct (is_sync e); by case_decide.
Qed.

Lemma lock_order_ok_sync l t :
  lock_order_ok l (sync_events t) = lock_order_ok l t.
Proof.
  revert l. induction t as [|e t IH]; intros l; [done |].
  rewrite sync_events_cons. destruct e; simpl; by rewrite IH.
Qed.

Lemma locks_at_reg_check_sync l t :
  locks_at_reg_check l (sync_events t) = locks_at_reg_check l t.
Proof.
  revert l. induction t as [|e t IH]; intros l; [done |].
  rewrite sync_events_cons. destruct e; simpl; by rewrite IH.
Qed.

Lemma syncs_ret {A} (a : A) : syncs (ret a) [].
Proof.
  intros s a' s' H. unfold ret in H. simplify_eq.
  exists []. by rewrite app_nil_r.
Qed.

Lemma syncs_bind {A B} (m : M A) (k : A -> M B) L1 L2 :
  syncs m L1 -> (forall a, syncs (k a) L2) -> syncs (bind m k) (L1 ++ L2).
Proof.
  intros Hm Hk s b s' H. apply bind_Done in H as (a & s1 & H1 & H2).
  destruct (Hm _ _ _ H1) as (n1 & Ht1 & Hs1).
  destruct (Hk a _ _ _ H2) as (n2 & Ht2 & Hs2).
  exists (n1 ++ n2). split.
  - by rewrite Ht2, Ht1, app_assoc.
  - by rewrite sync_events_app, Hs1, Hs2.
Qed.

Lemma syncs_emit e : syncs (emit e) (sync_events [e]).
Proof. intros s a s' H. unfold emit in H. simplify_eq. by exists [e]. Qed.

Lemma syncs_same_trace {A} (m : M A) :
  (forall s a s', m s = Done a s' -> trace s' = trace s) -> syncs m [].
Proof.
  intros Hm s a s' H. exists []. split; [| done].
  rewrite app_nil_r. by eapply Hm.
Qed.

(** Solves [syncs] goals for straight-line code by running it. *)
Ltac syncs_by_running :=
  let s := fresh "s" in let a := fresh "a" in
  let s' := fresh "s'" in let H := fresh "H" in
  intros s a s' H; run; try simplify_eq;
  first [ by (exists []; rewrite app_nil_r)
        | eexists; split; [rewrite <- ?app_assoc; reflexivity | reflexivity] ].

Lemma syncs_offload_ndo p cmd : syncs (__bpf_offload_ndo p cmd) [].
Proof. unfold __bpf_offload_ndo. syncs_by_running. Qed.

Lemma sync_destroy_dispatch_events s p off :
  sync_events (destroy_dispatch_events s p off) = [].
Proof.
  unfold destroy_dispatch_events.
  repeat case_match; reflexivity.
Qed.

Lemma syncs_destroy_in_place p : syncs (__bpf_prog_offload_destroy p) [].
Proof.
  intros s [] s' H.
  apply destroy_in_place_inv in H as (v & o & off & Hp & Hv & Ho & ->).
  rewrite (unbind_eq s p v o off Hp Ho). simpl.
  eexists. split; [reflexivity |].
  by rewrite sync_events_app, sync_destroy_dispatch_events.
Qed.

Lemma syncs_destroy p :
  syncs (bpf_prog_offload_destroy p)
        [EvRtnlLock; EvDownWrite; EvUpWrite; EvRtnlUnlock].
Proof.
  unfold bpf_prog_offload_destroy.
  change [EvRtnlLock; EvDownWrite; EvUpWrite; EvRtnlUnlock]
    with ([] ++ [EvRtnlLock] ++ [EvDownWrite] ++ [] ++ [EvUpWrite]
             ++ [EvRtnlUnlock] ++ []).
  apply syncs_bind; [unfold load_prog; syncs_by_running | intros v].
  apply syncs_bind; [apply (syncs_emit EvRtnlLock) | intros _].
  apply syncs_bind; [apply (syncs_emit EvDownWrite) | intros _].
  apply syncs_bind; [apply syncs_destroy_in_place | intros _].
  apply syncs_bind; [apply (syncs_emit EvUpWrite) | intros _].
  apply syncs_bind; [apply (syncs_emit EvRtnlUnlock) | intros _].
  destruct (aux_offload v); syncs_by_running.
Qed.

Lemma syncs_verifier_prep p :
  syncs (bpf_prog_offload_verifier_prep p) [EvRtnlLock; EvRtnlUnlock].
Proof. unfold bpf_prog_offload_verifier_prep, __bpf_offload_ndo. syncs_by_running. Qed.

Lemma syncs_compile p :
  syncs (bpf_prog_offload_compile p) [EvRtnlLock; EvRtnlUnlock].
Proof.
  unfold bpf_prog_offload_compile, bpf_prog_offload_translate, __bpf_offload_ndo.
  syncs_by_running.
Qed.

Lemma syncs_verify_insn p i j :
  syncs (bpf_prog_offload_verify_insn p i j) [EvDownRead; EvUpRead].
Proof. unfold bpf_prog_offload_verify_insn. syncs_by_running. Qed.

Lemma syncs_info_fill_ns p info :
  syncs (bpf_prog_offload_info_fill_ns p info)
        [EvRtnlLock; EvDownRead; EvUpRead; EvRtnlUnlock].
Proof. unfold bpf_prog_offload_info_fill_ns. syncs_by_running. Qed.

Lemma syncs_info_fill cb enc info p :
  syncs (bpf_prog_offload_info_fill cb enc info p)
        [EvRtnlLock; EvDownRead; EvUpRead; EvRtnlUnlock].
Proof.
  unfold bpf_prog_offload_info_fill.
  change [EvRtnlLock; EvDownRead; EvUpRead; EvRtnlUnlock]
    with ([EvRtnlLock; EvDownRead; EvUpRead; EvRtnlUnlock] ++ []).
  apply syncs_bind; [apply syncs_info_fill_ns | intros r].
  syncs_by_running.
Qed.

Lemma syncs_offload_sweep fuel nd pos tmp :
  syncs (offload_sweep fuel nd pos tmp) [].
Proof.
  revert pos tmp. induction fuel as [|fuel IH]; intros [o|] tmp; simpl;
    try apply syncs_ret.
  - intros s a s' H. discriminate.
  - change (@nil event) with ([] ++ [] ++ [] ++ @nil event).
    apply syncs_bind; [unfold load_offload; syncs_by_running | intros off].
    apply syncs_bind.
    { destruct (decide (netdev off = Some nd)); [| apply syncs_ret].
      change (@nil event) with ([] ++ @nil event).
      apply syncs_bind; [unfold deref; destruct (prog off); syncs_by_running |].
      intros p. apply syncs_destroy_in_place. }
    intros _.
    apply syncs_bind; [unfold get_state; syncs_by_running | intros s0].
    apply IH.
Qed.

Lemma syncs_notification ev nd s r s' :
  bpf_offload_notification ev nd s = Done r s' ->
  exists new, trace s' = trace s ++ new /\
    (sync_events new = [] \/ sync_events new = [EvDownWrite; EvUpWrite]).
Proof.
  intros H.
  assert (Hquiet : forall (r0 : Z), ret r0 s = Done r s' ->
            exists new, trace s' = trace s ++ new /\
              (sync_events new = [] \/ sync_events new = [EvDownWrite; EvUpWrite])).
  { intros r0 Hr. unfold ret in Hr. simplify_eq.
    exists []. rewrite app_nil_r. auto. }
  destruct ev; simpl in H; try (by eapply Hquiet).
  apply bind_Done in H as (dev & s1 & Hdev & H).
  unfold load_netdev in Hdev. destruct (netdevs s !! nd); simplify_eq.
  destruct (decide (reg_state dev <> NETREG_UNREGISTERING)); [by eapply Hquiet |].
  assert (Hs : syncs
    (emit EvDownWrite;;
     let* s := get_state in
     offload_sweep (length (bpf_prog_offload_devs s)) nd (list_next None s)
       (list_next (list_next None s) s);;
     emit EvUpWrite;; ret NOTIFY_OK)
    ([EvDownWrite] ++ [] ++ [] ++ [EvUpWrite] ++ [])).
  { apply syncs_bind; [apply (syncs_emit EvDownWrite) | intros _].
    apply syncs_bind; [unfold get_state; syncs_by_running | intros s0].
    apply syncs_bind; [apply syncs_offload_sweep | intros _].
    apply syncs_bind; [apply (syncs_emit EvUpWrite) | intros _].
    apply syncs_ret. }
  destruct (Hs _ _ _ H) as (new & Ht & Hn). exists new. auto.
Qed.

Lemma syncs_init capable net_ns mem p attr s r s' :
  bpf_prog_offload_init capable net_ns mem p attr s = Done r s' ->
  exists new, trace s' = trace s ++ new /\
    (sync_events new = [] \/
     exists d, sync_events new = [EvDownWrite; EvRegStateRead d; EvUpWrite]).
Proof.
  intros H.
  unfold bpf_prog_offload_init, init_err_maybe_put, bpf_dev_offload_check in H.
  run; try simplify_eq;
    first [ by (exists []; rewrite app_nil_r; auto)
          | eexists; split; [rewrite <- ?app_assoc; reflexivity |];
            first [by left | right; eexists; reflexivity] ].
Qed.

Lemma run_call_result {A} (m : M A) s s' :
  bind m (fun _ => ret tt) s = Done tt s' -> exists r, m s = Done r s'.
Proof.
  intros H. apply bind_Done in H as (r & s1 & H1 & H2).
  unfold ret in H2. simplify_eq. eauto.
Qed.

Lemma elem_of_sync_events e t : e ∈ t -> is_sync e = true -> e ∈ sync_events t.
Proof. intros He Hs. unfold sync_events. by apply list_elem_of_filter. Qed.

(** C10, as the code has it: whatever entry point runs, RTNL is never taken
    while [bpf_devs_lock] is held; [bpf_prog_offload_destroy] and the info
    reporter take RTNL first and the registry lock second and release them in
    the opposite order; [bpf_prog_offload_init] never takes RTNL, and each
    read of [reg_state] it makes happens under the registry write lock
    alone. *)
Theorem lock_order_of_entry_points (c : call) (s s' : kstate) :
  run_call c s = Done tt s' ->
  exists new,
    trace s' = trace s ++ new /\
    lock_order_ok (entry_locks c) new = true /\
    (forall p, c = CallDestroy p ->
       sync_events new = [EvRtnlLock; EvDownWrite; EvUpWrite; EvRtnlUnlock]) /\
    (forall cb enc info p, c = CallInfoFill cb enc info p ->
       sync_events new = [EvRtnlLock; EvDownRead; EvUpRead; EvRtnlUnlock]) /\
    (forall capable net_ns mem p attr,
       c = CallInit capable net_ns mem p attr ->
       (EvRtnlLock ∉ new) /\
       forall l, l ∈ locks_at_reg_check no_locks new -> l = write_locked_only).
Proof.
  intros H. destruct c; simpl in H.
  - apply run_call_result in H as (r & H).
    destruct (syncs_init _ _ _ _ _ _ _ _ H) as (new & Ht & Hn).
    exists new. split; [done |].
    rewrite <- lock_order_ok_sync.
    split; [destruct Hn as [-> | (d & ->)]; reflexivity |].
    split; [discriminate |]. split; [discriminate |].
    intros ? ? ? ? ? _. split.
    + intros Hin. apply elem_of_sync_events in Hin; [| done].
      destruct Hn as [Hn | (d & Hn)]; rewrite Hn in Hin.
      * by apply elem_of_nil in Hin.
      * repeat (apply elem_of_cons in Hin as [Hin | Hin]; [discriminate |]).
        by apply elem_of_nil in Hin.
    + intros l. rewrite <- locks_at_reg_check_sync.
      destruct Hn as [-> | (d & ->)]; simpl.
      * intros Hin. by apply elem_of_nil in Hin.
      * intros Hin. apply elem_of_cons in Hin as [-> | Hin]; [done |].
        by apply elem_of_nil in Hin.
  - apply run_call_result in H as (r & H).
    destruct (syncs_verifier_prep _ _ _ _ H) as (new & Ht & Hn).
    exists new. split; [done |]. rewrite <- lock_order_ok_sync, Hn.
    split; [reflexivity |]. repeat split; discriminate.
  - apply run_call_result in H as (r & H).
    destruct (syncs_verify_insn _ _ _ _ _ _ H) as (new & Ht & Hn).
    exists new. split; [done |]. rewrite <- lock_order_ok_sync, Hn.
    split; [reflexivity |]. repeat split; discriminate.
  - apply run_call_result in H as (r & H).
    destruct (syncs_compile _ _ _ _ H) as (new & Ht & Hn).
    exists new. split; [done |]. rewrite <- lock_order_ok_sync, Hn.
    split; [reflexivity |]. repeat split; discriminate.
  - destruct (syncs_destroy _ _ _ _ H) as (new & Ht & Hn).
    exists new. split; [done |]. rewrite <- lock_order_ok_sync, Hn.
    split; [reflexivity |]. split; [done |]. split; discriminate.
  - apply run_call_result in H as (r & H).
    destruct (syncs_info_fill _ _ _ _ _ _ _ H) as (new & Ht & Hn).
    exists new. split; [done |]. rewrite <- lock_order_ok_sync, Hn.
    split; [reflexivity |]. split; [discriminate |]. split; [done | discriminate].
  - apply run_call_result in H as (r & H).
    destruct (syncs_notification _ _ _ _ _ H) as (new & Ht & Hn).
    exists new. split; [done |]. rewrite <- lock_order_ok_sync.
    split; [destruct Hn as [-> | ->]; reflexivity |].
    repeat split; discriminate.
Qed.

Lemma lock_order_of_entry_points_witness :
  exists s' new,
    run_call (CallDestroy 1%nat) Sample.prepped1 = Done tt s' /\
    trace s' = trace Sample.prepped1 ++ new /\
    lock_order_ok no_locks new = true /\
    sync_events new = [EvRtnlLock; EvDownWrite; EvUpWrite; EvRtnlUnlock].
Proof.
  assert (Hrun : run_call (CallDestroy 1%nat) Sample.prepped1
            = Done tt (Sample.exec (bpf_prog_offload_destroy 1%nat) Sample.prepped1))
    by (vm_compute; reflexivity).
  destruct (lock_order_of_entry_points (CallDestroy 1%nat) Sample.prepped1 _ Hrun)
    as (new & Ht & Hok & Hd & _).
  exists (Sample.exec (bpf_prog_offload_destroy 1%nat) Sample.prepped1), new.
  split; [exact Hrun |]. split; [exact Ht |]. split; [exact Hok |].
  apply (Hd 1%nat eq_refl).
Defined.

(** C10 as claimed fails for [bpf_prog_offload_init]: when it reads the
    device's [reg_state] it holds the registry write lock and not RTNL, which
    it never takes. *)
Lemma init_checks_reg_state_without_rtnl :
  let run := bpf_prog_offload_init true 1%nat (Some 100%nat) 1%nat (Sample.attr 2) in
  let t := trace (Sample.exec run Sample.boot) in
  (exists s', run Sample.boot = Done 0 s') /\
  t = [EvKzalloc (Some 100%nat); EvDevGetByIndex 1%nat 2 (Some 10%nat);
       EvDownWrite; EvRegStateRead 10%nat; EvListAddTail 100%nat;
       EvDevPut 10%nat; EvUpWrite] /\
  locks_at_reg_check no_locks t = [write_locked_only] /\
  ~ (forall l, l ∈ locks_at_reg_check no_locks t ->
               rtnl_held l = true /\ devs_lock l = WriteLocked).
Proof.
  cbv zeta.
  assert (Ht : trace (Sample.exec
                 (bpf_prog_offload_init true 1%nat (Some 100%nat) 1%nat (Sample.attr 2))
                 Sample.boot)
    = [EvKzalloc (Some 100%nat); EvDevGetByIndex 1%nat 2 (Some 10%nat);
       EvDownWrite; EvRegStateRead 10%nat; EvListAddTail 100%nat;
       EvDevPut 10%nat; EvUpWrite]) by (vm_compute; reflexivity).
  rewrite Ht. split; [| split; [reflexivity | split; [reflexivity |]]].
  - eexists. vm_compute. reflexivity.
  - intros Hall. destruct (Hall write_locked_only) as [Hr _].
    + simpl. apply list_elem_of_here.
    + discriminate.
Qed.

(** ** The registry invariant is maintained *)

Lemma wf_frame s s' :
  wf s ->
  offloads s' = offloads s ->
  bpf_prog_offload_devs s' = bpf_prog_offload_devs s ->
  (forall p v, progs s !! p = Some v ->
     exists v', progs s' !! p = Some v' /\ aux_offload v' = aux_offload v) ->
  (forall d dev h, netdevs s !! d = Some dev -> ndo_bpf dev = Some h ->
     exists dev', netdevs s' !! d = Some dev' /\ ndo_bpf dev' = Some h) ->
  wf s'.
Proof.
  intros [Hm Hl Hn Ho Hd] Eo El Hp Hdev.
  split; unfold registry_inv; rewrite ?Eo, ?El; try done.
  - intros o off Hin Hoff.
    destruct (Ho o off Hin Hoff) as (p & v & Hprog & Hv & Haux).
    destruct (Hp p v Hv) as (v' & Hv' & Haux').
    exists p, v'. repeat split; [done | done | congruence].
  - intros o off d Hoff Hnd.
    destruct (Hd o off d Hoff Hnd) as (dev & h & Hdv & Hh).
    destruct (Hdev d dev h Hdv Hh) as (dev' & Hdv' & Hh'). eauto.
Qed.

Lemma wf_log new s : wf s -> wf (log new s).
Proof. intros H. apply (wf_frame s); eauto. Qed.

Lemma wf_log_inv new s : wf (log new s) -> wf s.
Proof. intros H. apply (wf_frame (log new s)); eauto. Qed.

Lemma wf_set_reg_state d rs s : wf s -> wf (netdev_set_reg_state d rs s).
Proof.
  intros H. apply (wf_frame s); eauto.
  intros d' dev h Hdev Hh. simpl. rewrite lookup_alter.
  destruct (decide (d = d')) as [<-|Hne].
  - rewrite Hdev. simpl. eauto.
  - eauto.
Qed.

Lemma wf_set_progs s p v v' :
  wf s -> progs s !! p = Some v -> aux_offload v' = aux_offload v ->
  wf (with_progs (<[p := v']> (progs s)) s).
Proof.
  intros H Hp Hv. apply (wf_frame s); eauto.
  intros q w Hq. simpl. destruct (decide (p = q)) as [<-|Hne].
  - rewrite lookup_insert_eq. simplify_eq. eauto.
  - rewrite lookup_insert_ne by done. eauto.
Qed.

Lemma wf_prepared s o off r :
  wf s -> offloads s !! o = Some off ->
  wf (with_offloads (<[o := prepared r off]> (offloads s)) s).
Proof.
  intros [Hm Hl Hn Ho Hd] Hoff. split; unfold registry_inv; simpl.
  - intros o' off' H'. destruct (decide (o = o')) as [<-|Hne].
    + rewrite lookup_insert_eq in H'. simplify_eq. simpl. by apply Hm.
    + rewrite lookup_insert_ne in H' by done. by apply Hm.
  - intros o' Hin. destruct (decide (o = o')) as [<-|Hne].
    + rewrite lookup_insert_eq. eauto.
    + rewrite lookup_insert_ne by done. by apply Hl.
  - done.
  - intros o' off' Hin H'. destruct (decide (o = o')) as [<-|Hne].
    + rewrite lookup_insert_eq in H'. simplify_eq. simpl. by apply Ho.
    + rewrite lookup_insert_ne in H' by done. by apply Ho.
  - intros o' off' d H' Hnd. destruct (decide (o = o')) as [<-|Hne].
    + rewrite lookup_insert_eq in H'. simplify_eq. simpl in Hnd. by eapply Hd.
    + rewrite lookup_insert_ne in H' by done. by eapply Hd.
Qed.

Lemma wf_unbind s o p v off :
  wf s -> progs s !! p = Some v -> offloads s !! o = Some off ->
  wf (unbind o p s).
Proof.
  intros [Hm Hl Hn Ho Hd] Hp Hoff. rewrite (unbind_eq s p v o off Hp Hoff).
  split; unfold registry_inv; simpl.
  - intros o' off' H'. rewrite list_elem_of_filter.
    destruct (decide (o = o')) as [<-|Hne].
    + rewrite lookup_insert_eq in H'. simplify_eq. simpl. split; [| done].
      by intros [Hne _].
    + rewrite lookup_insert_ne in H' by done. rewrite <- (Hm o' off' H').
      split; [by intros [_ ?] | by split].
  - intros o' Hin. apply list_elem_of_filter in Hin as [Hne Hin].
    rewrite lookup_insert_ne by done. by apply Hl.
  - by apply NoDup_filter.
  - intros o' off' Hin H'. apply list_elem_of_filter in Hin as [Hne Hin].
    rewrite lookup_insert_ne in H' by done.
    destruct (Ho o' off' Hin H') as (q & w & Hq & Hw & Haux).
    destruct (decide (p = q)) as [<-|Hpq].
    + exists p, (set_aux_id 0 v). rewrite lookup_insert_eq. simplify_eq. done.
    + exists q, w. by rewrite lookup_insert_ne.
  - intros o' off' d H' Hnd. destruct (decide (o = o')) as [<-|Hne].
    + rewrite lookup_insert_eq in H'. by simplify_eq.
    + rewrite lookup_insert_ne in H' by done. by eapply Hd.
Qed.

Lemma wf_free s o :
  wf s -> o ∉ bpf_prog_offload_devs s ->
  wf (with_offloads (delete o (offloads s)) s).
Proof.
  intros [Hm Hl Hn Ho Hd] Hnot. split; unfold registry_inv; simpl.
  - intros o' off' H'. apply lookup_delete_Some in H' as [Hne H']. by apply Hm.
  - intros o' Hin. rewrite lookup_delete_ne by (intros ->; done). by apply Hl.
  - done.
  - intros o' off' Hin H'. apply lookup_delete_Some in H' as [Hne H']. by apply Ho.
  - intros o' off' d H' Hnd. apply lookup_delete_Some in H' as [Hne H'].
    by eapply Hd.
Qed.

(** ** The sweep of the notifier *)

Lemma list_after_app (o : nat) (pre rest : list nat) :
  o ∉ pre -> list_after o (pre ++ o :: rest) = Some (head rest).
Proof.
  induction pre as [|x pre IH]; simpl; intros Hnot.
  - by rewrite decide_True.
  - apply not_elem_of_cons in Hnot as [Hne Hnot].
    rewrite decide_False by done. by apply IH.
Qed.

Lemma filter_ne_middle (o : nat) (pre rest : list nat) :
  NoDup (pre ++ o :: rest) ->
  filter (fun x => x <> o) (pre ++ o :: rest) = pre ++ rest.
Proof.
  intros Hnd. apply NoDup_app in Hnd as (_ & Hdisj & Hrest).
  apply NoDup_cons in Hrest as [Hnot _].
  rewrite filter_app, filter_cons_False by (intros H; by apply H).
  rewrite !filter_ne_notin; [done | done |].
  intros Hin. apply (Hdisj o Hin). apply list_elem_of_here.
Qed.

Lemma sweep_one_bound s nd o off p :
  offloads s !! o = Some off -> netdev off = Some nd -> prog off = Some p ->
  sweep_one nd s o = unbind o p s.
Proof.
  intros Ho Hnd Hp. unfold sweep_one. rewrite Ho, Hp. by rewrite decide_True.
Qed.

Lemma sweep_one_other s nd o off :
  offloads s !! o = Some off -> netdev off <> Some nd ->
  sweep_one nd s o = s.
Proof.
  intros Ho Hnd. unfold sweep_one. rewrite Ho. by rewrite decide_False.
Qed.

Lemma sweep_ready_cons s o rest :
  sweep_ready s (o :: rest) -> sweep_ready s rest.
Proof. intros H o' Hin. apply H. by apply list_elem_of_further. Qed.

Lemma sweep_ready_unbind s o p rest :
  sweep_ready s rest -> o ∉ rest -> sweep_ready (unbind o p s) rest.
Proof.
  intros Hr Hnot o' Hin.
  destruct (Hr o' Hin) as (off & q & w & Ho & Hq & Hw & Haux & Hd).
  assert (o' <> o) by (intros ->; done).
  unfold unbind.
  destruct (offloads s !! o) as [off0|] eqn:Ho0; [| by eauto 10].
  destruct (progs s !! p) as [v|] eqn:Hp; [| by eauto 10].
  exists off. destruct (decide (p = q)) as [<-|Hpq].
  - exists p, (set_aux_id 0 v). simpl.
    rewrite lookup_insert_ne by done. rewrite lookup_insert_eq.
    simplify_eq. done.
  - exists q, w. simpl. rewrite !lookup_insert_ne by done. done.
Qed.

Lemma offload_sweep_run nd rest :
  forall pre tmp s,
    bpf_prog_offload_devs s = pre ++ rest ->
    NoDup (pre ++ rest) ->
    sweep_ready s rest ->
    (forall o rest', rest = o :: rest' -> tmp = head rest') ->
    offload_sweep (length rest) nd (head rest) tmp s
      = Done tt (sweep_all nd rest s).
Proof.
  induction rest as [|o rest IH]; intros pre tmp s Hl Hnd Hr Htmp; [done |].
  simpl. rewrite (Htmp o rest eq_refl).
  destruct (Hr o) as (off & p & v & Ho & Hp & Hv & Haux & Hd);
    [apply list_elem_of_here |].
  assert (Hnot : o ∉ rest).
  { apply NoDup_app in Hnd as (_ & _ & Hnd'). by apply NoDup_cons in Hnd' as [? _]. }
  assert (Hpre : o ∉ pre).
  { apply NoDup_app in Hnd as (_ & Hdisj & _). intros Hin.
    apply (Hdisj o Hin). apply list_elem_of_here. }
  unfold bind at 1. unfold load_offload at 1. rewrite Ho.
  assert (Hnext : forall s1 pre1,
            bpf_prog_offload_devs s1 = pre1 ++ rest -> NoDup (pre1 ++ rest) ->
            forall o2 rest2, rest = o2 :: rest2 ->
              list_next (head rest) s1 = head rest2).
  { intros s1 pre1 Hl1 Hnd1 o2 rest2 ->. simpl. rewrite Hl1.
    rewrite list_after_app; [done |].
    apply NoDup_app in Hnd1 as (_ & Hdisj & _). intros Hin.
    apply (Hdisj o2 Hin). apply list_elem_of_here. }
  destruct (decide (netdev off = Some nd)) as [Hb|Hb].
  - unfold bind at 1. unfold bind at 1. unfold deref at 1. rewrite Hp.
    unfold ret at 1.
    rewrite (destroy_in_place_run s p v o off Hv Haux Ho Hd).
    unfold bind at 1. unfold get_state at 1.
    rewrite (sweep_one_bound s nd o off p Ho Hb Hp).
    assert (Hl1 : bpf_prog_offload_devs (unbind o p s) = pre ++ rest).
    { rewrite (unbind_eq s p v o off Hv Ho). simpl. rewrite Hl.
      by apply filter_ne_middle. }
    assert (Hnd1 : NoDup (pre ++ rest)).
    { apply NoDup_app in Hnd as (H1 & H2 & H3). apply NoDup_cons in H3 as [_ H3].
      apply NoDup_app. split; [done |]. split; [| done].
      intros x Hx Hx'. apply (H2 x Hx). by apply list_elem_of_further. }
    apply (IH pre); try done.
    + apply sweep_ready_unbind; [by eapply sweep_ready_cons | done].
    + by apply (Hnext _ pre).
  - unfold bind at 1. unfold ret at 1.
    unfold bind at 1. unfold get_state at 1.
    rewrite (sweep_one_other s nd o off Ho Hb).
    assert (Hl1 : bpf_prog_offload_devs s = (pre ++ [o]) ++ rest)
      by (by rewrite <- app_assoc).
    assert (Hnd1 : NoDup ((pre ++ [o]) ++ rest)) by (by rewrite <- app_assoc).
    apply (IH (pre ++ [o])); try done.
    + by eapply sweep_ready_cons.
    + by apply (Hnext _ (pre ++ [o])).
Qed.

Lemma sweep_entry_events_unbind s nd o p x :
  x <> o ->
  sweep_entry_events (unbind o p s) nd x = sweep_entry_events s nd x.
Proof.
  intros Hne. unfold unbind.
  destruct (offloads s !! o) as [off|] eqn:Ho; [| done].
  destruct (progs s !! p) as [v|] eqn:Hp; [| done].
  unfold sweep_entry_events. simpl. by rewrite lookup_insert_ne.
Qed.

Lemma sweep_events_unbind s nd o p l :
  o ∉ l -> sweep_events (unbind o p s) nd l = sweep_events s nd l.
Proof.
  induction l as [|x l IH]; [done |]. intros Hnot.
  apply not_elem_of_cons in Hnot as [Hne Hnot]. unfold sweep_events in *. simpl.
  rewrite IH by done. by rewrite sweep_entry_events_unbind.
Qed.

Lemma sweep_all_spec nd l :
  forall s, NoDup l -> sweep_ready s l ->
    netdevs (sweep_all nd l s) = netdevs s /\
    (forall o off, offloads s !! o = Some off ->
       offloads (sweep_all nd l s) !! o
         = Some (if decide (o ∈ l /\ netdev off = Some nd)
                 then unbound off else off)) /\
    (forall o, offloads s !! o = None ->
       offloads (sweep_all nd l s) !! o = None) /\
    (forall x, x ∈ bpf_prog_offload_devs (sweep_all nd l s) <->
       x ∈ bpf_prog_offload_devs s /\
       ~ (x ∈ l /\ (offloads s !! x ≫= netdev) = Some nd)) /\
    (forall p v, progs s !! p = Some v ->
       exists v', progs (sweep_all nd l s) !! p = Some v' /\
                  aux_offload v' = aux_offload v /\ bpf_func v' = bpf_func v) /\
    trace (sweep_all nd l s) = trace s ++ sweep_events s nd l.
Proof.
  induction l as [|o l IH]; intros s Hnd Hr.
  { change (sweep_all nd [] s) with s.
    split; [done |]. split; [| split; [done |]; split; [| split]].
    - intros o off Ho. rewrite Ho. rewrite decide_False; [done |].
      intros [Hin _]. by apply elem_of_nil in Hin.
    - intros x. split; [| by intros [? _]].
      intros Hx. split; [done |]. intros [Hin _]. by apply elem_of_nil in Hin.
    - eauto.
    - by rewrite app_nil_r. }
  apply NoDup_cons in Hnd as [Hnot Hnd].
  destruct (Hr o) as (off & p & v & Ho & Hp & Hv & Haux & Hd);
    [apply list_elem_of_here |].
  change (sweep_all nd (o :: l) s) with (sweep_all nd l (sweep_one nd s o)).
  destruct (decide (netdev off = Some nd)) as [Hb|Hb].
  - rewrite (sweep_one_bound s nd o off p Ho Hb Hp).
    destruct (IH (unbind o p s) Hnd) as (E1 & E2 & E3 & E4 & E5 & E6).
    { apply sweep_ready_unbind; [by eapply sweep_ready_cons | done]. }
    rewrite (unbind_eq s p v o off Hv Ho) in E1, E2, E3, E4, E5, E6 |- *.
    simpl in E1, E2, E3, E4, E5, E6.
    split; [done |]. split; [| split; [| split; [| split]]].
    + intros x offx Hx. destruct (decide (x = o)) as [->|Hne].
      * simplify_eq. rewrite (E2 o (unbound off)) by apply lookup_insert_eq.
        rewrite decide_False by (intros [? _]; done).
        rewrite decide_True; [done |]. split; [apply list_elem_of_here | done].
      * rewrite (E2 x offx) by (by rewrite lookup_insert_ne).
        f_equal. apply decide_ext. rewrite elem_of_cons. intuition congruence.
    + intros x Hx. apply E3. rewrite lookup_insert_ne; [done |].
      intros ->. congruence.
    + intros x. rewrite E4, list_elem_of_filter, elem_of_cons.
      destruct (decide (x = o)) as [->|Hne].
      * rewrite Ho. simpl. intuition congruence.
      * rewrite lookup_insert_ne by done. intuition congruence.
    + intros q w Hq. destruct (decide (p = q)) as [<-|Hpq].
      * simplify_eq.
        destruct (E5 p (set_aux_id 0 v)) as (v' & ? & ? & ?);
          [apply lookup_insert_eq |]. eauto.
      * apply E5. by rewrite lookup_insert_ne.
    + rewrite E6. rewrite <- (unbind_eq s p v o off Hv Ho).
      rewrite sweep_events_unbind by done.
      unfold sweep_events. simpl. unfold sweep_entry_events at 2.
      rewrite Ho, Hp, decide_True by done. by rewrite <- !app_assoc.
  - rewrite (sweep_one_other s nd o off Ho Hb).
    destruct (IH s Hnd) as (E1 & E2 & E3 & E4 & E5 & E6).
    { by eapply sweep_ready_cons. }
    split; [done |]. split; [| split; [| split; [| split]]]; try done.
    + intros x offx Hx. rewrite (E2 x offx Hx). f_equal.
      apply decide_ext. rewrite elem_of_cons.
      split; [intuition congruence |]. intros [[-> | ?] ?]; [| done]. congruence.
    + intros x. rewrite E4, elem_of_cons.
      split; [| intuition congruence]. intros [Hx Hn]. split; [done |].
      intros [[-> | ?] Hbx]; [| intuition congruence].
      rewrite Ho in Hbx. simpl in Hbx. done.
    + rewrite E6. unfold sweep_events. simpl. unfold sweep_entry_events at 2.
      rewrite Ho. by rewrite decide_False.
Qed.

Lemma wf_sweep_ready s : wf s -> sweep_ready s (bpf_prog_offload_devs s).
Proof.
  intros [Hm Hl Hn Ho Hd] o Hin.
  destruct (Hl o Hin) as [off Hoff].
  destruct (Ho o off Hin Hoff) as (p & v & Hp & Hv & Haux).
  exists off, p, v. repeat split; try done. intros d Hnd. by eapply Hd.
Qed.

Lemma wf_sweep_one nd s o : wf s -> wf (sweep_one nd s o).
Proof.
  intros H. unfold sweep_one.
  destruct (offloads s !! o) as [off|] eqn:Ho; [| done].
  destruct (decide (netdev off = Some nd)); [| done].
  destruct (prog off) as [p|]; [| done].
  destruct (progs s !! p) as [v|] eqn:Hp.
  - by eapply wf_unbind.
  - unfold unbind. by rewrite Ho, Hp.
Qed.

Lemma wf_sweep_all nd l : forall s, wf s -> wf (sweep_all nd l s).
Proof.
  induction l as [|o l IH]; intros s H; [done |].
  apply IH. by apply wf_sweep_one.
Qed.

Lemma notification_run s nd dev :
  wf s -> netdevs s !! nd = Some dev ->
  reg_state dev = NETREG_UNREGISTERING ->
  bpf_offload_notification NETDEV_UNREGISTER nd s
    = Done NOTIFY_OK
        (log [EvUpWrite]
           (sweep_all nd (bpf_prog_offload_devs s) (log [EvDownWrite] s))).
Proof.
  intros Hwf Hdev Hrs. unfold bpf_offload_notification.
  unfold bind at 1. unfold load_netdev at 1. rewrite Hdev. cbv beta iota.
  rewrite decide_False by (intros H; by apply H).
  unfold bind at 1. rewrite emit_log. cbv beta iota.
  unfold bind at 1. unfold get_state at 1. cbv beta iota.
  unfold bind at 1.
  change (bpf_prog_offload_devs (log [EvDownWrite] s))
    with (bpf_prog_offload_devs s).
  assert (Hrun := offload_sweep_run nd (bpf_prog_offload_devs s) []
            (list_next (list_next None (log [EvDownWrite] s)) (log [EvDownWrite] s))
            (log [EvDownWrite] s) eq_refl (wf_nodup s Hwf)
            (wf_sweep_ready _ (wf_log _ _ Hwf))).
  simpl in Hrun. simpl. rewrite Hrun; [reflexivity |].
  intros o rest' Hl. unfold list_next.
  change (bpf_prog_offload_devs (log [EvDownWrite] s))
    with (bpf_prog_offload_devs s).
  rewrite Hl. change (head (o :: rest')) with (Some o).
  cbv beta iota.
  pose proof (list_after_app o [] rest' (not_elem_of_nil o)) as Hafter.
  change ([] ++ o :: rest') with (o :: rest') in Hafter.
  by rewrite Hafter.
Qed.

Lemma notification_ignored s ev nd dev :
  netdevs s !! nd = Some dev ->
  ev <> NETDEV_UNREGISTER \/ reg_state dev <> NETREG_UNREGISTERING ->
  bpf_offload_notification ev nd s = Done NOTIFY_OK s.
Proof.
  intros Hdev Hor. unfold bpf_offload_notification.
  destruct ev; try reflexivity.
  destruct Hor as [? | Hrs]; [done |].
  unfold bind at 1. unfold load_netdev at 1. rewrite Hdev. cbv beta iota.
  by rewrite decide_True.
Qed.

Lemma notification_inv s ev nd r s' :
  wf s -> bpf_offload_notification ev nd s = Done r s' ->
  s' = s \/
  s' = log [EvUpWrite]
         (sweep_all nd (bpf_prog_offload_devs s) (log [EvDownWrite] s)).
Proof.
  intros Hwf H.
  destruct (netdevs s !! nd) as [dev|] eqn:Hdev.
  - destruct (decide (ev = NETDEV_UNREGISTER)) as [->|Hev].
    + destruct (decide (reg_state dev = NETREG_UNREGISTERING)) as [Hrs|Hrs].
      * rewrite (notification_run s nd dev Hwf Hdev Hrs) in H.
        right. congruence.
      * rewrite (notification_ignored s _ nd dev Hdev) in H by auto.
        left. congruence.
    + rewrite (notification_ignored s _ nd dev Hdev) in H by auto.
      left. congruence.
  - destruct ev; simpl in H; unfold ret in H; try (left; congruence).
    unfold bind, load_netdev in H. rewrite Hdev in H. discriminate.
Qed.

(** ** Binding a program *)

Lemma init_inv capable net_ns mem p attr s r s' :
  bpf_prog_offload_init capable net_ns mem p attr s = Done r s' ->
  (forall a, mem = Some a -> offloads s !! a = None) ->
  (r <> 0 /\
   exists new,
     s' = log new s /\
     dev_refs_settled net_ns (int_of_u32 (prog_ifindex attr)) new) \/
  (r = 0 /\
   exists a d dev h v,
     mem = Some a /\ capable = true /\ prog_flags attr = 0 /\
     find_netdev net_ns (int_of_u32 (prog_ifindex attr)) s = Some d /\
     netdevs s !! d = Some dev /\ ndo_bpf dev = Some h /\
     reg_state dev = NETREG_REGISTERED /\ progs s !! p = Some v /\
     s' = {| offloads := <[a := {| prog := Some p; netdev := Some d;
                                   dev_ops := None; dev_state := false |}]>
                           (offloads s);
             progs := <[p := set_aux_offload (Some a) v]> (progs s);
             netdevs := netdevs s;
             bpf_prog_offload_devs := bpf_prog_offload_devs s ++ [a];
             trace := trace s ++
               [EvKzalloc (Some a);
                EvDevGetByIndex net_ns (int_of_u32 (prog_ifindex attr)) (Some d);
                EvDownWrite; EvRegStateRead d; EvListAddTail a; EvDevPut d;
                EvUpWrite] |}).
Proof.
  intros H Hfresh.
  unfold bpf_prog_offload_init, init_err_maybe_put, bpf_dev_offload_check in H.
  run; try simplify_map_eq.
  all: repeat match goal with
       | |- context [find_netdev ?n ?i (Build_kstate ?a ?b (netdevs ?s0) ?c ?d)] =>
           change (find_netdev n i (Build_kstate a b (netdevs s0) c d))
             with (find_netdev n i s0)
       | H : context [find_netdev ?n ?i (Build_kstate ?a ?b (netdevs ?s0) ?c ?d)] |- _ =>
           change (find_netdev n i (Build_kstate a b (netdevs s0) c d))
             with (find_netdev n i s0) in H
       end.
  all: try (left; split; [unfold EPERM, EINVAL, EOPNOTSUPP, ENOMEM; lia |];
            first [ by (exists []; split; [by rewrite log_nil | by left])
                  | eexists; split;
                    [ unfold log; f_equal;
                      first [ by (rewrite ?delete_insert_eq; apply delete_id; auto)
                            | rewrite <- ?app_assoc; reflexivity ]
                    | repeat match goal with
                      | Hf : find_netdev _ _ _ = _ |- _ => rewrite Hf
                      end;
                      first [ by left
                            | by (right; left)
                            | by (right; right; eexists) ] ] ]).
  all: right; split; [reflexivity |].
  all: eexists _, _, _, _, _; repeat split; try eassumption; try reflexivity.
  - by destruct capable.
  - lia.
  - match goal with
    | |- reg_state ?d = _ =>
        by destruct (decide (reg_state d = NETREG_REGISTERED))
    end.
  - match goal with
    | Hf : find_netdev _ _ _ = Some _ |- _ => rewrite Hf
    end.
    state_eq.
Qed.

(** ** The verifier hook across the life of a descriptor *)

(** C1, as the code has it.  Once [bpf_prog_offload_verifier_prep] has
    returned 0 and the driver installed its hook table,
    [bpf_prog_offload_verify_insn] returns the verdict of the driver's
    [insn_hook] for every pair of instruction indices, under the read lock.
    It returns -ENODEV when the descriptor's [netdev] is NULL.  On a
    descriptor whose [netdev] is set and whose [dev_ops] is still NULL it
    follows the NULL hook table and returns nothing; that is the state of
    every descriptor [bpf_prog_offload_init] has just bound, so between the
    binding and the preparation the call never returns -ENODEV. *)
Theorem verify_insn_verdict (s : kstate) (p : nat) :
  (forall s1 ops,
     bpf_prog_offload_verifier_prep p s = Done 0 s1 ->
     (driver_reply s p BPF_OFFLOAD_VERIFIER_PREP ≫= ndo_verifier_ops) = Some ops ->
     forall i j,
       bpf_prog_offload_verify_insn p i j s1
         = Done (insn_hook ops p i j) (log [EvDownRead; EvUpRead] s1)) /\
  (forall v o off,
     progs s !! p = Some v -> aux_offload v = Some o ->
     offloads s !! o = Some off -> netdev off = None ->
     forall i j,
       bpf_prog_offload_verify_insn p i j s
         = Done (- ENODEV) (log [EvDownRead; EvUpRead] s)) /\
  (forall v o off d,
     progs s !! p = Some v -> aux_offload v = Some o ->
     offloads s !! o = Some off -> netdev off = Some d -> dev_ops off = None ->
     forall i j,
       bpf_prog_offload_verify_insn p i j s = Oops NullDeref) /\
  (forall capable net_ns mem attr s0,
     (forall a, mem = Some a -> offloads s0 !! a = None) ->
     bpf_prog_offload_init capable net_ns mem p attr s0 = Done 0 s ->
     forall i j,
       bpf_prog_offload_verify_insn p i j s = Oops NullDeref /\
       forall s2, bpf_prog_offload_verify_insn p i j s <> Done (- ENODEV) s2).
Proof.
  split; [| split; [| split]].
  - intros s1 ops Hprep Hops i j.
    apply verifier_prep_inv in Hprep
      as (v & o & off & Hp & Hv & Ho & [(_ & Hr & _) | Hbound]).
    { unfold ENODEV in Hr. lia. }
    destruct Hbound as (d & dev & h & Hnd & Hdev & Hh & Hr & [(Hne & _) | (_ & ->)]).
    { congruence. }
    unfold driver_reply in Hops. rewrite Hp, Hv, Ho, Hnd, Hdev, Hh in Hops.
    simpl in Hops.
    unfold bpf_prog_offload_verify_insn. unfold_m. simpl.
    rewrite Hp, Hv. simpl. rewrite lookup_insert_eq. simpl.
    rewrite Hnd, Hops. f_equal. state_eq.
  - intros v o off Hp Hv Ho Hnd i j. by eapply verify_insn_nodev.
  - intros v o off d Hp Hv Ho Hnd Hops i j. by eapply verify_insn_unprepared.
  - intros capable net_ns mem attr s0 Hfresh Hinit i j.
    apply init_inv in Hinit as [(Hr & _) | (_ & a & d & dev & h & v & Hs)];
      [done | | done].
    destruct Hs as (_ & _ & _ & _ & _ & _ & _ & Hp & ->).
    assert (Hf : bpf_prog_offload_verify_insn p i j
                   {| offloads := <[a := {| prog := Some p; netdev := Some d;
                                            dev_ops := None; dev_state := false |}]>
                                    (offloads s0);
                      progs := <[p := set_aux_offload (Some a) v]> (progs s0);
                      netdevs := netdevs s0;
                      bpf_prog_offload_devs := bpf_prog_offload_devs s0 ++ [a];
                      trace := trace s0 ++
                        [EvKzalloc (Some a);
                         EvDevGetByIndex net_ns (int_of_u32 (prog_ifindex attr)) (Some d);
                         EvDownWrite; EvRegStateRead d; EvListAddTail a; EvDevPut d;
                         EvUpWrite] |} = Oops NullDeref).
    { eapply (verify_insn_unprepared _ p _ a _ d); simpl;
        [apply lookup_insert_eq | reflexivity | apply lookup_insert_eq
        | reflexivity | reflexivity]. }
    split; [exact Hf |]. intros s2. rewrite Hf. discriminate.
Qed.

Lemma verify_insn_verdict_witness :
  (exists s1,
     bpf_prog_offload_verifier_prep 1%nat Sample.bound1 = Done 0 s1 /\
     bpf_prog_offload_verify_insn 1%nat 3 2 s1
       = Done 132 (log [EvDownRead; EvUpRead] s1)) /\
  bpf_prog_offload_verify_insn 1%nat 3 2 Sample.swept
    = Done (- ENODEV) (log [EvDownRead; EvUpRead] Sample.swept) /\
  bpf_prog_offload_verify_insn 1%nat 3 2 Sample.bound1 = Oops NullDeref /\
  (exists s1,
     bpf_prog_offload_init true 1%nat (Some 100%nat) 1%nat (Sample.attr 2)
       Sample.boot = Done 0 s1 /\
     bpf_prog_offload_verify_insn 1%nat 3 2 s1 = Oops NullDeref /\
     forall s2, bpf_prog_offload_verify_insn 1%nat 3 2 s1 <> Done (- ENODEV) s2).
Proof.
  destruct (verify_insn_verdict Sample.bound1 1%nat) as (Hafter & _ & Hbound & _).
  destruct (verify_insn_verdict Sample.swept 1%nat) as (_ & Hgone & _).
  destruct (verify_insn_verdict
              (Sample.exec (bpf_prog_offload_init true 1%nat (Some 100%nat) 1%nat
                              (Sample.attr 2)) Sample.boot) 1%nat)
    as (_ & _ & _ & Hinit).
  split; [| split; [| split]].
  - exists (Sample.exec (bpf_prog_offload_verifier_prep 1%nat) Sample.bound1).
    assert (Hprep : bpf_prog_offload_verifier_prep 1%nat Sample.bound1
              = Done 0 (Sample.exec (bpf_prog_offload_verifier_prep 1%nat)
                          Sample.bound1))
      by (vm_compute; reflexivity).
    split; [exact Hprep |].
    apply (Hafter _ Sample.hooks Hprep); reflexivity.
  - apply (Hgone {| aux_offload := Some 100%nat; aux_id := 0;
                    bpf_func := Sample.interp |}
                 100%nat
                 {| prog := Some 1%nat; netdev := None;
                    dev_ops := Some Sample.hooks; dev_state := false |});
      reflexivity.
  - apply (Hbound {| aux_offload := Some 100%nat; aux_id := 41;
                     bpf_func := Sample.interp |}
                  100%nat
                  {| prog := Some 1%nat; netdev := Some 10%nat;
                     dev_ops := None; dev_state := false |}
                  10%nat);
      reflexivity.
  - exists (Sample.exec (bpf_prog_offload_init true 1%nat (Some 100%nat) 1%nat
                           (Sample.attr 2)) Sample.boot).
    split; [vm_compute; reflexivity |].
    apply (Hinit true 1%nat (Some 100%nat) (Sample.attr 2) Sample.boot).
    + intros a Ha. injection Ha as <-. reflexivity.
    + vm_compute. reflexivity.
Defined.

(** C1 as claimed fails: on a descriptor that [bpf_prog_offload_init] has
    just bound, before any [bpf_prog_offload_verifier_prep],
    [bpf_prog_offload_verify_insn] finds [netdev] set, follows the NULL
    [dev_ops] and does not return -ENODEV. *)
Lemma verify_insn_before_prep_faults :
  (exists s1,
     bpf_prog_offload_init true 1%nat (Some 100%nat) 1%nat (Sample.attr 2)
       Sample.boot = Done 0 s1 /\
     bpf_prog_offload_verify_insn 1%nat 0 0 s1 = Oops NullDeref) /\
  ~ (exists s2, bpf_prog_offload_verify_insn 1%nat 0 0 Sample.bound1
                  = Done (- ENODEV) s2).
Proof.
  split.
  - exists (Sample.exec (bpf_prog_offload_init true 1%nat (Some 100%nat) 1%nat
                           (Sample.attr 2)) Sample.boot).
    split; vm_compute; reflexivity.
  - intros (s2 & H).
    assert (Hf : bpf_prog_offload_verify_insn 1%nat 0 0 Sample.bound1
                 = Oops NullDeref) by (vm_compute; reflexivity).
    rewrite Hf in H. discriminate.
Qed.


Lemma find_netdev_None net_ns idx s d dev :
  find_netdev net_ns idx s = None ->
  netdevs s !! d = Some dev ->
  ~ (nd_net dev = net_ns /\ ifindex dev = idx).
Proof.
  unfold find_netdev. intros H Hd.
  apply fmap_None in H. rewrite list_find_None in H.
  rewrite Forall_forall in H. apply (H (d, dev)).
  by apply elem_of_map_to_list.
Qed.

Lemma destroy_inv s p s' :
  bpf_prog_offload_destroy p s = Done tt s' ->
  exists v o off,
    progs s !! p = Some v /\ aux_offload v = Some o /\
    offloads s !! o = Some off /\
    s' = {| offloads := delete o (offloads s);
            progs := <[p := set_aux_id 0 v]> (progs s);
            netdevs := netdevs s;
            bpf_prog_offload_devs :=
              filter (fun x => x <> o) (bpf_prog_offload_devs s);
            trace := trace s ++ [EvRtnlLock; EvDownWrite]
                             ++ destroy_dispatch_events s p off
                             ++ [EvFreeId p; EvListDelInit o; EvUpWrite;
                                 EvRtnlUnlock; EvKfree o] |}.
Proof.
  intros H. unfold bpf_prog_offload_destroy in H.
  apply bind_Done in H as (v & s0 & Hload & H).
  unfold load_prog in Hload.
  destruct (progs s !! p) as [v0|] eqn:Hp; [| discriminate].
  injection Hload as -> ->.
  unfold bind at 1 in H. rewrite emit_log in H.
  unfold bind at 1 in H. rewrite emit_log, log_log in H.
  apply bind_Done in H as ([] & s1 & Hd & H).
  apply destroy_in_place_inv in Hd as (v' & o & off & Hp' & Hv & Ho & ->).
  rewrite (unbind_eq _ p v' o off Hp' Ho) in H.
  simpl in Hp', Ho. assert (v' = v) as -> by congruence.
  exists v, o, off. repeat split; try done.
  rewrite Hv in H.
  unfold_m. simpl in H. rewrite lookup_insert_eq in H.
  injection H as <-. state_eq.
Qed.

Lemma verify_insn_inv s p i j r s' :
  bpf_prog_offload_verify_insn p i j s = Done r s' ->
  s' = log [EvDownRead; EvUpRead] s.
Proof.
  intros H. unfold bpf_prog_offload_verify_insn in H. run; state_eq.
Qed.

Lemma info_fill_inv cb enc info p s r s' :
  bpf_prog_offload_info_fill cb enc info p s = Done r s' ->
  exists new, s' = log new s.
Proof.
  intros H.
  unfold bpf_prog_offload_info_fill, bpf_prog_offload_info_fill_ns in H.
  run; eexists; unfold log; f_equal; rewrite <- ?app_assoc; reflexivity.
Qed.

Lemma wf_init capable net_ns mem p attr s r s' :
  wf s ->
  (forall a, mem = Some a -> offloads s !! a = None) ->
  (forall v, progs s !! p = Some v -> aux_offload v = None) ->
  bpf_prog_offload_init capable net_ns mem p attr s = Done r s' ->
  wf s'.
Proof.
  intros Hwf Hfresh Hnew H.
  apply init_inv in H as [(_ & new & -> & _) | (_ & a & d & dev & h & v & Hs)];
    [by apply wf_log | | done].
  destruct Hs as (-> & _ & _ & _ & Hdev & Hh & _ & Hp & ->).
  pose proof (Hfresh a eq_refl) as Ha. pose proof (Hnew v Hp) as Hv.
  destruct Hwf as [Hm Hl Hn Ho Hd].
  assert (Hnotin : a ∉ bpf_prog_offload_devs s).
  { intros Hin. destruct (Hl a Hin) as [x Hx]. congruence. }
  split; unfold registry_inv; simpl.
  - intros o off Hoff. rewrite elem_of_app, list_elem_of_singleton.
    destruct (decide (a = o)) as [<-|Hne].
    + rewrite lookup_insert_eq in Hoff. simplify_eq. simpl. split; [done | auto].
    + rewrite lookup_insert_ne in Hoff by done. rewrite <- (Hm o off Hoff).
      split; [intros [? | ?]; [done | congruence] | auto].
  - intros o Hin. apply elem_of_app in Hin as [Hin | Hin].
    + rewrite lookup_insert_ne by (intros <-; done). by apply Hl.
    + apply list_elem_of_singleton in Hin as ->. rewrite lookup_insert_eq. eauto.
  - apply NoDup_app. split; [done |]. split; [| apply NoDup_singleton].
    intros x Hx Hx'. apply list_elem_of_singleton in Hx' as ->. done.
  - intros o off Hin Hoff. destruct (decide (a = o)) as [<-|Hne].
    + rewrite lookup_insert_eq in Hoff. simplify_eq. simpl.
      exists p, (set_aux_offload (Some a) v). by rewrite lookup_insert_eq.
    + rewrite lookup_insert_ne in Hoff by done.
      apply elem_of_app in Hin as [Hin | Hin];
        [| apply list_elem_of_singleton in Hin; congruence].
      destruct (Ho o off Hin Hoff) as (q & w & Hq & Hw & Haux).
      exists q, w. rewrite lookup_insert_ne; [done |].
      intros <-. rewrite Hp in Hw. simplify_eq; congruence.
  - intros o off d' Hoff Hnd. destruct (decide (a = o)) as [<-|Hne].
    + rewrite lookup_insert_eq in Hoff. simplify_eq. simpl in Hnd. simplify_eq.
      eauto.
    + rewrite lookup_insert_ne in Hoff by done. by eapply Hd.
Qed.

Lemma wf_destroy s p s' :
  wf s -> bpf_prog_offload_destroy p s = Done tt s' -> wf s'.
Proof.
  intros Hwf H. apply destroy_inv in H as (v & o & off & Hp & Hv & Ho & ->).
  pose proof (wf_unbind s o p v off Hwf Hp Ho) as Hu.
  rewrite (unbind_eq s p v o off Hp Ho) in Hu.
  apply wf_free with (o := o) in Hu;
    [| simpl; rewrite list_elem_of_filter; by intros [? _]].
  apply (wf_frame _ _ Hu); simpl; eauto.
  by rewrite delete_insert_eq.
Qed.

Lemma wf_step cb enc s s' : wf s -> step cb enc s s' -> wf s'.
Proof.
  intros Hwf Hstep. destruct Hstep as
    [capable net_ns mem p attr r s' Hfresh Hnew H
    | p r s' H | p i j r s' H | p r s' H | p s' H
    | info p r s' H | ev nd r s' H | d rs].
  - by eapply wf_init.
  - apply verifier_prep_inv in H
      as (v & o & off & Hp & Hv & Ho & [(_ & _ & ->) | Hb]);
      [by apply wf_log |].
    destruct Hb as (d & dev & h & _ & _ & _ & _ & [(_ & ->) | (_ & ->)]);
      apply wf_log; [done | by apply wf_prepared].
  - apply verify_insn_inv in H as ->. by apply wf_log.
  - apply compile_inv in H as (v & new & Hp & ->).
    apply wf_log. by eapply wf_set_progs.
  - by eapply wf_destroy.
  - apply info_fill_inv in H as (new & ->). by apply wf_log.
  - apply notification_inv in H as [-> | ->]; [done | | done].
    apply wf_log, wf_sweep_all. by apply wf_log.
  - by apply wf_set_reg_state.
Qed.

Lemma initial_wf s : initial s -> wf s.
Proof.
  intros (Ho & Hl & Hp). split; unfold registry_inv; rewrite ?Ho, ?Hl.
  - intros o off H. by rewrite lookup_empty in H.
  - intros o Hin. by apply elem_of_nil in Hin.
  - apply NoDup_nil_2.
  - intros o off Hin. by apply elem_of_nil in Hin.
  - intros o off d H. by rewrite lookup_empty in H.
Qed.

(** Every state reached from an empty registry by completed operations is
    well-formed: a live descriptor is on [bpf_prog_offload_devs] exactly when
    its [netdev] is set, the list has no duplicates and holds live
    descriptors only, the program of a listed descriptor points back at it,
    and a bound device is there and has an [ndo_bpf]. *)
Theorem reachable_wf (ns_get_path_cb : option nat -> ns_path_result)
    (new_encode_dev : Z -> Z) (s : kstate) :
  reachable ns_get_path_cb new_encode_dev s -> wf s.
Proof.
  induction 1 as [s Hinit | s s' _ IH Hstep].
  - by apply initial_wf.
  - by eapply wf_step.
Qed.

Lemma reachable_wf_witness :
  let s := Sample.exec (bpf_prog_offload_init true 1%nat (Some 100%nat) 1%nat
                          (Sample.attr 2)) Sample.boot in
  reachable Sample.ns_resolver Sample.encode_dev s /\ wf s.
Proof.
  cbv zeta.
  assert (Hr : reachable Sample.ns_resolver Sample.encode_dev
                 (Sample.exec (bpf_prog_offload_init true 1%nat (Some 100%nat)
                                 1%nat (Sample.attr 2)) Sample.boot)).
  { apply (reachable_step _ _ Sample.boot).
    - apply reachable_initial. split; [reflexivity |]. split; [reflexivity |].
      intros p v H. unfold Sample.boot in H. simpl in H.
      apply lookup_insert_Some in H as [[_ <-] | [_ H]]; [reflexivity |].
      apply lookup_insert_Some in H as [[_ <-] | [_ H]]; [reflexivity |].
      apply lookup_insert_Some in H as [[_ <-] | [_ H]]; [reflexivity |].
      by rewrite lookup_empty in H.
    - eapply (step_init _ _ Sample.boot true 1%nat (Some 100%nat) 1%nat
                (Sample.attr 2) 0).
      + intros a Ha. injection Ha as <-. reflexivity.
      + intros v H. unfold Sample.boot in H. simpl in H.
        rewrite lookup_insert_eq in H. injection H as <-. reflexivity.
      + vm_compute. reflexivity. }
  split; [exact Hr |].
  exact (reachable_wf Sample.ns_resolver Sample.encode_dev _ Hr).
Defined.

(** ** What the notifier does to the registry *)

Lemma dispatches_app cmd p t1 t2 :
  dispatches cmd p (t1 ++ t2) = (dispatches cmd p t1 + dispatches cmd p t2)%nat.
Proof. induction t1 as [|e t1 IH]; simpl; [done |]. rewrite IH. lia. Qed.

Lemma dispatches_destroy_events s cmd p q off :
  dispatchable s off ->
  dispatches cmd p (destroy_dispatch_events s q off)
    = if dev_state off && bool_decide (netdev off <> None)
         && bool_decide (cmd = BPF_OFFLOAD_DESTROY /\ q = p)
      then 1%nat else 0%nat.
Proof.
  intros Hd. unfold destroy_dispatch_events.
  destruct (dev_state off); [| done].
  destruct (netdev off) as [d|] eqn:Hnd; [| done].
  destruct (Hd d Hnd) as (dev & h & -> & ->). simpl.
  assert (Hsym : bool_decide (BPF_OFFLOAD_DESTROY = cmd /\ q = p)
                 = bool_decide (cmd = BPF_OFFLOAD_DESTROY /\ q = p))
    by (apply bool_decide_ext; intuition congruence).
  rewrite Hsym.
  destruct (bool_decide (cmd = BPF_OFFLOAD_DESTROY /\ q = p));
    destruct (decide (ndo_ret (h BPF_OFFLOAD_DESTROY q) <> 0)); reflexivity.
Qed.

Lemma dispatches_sweep_entry s nd p o off :
  offloads s !! o = Some off -> dispatchable s off ->
  dispatches BPF_OFFLOAD_DESTROY p (sweep_entry_events s nd o)
    = if destroy_due s nd p o then 1%nat else 0%nat.
Proof.
  intros Ho Hd. unfold sweep_entry_events, destroy_due. rewrite Ho.
  destruct (decide (netdev off = Some nd)) as [Hnd|Hnd].
  - destruct (prog off) as [q|] eqn:Hq.
    + rewrite dispatches_app, (dispatches_destroy_events s _ p q off Hd).
      simpl. rewrite Hnd. rewrite Nat.add_0_r.
      destruct (dev_state off); simpl.
      * rewrite (bool_decide_ext (BPF_OFFLOAD_DESTROY = BPF_OFFLOAD_DESTROY /\ q = p)
                   (Some q = Some p /\ Some nd = Some nd))
          by (split; intros [? ?]; split; congruence).
        by rewrite andb_true_r.
      * by rewrite andb_false_r.
    + rewrite bool_decide_eq_false_2 by (by intros [? _]). done.
  - rewrite bool_decide_eq_false_2 by (by intros [_ ?]). done.
Qed.

Lemma dispatches_sweep s nd p l :
  sweep_ready s l ->
  dispatches BPF_OFFLOAD_DESTROY p (sweep_events s nd l)
    = length (filter (fun o => destroy_due s nd p o = true) l).
Proof.
  induction l as [|o l IH]; intros Hr; [done |].
  unfold sweep_events in *. simpl. rewrite dispatches_app.
  rewrite IH by (by eapply sweep_ready_cons).
  destruct (Hr o) as (off & q & v & Ho & _ & _ & _ & Hd);
    [apply list_elem_of_here |].
  rewrite (dispatches_sweep_entry s nd p o off Ho Hd).
  rewrite filter_cons. destruct (destroy_due s nd p o) eqn:Hdue.
  - by rewrite decide_True.
  - by rewrite decide_False.
Qed.

Lemma dispatches_other_sweep s nd cmd p l :
  cmd <> BPF_OFFLOAD_DESTROY ->
  sweep_ready s l ->
  dispatches cmd p (sweep_events s nd l) = 0%nat.
Proof.
  intros Hcmd. induction l as [|o l IH]; intros Hr; [done |].
  unfold sweep_events in *. simpl. rewrite dispatches_app.
  rewrite IH by (by eapply sweep_ready_cons).
  destruct (Hr o) as (off & q & v & Ho & Hq & _ & _ & Hd);
    [apply list_elem_of_here |].
  unfold sweep_entry_events. rewrite Ho, Hq.
  destruct (decide (netdev off = Some nd)); [| done].
  rewrite dispatches_app, (dispatches_destroy_events s cmd p q off Hd).
  rewrite (bool_decide_eq_false_2 (cmd = BPF_OFFLOAD_DESTROY /\ q = p))
    by (by intros [? _]).
  by rewrite andb_false_r.
Qed.

Lemma length_filter_unique {A} (P : A -> Prop) `{forall x, Decision (P x)}
    (l : list A) (o : A) :
  NoDup l -> o ∈ l -> (forall x, x ∈ l -> P x -> x = o) ->
  length (filter P l) = if decide (P o) then 1%nat else 0%nat.
Proof.
  intros Hnd Hin Huniq.
  assert (Hnone : forall l', (forall x, x ∈ l' -> ~ P x) -> filter P l' = []).
  { intros l' Hl'. induction l' as [|y l' IH]; [done |].
    rewrite filter_cons_False by (apply Hl'; apply list_elem_of_here).
    apply IH. intros x Hx. apply Hl'. by apply list_elem_of_further. }
  induction l as [|y l IH]; [by apply elem_of_nil in Hin |].
  apply NoDup_cons in Hnd as [Hy Hnd].
  apply elem_of_cons in Hin as [-> | Hin].
  - rewrite filter_cons.
    rewrite (Hnone l).
    + by destruct (decide (P y)).
    + intros x Hx HP. assert (x = y) as -> by (apply Huniq; [by apply list_elem_of_further | done]).
      done.
  - rewrite filter_cons_False.
    + apply IH; [done | done |]. intros x Hx. apply Huniq.
      by apply list_elem_of_further.
    + intros HP. assert (y = o) as -> by (apply Huniq; [apply list_elem_of_here | done]).
      done.
Qed.

(** On NETDEV_UNREGISTER for a device that is unregistering, the notifier
    walks the whole list and returns NOTIFY_OK; it clears [netdev] and
    [dev_state] of exactly the descriptors bound to that device and takes
    them off the list; every other descriptor and its place on the list stay
    as they are, no descriptor is freed, programs keep their descriptor
    pointer and their [bpf_func], and the registry stays well-formed. *)
Theorem notification_unbinds_device (s : kstate) (nd : nat) (dev : net_device) :
  wf s -> netdevs s !! nd = Some dev ->
  reg_state dev = NETREG_UNREGISTERING ->
  exists s',
    bpf_offload_notification NETDEV_UNREGISTER nd s = Done NOTIFY_OK s' /\
    netdevs s' = netdevs s /\
    (forall o off, offloads s !! o = Some off ->
       offloads s' !! o
         = Some (if decide (netdev off = Some nd) then unbound off else off)) /\
    (forall o, offloads s !! o = None -> offloads s' !! o = None) /\
    (forall o, o ∈ bpf_prog_offload_devs s' <->
       o ∈ bpf_prog_offload_devs s /\ (offloads s !! o ≫= netdev) <> Some nd) /\
    (forall p v, progs s !! p = Some v ->
       exists v', progs s' !! p = Some v' /\
                  aux_offload v' = aux_offload v /\ bpf_func v' = bpf_func v) /\
    wf s'.
Proof.
  intros Hwf Hdev Hrs. eexists. split; [by eapply notification_run |].
  pose proof (wf_log [EvDownWrite] s Hwf) as Hwf0.
  destruct (sweep_all_spec nd (bpf_prog_offload_devs s) (log [EvDownWrite] s)
              (wf_nodup s Hwf) (wf_sweep_ready _ Hwf0))
    as (E1 & E2 & E3 & E4 & E5 & _).
  simpl. split; [exact E1 |]. split; [| split; [exact E3 |]; split; [| split]].
  - intros o off Ho. rewrite (E2 o off Ho). f_equal. apply decide_ext.
    split; [by intros [_ ?] |]. intros Hnd. split; [| done].
    apply (wf_member s Hwf o off Ho). congruence.
  - intros o. rewrite E4. simpl. split.
    + intros [Hin Hn]. split; [done |]. intros Hb. apply Hn. by split.
    + intros [Hin Hn]. split; [done |]. by intros [_ ?].
  - exact E5.
  - apply wf_log, wf_sweep_all. exact Hwf0.
Qed.

Lemma wf_clear_trace s : wf s -> wf (Sample.clear_trace s).
Proof. intros H. apply (wf_frame s); eauto. Qed.

Lemma wf_exec_init s mem p attr :
  wf s ->
  (forall a, mem = Some a -> offloads s !! a = None) ->
  (forall v, progs s !! p = Some v -> aux_offload v = None) ->
  wf (Sample.exec (bpf_prog_offload_init true 1%nat mem p attr) s).
Proof.
  intros Hwf Hfresh Hnew. unfold Sample.exec.
  destruct (bpf_prog_offload_init true 1%nat mem p attr s) as [r s'|f] eqn:H;
    [| done].
  by eapply wf_init.
Qed.

Lemma wf_exec_prep s p :
  wf s -> wf (Sample.exec (bpf_prog_offload_verifier_prep p) s).
Proof.
  intros Hwf. unfold Sample.exec.
  destruct (bpf_prog_offload_verifier_prep p s) as [r s'|f] eqn:H; [| done].
  eapply (wf_step Sample.ns_resolver Sample.encode_dev); [exact Hwf |].
  by eapply step_verifier_prep.
Qed.

Lemma wf_sample_boot : wf Sample.boot.
Proof.
  apply initial_wf. split; [reflexivity |]. split; [reflexivity |].
  intros p v H. unfold Sample.boot in H. simpl in H.
  apply lookup_insert_Some in H as [[_ <-] | [_ H]]; [reflexivity |].
  apply lookup_insert_Some in H as [[_ <-] | [_ H]]; [reflexivity |].
  apply lookup_insert_Some in H as [[_ <-] | [_ H]]; [reflexivity |].
  by rewrite lookup_empty in H.
Qed.

Lemma wf_sample_prepped1 : wf Sample.prepped1.
Proof.
  apply wf_clear_trace, wf_exec_prep, wf_clear_trace, wf_exec_init.
  - apply wf_sample_boot.
  - intros a Ha. injection Ha as <-. reflexivity.
  - intros v H. vm_compute in H. injection H as <-. reflexivity.
Qed.

Lemma wf_sample_unregistering : wf Sample.unregistering.
Proof.
  apply wf_set_reg_state, wf_clear_trace, wf_exec_prep, wf_exec_init.
  - apply wf_exec_init.
    + apply wf_sample_prepped1.
    + intros a Ha. injection Ha as <-. reflexivity.
    + intros v H. vm_compute in H. injection H as <-. reflexivity.
  - intros a Ha. injection Ha as <-. reflexivity.
  - intros v H. vm_compute in H. injection H as <-. reflexivity.
Qed.

Lemma notification_unbinds_device_witness :
  exists s',
    bpf_offload_notification NETDEV_UNREGISTER 10%nat Sample.unregistering
      = Done NOTIFY_OK s' /\
    offloads s' !! 100%nat
      = Some {| prog := Some 1%nat; netdev := None;
                dev_ops := Some Sample.hooks; dev_state := false |} /\
    offloads s' !! 102%nat
      = Some {| prog := Some 3%nat; netdev := Some 11%nat;
                dev_ops := Some Sample.hooks; dev_state := true |}.
Proof.
  destruct (notification_unbinds_device Sample.unregistering 10%nat
              (Sample.dev 2 NETREG_UNREGISTERING) wf_sample_unregistering)
    as (s' & Hrun & _ & Ho & _); [reflexivity | reflexivity |].
  exists s'. split; [exact Hrun |]. split.
  - apply (Ho 100%nat {| prog := Some 1%nat; netdev := Some 10%nat;
                         dev_ops := Some Sample.hooks; dev_state := true |}).
    reflexivity.
  - apply (Ho 102%nat {| prog := Some 3%nat; netdev := Some 11%nat;
                         dev_ops := Some Sample.hooks; dev_state := true |}).
    reflexivity.
Defined.

(** During that sweep the driver is handed DESTROY once for each descriptor
    bound to the device whose [dev_state] is set, and not at all for a bound
    descriptor that was never prepared or for a program with no descriptor on
    that device; no other command is dispatched. *)
Theorem notification_destroy_dispatches (s : kstate) (nd : nat) (dev : net_device) :
  wf s -> netdevs s !! nd = Some dev ->
  reg_state dev = NETREG_UNREGISTERING ->
  exists s' new,
    bpf_offload_notification NETDEV_UNREGISTER nd s = Done NOTIFY_OK s' /\
    trace s' = trace s ++ new /\
    (forall o off p,
       offloads s !! o = Some off -> netdev off = Some nd -> prog off = Some p ->
       dispatches BPF_OFFLOAD_DESTROY p new
         = if dev_state off then 1%nat else 0%nat) /\
    (forall p,
       (forall o off, offloads s !! o = Some off -> netdev off = Some nd ->
                      prog off <> Some p) ->
       dispatches BPF_OFFLOAD_DESTROY p new = 0%nat) /\
    (forall cmd p, cmd <> BPF_OFFLOAD_DESTROY -> dispatches cmd p new = 0%nat).
Proof.
  intros Hwf Hdev Hrs.
  pose proof (wf_log [EvDownWrite] s Hwf) as Hwf0.
  assert (Hready : sweep_ready (log [EvDownWrite] s) (bpf_prog_offload_devs s))
    by apply (wf_sweep_ready _ Hwf0).
  destruct (sweep_all_spec nd (bpf_prog_offload_devs s) (log [EvDownWrite] s)
              (wf_nodup s Hwf) Hready) as (_ & _ & _ & _ & _ & Htr).
  exists (log [EvUpWrite]
            (sweep_all nd (bpf_prog_offload_devs s) (log [EvDownWrite] s))),
         ([EvDownWrite]
            ++ sweep_events (log [EvDownWrite] s) nd (bpf_prog_offload_devs s)
            ++ [EvUpWrite]).
  split; [by eapply notification_run |].
  split; [simpl; rewrite Htr; simpl; by rewrite <- !app_assoc |].
  assert (Hcount : forall cmd p,
            dispatches cmd p
              ([EvDownWrite]
                 ++ sweep_events (log [EvDownWrite] s) nd (bpf_prog_offload_devs s)
                 ++ [EvUpWrite])
            = dispatches cmd p
                (sweep_events (log [EvDownWrite] s) nd (bpf_prog_offload_devs s))).
  { intros cmd p. rewrite !dispatches_app. simpl. lia. }
  split; [| split].
  - intros o off p Ho Hnd Hp. rewrite Hcount, (dispatches_sweep _ nd p _ Hready).
    assert (Hin : o ∈ bpf_prog_offload_devs s).
    { apply (wf_member s Hwf o off Ho). congruence. }
    rewrite (length_filter_unique _ _ o (wf_nodup s Hwf) Hin).
    + unfold destroy_due. simpl. rewrite Ho.
      rewrite bool_decide_eq_true_2 by done. simpl.
      destruct (dev_state off); by case_decide.
    + intros x Hx Hdue. unfold destroy_due in Hdue. simpl in Hdue.
      destruct (offloads s !! x) as [offx|] eqn:Hox; [| done].
      apply andb_prop in Hdue as [Hpx _].
      apply bool_decide_eq_true in Hpx as [Hpx _].
      destruct (wf_owner s Hwf x offx Hx Hox) as (q & w & Hq & Hw & Haux).
      destruct (wf_owner s Hwf o off Hin Ho) as (q' & w' & Hq' & Hw' & Haux').
      congruence.
  - intros p Hnone. rewrite Hcount, (dispatches_sweep _ nd p _ Hready).
    assert (Hnil : forall l,
              filter (fun o => destroy_due (log [EvDownWrite] s) nd p o = true) l = []).
    { induction l as [|x l IH]; [done |].
      rewrite filter_cons_False; [done |].
      unfold destroy_due. simpl.
      destruct (offloads s !! x) as [offx|] eqn:Hox; [| done].
      intros Hdue. apply andb_prop in Hdue as [Hpx _].
      apply bool_decide_eq_true in Hpx as [Hpx Hndx].
      by apply (Hnone x offx Hox Hndx). }
    by rewrite Hnil.
  - intros cmd p Hcmd. rewrite Hcount. by apply dispatches_other_sweep.
Qed.

Lemma notification_destroy_dispatches_witness :
  exists s' new,
    bpf_offload_notification NETDEV_UNREGISTER 10%nat Sample.unregistering
      = Done NOTIFY_OK s' /\
    trace s' = trace Sample.unregistering ++ new /\
    dispatches BPF_OFFLOAD_DESTROY 1%nat new = 1%nat /\
    dispatches BPF_OFFLOAD_DESTROY 2%nat new = 0%nat /\
    dispatches BPF_OFFLOAD_DESTROY 3%nat new = 0%nat.
Proof.
  destruct (notification_destroy_dispatches Sample.unregistering 10%nat
              (Sample.dev 2 NETREG_UNREGISTERING) wf_sample_unregistering)
    as (s' & new & Hrun & Htr & Hone & Hnone & _); [reflexivity | reflexivity |].
  exists s', new. split; [exact Hrun |]. split; [exact Htr |]. split; [| split].
  - apply (Hone 100%nat {| prog := Some 1%nat; netdev := Some 10%nat;
                           dev_ops := Some Sample.hooks; dev_state := true |});
      reflexivity.
  - apply (Hone 101%nat {| prog := Some 2%nat; netdev := Some 10%nat;
                           dev_ops := None; dev_state := false |});
      reflexivity.
  - apply Hnone.
    assert (Hall : map_Forall
              (fun (_ : nat) off => netdev off = Some 10%nat -> prog off <> Some 3%nat)
              (offloads Sample.unregistering)).
    { apply (bool_decide_unpack _). vm_compute. exact I. }
    intros o off Ho. exact (Hall o off Ho).
Defined.

(** The notifier ignores every event but NETDEV_UNREGISTER, and
    NETDEV_UNREGISTER itself for a device that is not unregistering (a
    namespace move): it returns NOTIFY_OK and leaves the state, the event log
    included, as it is. *)
Theorem notification_ignores_other_events (s : kstate) (ev : netdev_event)
    (nd : nat) :
  (ev <> NETDEV_UNREGISTER ->
     bpf_offload_notification ev nd s = Done NOTIFY_OK s) /\
  (forall dev, netdevs s !! nd = Some dev ->
     reg_state dev <> NETREG_UNREGISTERING ->
     bpf_offload_notification NETDEV_UNREGISTER nd s = Done NOTIFY_OK s).
Proof.
  split.
  - intros Hev. destruct ev; try reflexivity. done.
  - intros dev Hdev Hrs. eapply notification_ignored; eauto.
Qed.

Lemma notification_ignores_other_events_witness :
  bpf_offload_notification NETDEV_CHANGEMTU 10%nat Sample.three_bound
    = Done NOTIFY_OK Sample.three_bound /\
  bpf_offload_notification NETDEV_UNREGISTER 10%nat Sample.three_bound
    = Done NOTIFY_OK Sample.three_bound.
Proof.
  destruct (notification_ignores_other_events Sample.three_bound
              NETDEV_CHANGEMTU 10%nat) as [H1 H2].
  split.
  - apply H1. discriminate.
  - apply (H2 (Sample.dev 2 NETREG_REGISTERED)); [reflexivity | discriminate].
Defined.

(** ** More on binding *)

Lemma init_run s net_ns idx a p v d dev h :
  offloads s !! a = None -> progs s !! p = Some v ->
  find_netdev net_ns (int_of_u32 idx) s = Some d -> netdevs s !! d = Some dev ->
  ndo_bpf dev = Some h -> reg_state dev = NETREG_REGISTERED ->
  bpf_prog_offload_init true net_ns (Some a) p
      {| prog_flags := 0; prog_ifindex := idx |} s
    = Done 0
        {| offloads := <[a := fresh_binding p d]> (offloads s);
           progs := <[p := set_aux_offload (Some a) v]> (progs s);
           netdevs := netdevs s;
           bpf_prog_offload_devs := bpf_prog_offload_devs s ++ [a];
           trace := trace s ++
             [EvKzalloc (Some a); EvDevGetByIndex net_ns (int_of_u32 idx) (Some d);
              EvDownWrite; EvRegStateRead d; EvListAddTail a; EvDevPut d;
              EvUpWrite] |}.
Proof.
  intros Ha Hp Hfind Hdev Hh Hrs.
  unfold bpf_prog_offload_init, bpf_dev_offload_check. unfold_m. simpl.
  repeat (progress
    (rewrite ?lookup_insert_eq, ?Hdev, ?Hh, ?Hp; simpl;
     repeat match goal with
     | |- context [find_netdev ?n ?i (Build_kstate ?x ?y (netdevs ?s0) ?z ?w)] =>
         change (find_netdev n i (Build_kstate x y (netdevs s0) z w))
           with (find_netdev n i s0)
     end;
     rewrite ?Hfind; simpl;
     rewrite ?(decide_False (P := reg_state dev <> NETREG_REGISTERED))
       by (intros H; by apply H))).
  unfold fresh_binding. f_equal. state_eq.
Qed.

(** Runs [bpf_prog_offload_init] forward along the lookups at hand. *)
Ltac init_forward :=
  unfold bpf_prog_offload_init, init_err_maybe_put, bpf_dev_offload_check;
  unfold_m; simpl;
  repeat (progress
    (rewrite ?lookup_insert_eq; simpl;
     repeat match goal with
     | |- context [find_netdev ?n ?i (Build_kstate ?x ?y (netdevs ?s0) ?z ?w)] =>
         change (find_netdev n i (Build_kstate x y (netdevs s0) z w))
           with (find_netdev n i s0)
     end;
     repeat match goal with
     | H : find_netdev _ _ _ = _ |- _ => rewrite H
     | H : netdevs _ !! _ = _ |- _ => rewrite H
     | H : ndo_bpf _ = _ |- _ => rewrite H
     | H : progs _ !! _ = _ |- _ => rewrite H
     end;
     simpl)).

(** A successful [bpf_prog_offload_init]: with the capability, zero flags, a
    descriptor from the allocator, a device of that index in the caller's
    namespace that has an [ndo_bpf] and is NETREG_REGISTERED, it returns 0,
    links the new descriptor (program and device set, no hook table,
    [dev_state] clear) at the tail of the list, points [prog->aux->offload]
    at it and gives the device reference back. *)
Theorem init_binds_program (s : kstate) (net_ns : nat) (idx : Z) (a p : nat)
    (v : bpf_prog) (d : nat) (dev : net_device)
    (h : bpf_netdev_command -> nat -> ndo_reply) :
  offloads s !! a = None -> progs s !! p = Some v ->
  find_netdev net_ns (int_of_u32 idx) s = Some d -> netdevs s !! d = Some dev ->
  ndo_bpf dev = Some h -> reg_state dev = NETREG_REGISTERED ->
  bpf_prog_offload_init true net_ns (Some a) p
      {| prog_flags := 0; prog_ifindex := idx |} s
    = Done 0
        {| offloads := <[a := fresh_binding p d]> (offloads s);
           progs := <[p := set_aux_offload (Some a) v]> (progs s);
           netdevs := netdevs s;
           bpf_prog_offload_devs := bpf_prog_offload_devs s ++ [a];
           trace := trace s ++
             [EvKzalloc (Some a); EvDevGetByIndex net_ns (int_of_u32 idx) (Some d);
              EvDownWrite; EvRegStateRead d; EvListAddTail a; EvDevPut d;
              EvUpWrite] |}.
Proof. apply init_run. Qed.

Lemma init_binds_program_witness :
  exists s',
    bpf_prog_offload_init true 1%nat (Some 100%nat) 1%nat (Sample.attr 2)
      Sample.boot = Done 0 s' /\
    offloads s' !! 100%nat = Some (fresh_binding 1%nat 10%nat) /\
    bpf_prog_offload_devs s' = [100%nat].
Proof.
  eexists. split; [| split].
  - apply (init_binds_program Sample.boot 1%nat 2 100%nat 1%nat
             (Sample.fresh_prog 41) 10%nat (Sample.dev 2 NETREG_REGISTERED)
             Sample.driver); reflexivity.
  - reflexivity.
  - reflexivity.
Defined.

(** A [bpf_prog_offload_init] that returns an error leaves nothing behind:
    descriptors, programs, devices and the list are as before (the descriptor
    it may have allocated is freed again), and only the event log grew. *)
Theorem init_failure_is_clean (capable : bool) (net_ns : nat) (mem : option nat)
    (p : nat) (attr : bpf_attr) (s : kstate) (r : Z) (s' : kstate) :
  (forall a, mem = Some a -> offloads s !! a = None) ->
  bpf_prog_offload_init capable net_ns mem p attr s = Done r s' ->
  r <> 0 ->
  offloads s' = offloads s /\ progs s' = progs s /\ netdevs s' = netdevs s /\
  bpf_prog_offload_devs s' = bpf_prog_offload_devs s.
Proof.
  intros Hfresh H Hr.
  apply init_inv in H as [(_ & new & -> & _) | (? & _)]; [done | done | done].
Qed.

Lemma init_failure_is_clean_witness :
  let s' := Sample.exec (bpf_prog_offload_init true 1%nat (Some 100%nat) 1%nat
                           (Sample.attr 7)) Sample.boot in
  bpf_prog_offload_init true 1%nat (Some 100%nat) 1%nat (Sample.attr 7)
    Sample.boot = Done (- EINVAL) s' /\
  offloads s' = offloads Sample.boot /\
  bpf_prog_offload_devs s' = bpf_prog_offload_devs Sample.boot.
Proof.
  cbv zeta.
  assert (Hrun : bpf_prog_offload_init true 1%nat (Some 100%nat) 1%nat
                   (Sample.attr 7) Sample.boot
                 = Done (- EINVAL)
                     (Sample.exec (bpf_prog_offload_init true 1%nat (Some 100%nat)
                                     1%nat (Sample.attr 7)) Sample.boot))
    by (vm_compute; reflexivity).
  split; [exact Hrun |].
  assert (Hfresh : forall a, Some 100%nat = Some a -> offloads Sample.boot !! a = None)
    by (intros a Ha; injection Ha as <-; reflexivity).
  assert (Hne : - EINVAL <> 0) by (unfold EINVAL; lia).
  destruct (init_failure_is_clean true 1%nat (Some 100%nat) 1%nat (Sample.attr 7)
              Sample.boot (- EINVAL) _ Hfresh Hrun Hne) as (Ho & _ & _ & Hl).
  split; [exact Ho | exact Hl].
Defined.

(** The error codes of [bpf_prog_offload_init] past the admission tests:
    -ENOMEM when the allocator fails; -EINVAL when no device of that index is
    in the caller's namespace; -EOPNOTSUPP when the device has no [ndo_bpf];
    -EINVAL when the device is not NETREG_REGISTERED, found out under the
    registry write lock.  In each case the descriptor is freed and the device
    reference, if one was taken, is given back. *)
Theorem init_error_codes (s : kstate) (net_ns : nat) (idx : Z) (a p : nat) :
  let attr := {| prog_flags := 0; prog_ifindex := idx |} in
  bpf_prog_offload_init true net_ns None p attr s
    = Done (- ENOMEM) (log [EvKzalloc None] s) /\
  (offloads s !! a = None ->
   find_netdev net_ns (int_of_u32 idx) s = None ->
   bpf_prog_offload_init true net_ns (Some a) p attr s
     = Done (- EINVAL)
         (log [EvKzalloc (Some a); EvDevGetByIndex net_ns (int_of_u32 idx) None; EvKfree a] s)) /\
  (forall d dev,
     offloads s !! a = None ->
     find_netdev net_ns (int_of_u32 idx) s = Some d -> netdevs s !! d = Some dev ->
     ndo_bpf dev = None ->
     bpf_prog_offload_init true net_ns (Some a) p attr s
       = Done (- EOPNOTSUPP)
           (log [EvKzalloc (Some a); EvDevGetByIndex net_ns (int_of_u32 idx) (Some d);
                 EvDevPut d; EvKfree a] s)) /\
  (forall d dev h,
     offloads s !! a = None ->
     find_netdev net_ns (int_of_u32 idx) s = Some d -> netdevs s !! d = Some dev ->
     ndo_bpf dev = Some h -> reg_state dev <> NETREG_REGISTERED ->
     bpf_prog_offload_init true net_ns (Some a) p attr s
       = Done (- EINVAL)
           (log [EvKzalloc (Some a); EvDevGetByIndex net_ns (int_of_u32 idx) (Some d);
                 EvDownWrite; EvRegStateRead d; EvUpWrite; EvDevPut d;
                 EvKfree a] s)).
Proof.
  cbv zeta. split; [reflexivity |]. split; [| split].
  - intros Ha Hfind. init_forward.
    f_equal. unfold log. f_equal.
    + rewrite !delete_insert_eq. by apply delete_id.
    + by rewrite <- !app_assoc.
  - intros d dev Ha Hfind Hdev Hh. init_forward.
    f_equal. unfold log. f_equal.
    + rewrite !delete_insert_eq. by apply delete_id.
    + by rewrite <- !app_assoc.
  - intros d dev h Ha Hfind Hdev Hh Hrs. init_forward.
    rewrite decide_True by done. init_forward.
    f_equal. unfold log. f_equal.
    + rewrite !delete_insert_eq. by apply delete_id.
    + by rewrite <- !app_assoc.
Qed.

Lemma init_error_codes_witness :
  bpf_prog_offload_init true 1%nat (Some 100%nat) 1%nat (Sample.attr 7)
      Sample.boot
    = Done (- EINVAL)
        (log [EvKzalloc (Some 100%nat); EvDevGetByIndex 1%nat 7 None;
              EvKfree 100%nat] Sample.boot) /\
  bpf_prog_offload_init true 1%nat (Some 100%nat) 1%nat (Sample.attr 4)
      Sample.with_plain_dev
    = Done (- EOPNOTSUPP)
        (log [EvKzalloc (Some 100%nat); EvDevGetByIndex 1%nat 4 (Some 12%nat);
              EvDevPut 12%nat; EvKfree 100%nat] Sample.with_plain_dev) /\
  bpf_prog_offload_init true 1%nat (Some 103%nat) 1%nat (Sample.attr 2)
      Sample.unregistering
    = Done (- EINVAL)
        (log [EvKzalloc (Some 103%nat); EvDevGetByIndex 1%nat 2 (Some 10%nat);
              EvDownWrite; EvRegStateRead 10%nat; EvUpWrite; EvDevPut 10%nat;
              EvKfree 103%nat] Sample.unregistering).
Proof.
  split; [| split].
  - destruct (init_error_codes Sample.boot 1%nat 7 100%nat 1%nat)
      as (_ & H & _). apply H; reflexivity.
  - destruct (init_error_codes Sample.with_plain_dev 1%nat 4 100%nat 1%nat)
      as (_ & _ & H & _).
    apply (H 12%nat {| ifindex := 4; reg_state := NETREG_REGISTERED;
                       nd_net := 1%nat; ndo_bpf := None |}); reflexivity.
  - destruct (init_error_codes Sample.unregistering 1%nat 2 103%nat 1%nat)
      as (_ & _ & _ & H).
    apply (H 10%nat (Sample.dev 2 NETREG_UNREGISTERING) Sample.driver);
      try reflexivity. discriminate.
Defined.

(** [bpf_prog_offload_init] keeps no device reference.  On every path its
    device-reference events are, in this order: nothing (the call failed
    before the lookup); or the one [dev_get_by_index] of the converted
    [prog_ifindex] in the caller's namespace that found no device; or that
    lookup finding a device [d], followed by exactly one [dev_put], of that
    same [d]. *)
Theorem init_keeps_no_device_reference (capable : bool) (net_ns : nat)
    (mem : option nat) (p : nat) (attr : bpf_attr) (s : kstate) (r : Z)
    (s' : kstate) :
  (forall a, mem = Some a -> offloads s !! a = None) ->
  bpf_prog_offload_init capable net_ns mem p attr s = Done r s' ->
  exists new,
    trace s' = trace s ++ new /\
    (dev_ref_events new = [] \/
     dev_ref_events new
       = [EvDevGetByIndex net_ns (int_of_u32 (prog_ifindex attr)) None] \/
     exists d,
       find_netdev net_ns (int_of_u32 (prog_ifindex attr)) s = Some d /\
       dev_ref_events new
         = [EvDevGetByIndex net_ns (int_of_u32 (prog_ifindex attr)) (Some d);
            EvDevPut d]).
Proof.
  intros Hfresh H.
  unfold bpf_prog_offload_init, init_err_maybe_put, bpf_dev_offload_check in H.
  run; try simplify_map_eq.
  all: repeat match goal with
       | |- context [find_netdev ?n ?i (Build_kstate ?a ?b (netdevs ?s0) ?c ?d)] =>
           change (find_netdev n i (Build_kstate a b (netdevs s0) c d))
             with (find_netdev n i s0)
       | H : context [find_netdev ?n ?i (Build_kstate ?a ?b (netdevs ?s0) ?c ?d)] |- _ =>
           change (find_netdev n i (Build_kstate a b (netdevs s0) c d))
             with (find_netdev n i s0) in H
       end.
  all: first [ by (exists []; rewrite app_nil_r; auto)
             | eexists; split; [rewrite <- ?app_assoc; reflexivity |];
               repeat match goal with
               | Hf : find_netdev _ _ _ = _ |- _ => rewrite Hf
               end;
               first [ by left
                     | by (right; left)
                     | right; right; eexists; split; [reflexivity | reflexivity] ] ].
Qed.

Lemma init_keeps_no_device_reference_witness :
  exists new,
    trace (Sample.exec (bpf_prog_offload_init true 1%nat (Some 100%nat) 1%nat
                          (Sample.attr 2)) Sample.boot)
      = trace Sample.boot ++ new /\
    dev_ref_events new = [EvDevGetByIndex 1%nat 2 (Some 10%nat); EvDevPut 10%nat].
Proof.
  destruct (init_keeps_no_device_reference true 1%nat (Some 100%nat) 1%nat
              (Sample.attr 2) Sample.boot 0
              (Sample.exec (bpf_prog_offload_init true 1%nat (Some 100%nat) 1%nat
                              (Sample.attr 2)) Sample.boot))
    as (new & Ht & Hrefs).
  - intros a Ha. injection Ha as <-. reflexivity.
  - vm_compute. reflexivity.
  - exists new. split; [exact Ht |].
    assert (Hnew : new = [EvKzalloc (Some 100%nat);
                          EvDevGetByIndex 1%nat 2 (Some 10%nat); EvDownWrite;
                          EvRegStateRead 10%nat; EvListAddTail 100%nat;
                          EvDevPut 10%nat; EvUpWrite]).
    { vm_compute in Ht. symmetry. exact Ht. }
    rewrite Hnew. reflexivity.
Defined.




Lemma filter_ne_snoc (a : nat) (l : list nat) :
  a ∉ l -> filter (fun x => x <> a) (l ++ [a]) = l.
Proof.
  intros Hnot. rewrite filter_app, filter_ne_notin by done.
  rewrite filter_cons_False by (intros H; by apply H).
  by rewrite app_nil_r.
Qed.

(** Binding and destroying cancel out: after a [bpf_prog_offload_init] that
    returned 0 in a well-formed registry, [bpf_prog_offload_destroy] on that
    program completes without handing anything to the driver (the program
    was never prepared) and leaves descriptors, devices and the list exactly
    as they were before the bind; the program is left with its id cleared. *)
Theorem init_then_destroy (capable : bool) (net_ns : nat) (mem : option nat)
    (p : nat) (attr : bpf_attr) (s s1 : kstate) :
  wf s ->
  (forall a, mem = Some a -> offloads s !! a = None) ->
  bpf_prog_offload_init capable net_ns mem p attr s = Done 0 s1 ->
  exists s2 new,
    bpf_prog_offload_destroy p s1 = Done tt s2 /\
    offloads s2 = offloads s /\ netdevs s2 = netdevs s /\
    bpf_prog_offload_devs s2 = bpf_prog_offload_devs s /\
    (progs s2 !! p ≫= fun v => Some (aux_id v)) = Some 0 /\
    trace s2 = trace s1 ++ new /\
    forall cmd q, dispatches cmd q new = 0%nat.
Proof.
  intros Hwf Hfresh H.
  apply init_inv in H as [(Hr & _) | (_ & a & d & dev & h & v & Hs)];
    [done | | done].
  destruct Hs as (-> & _ & _ & _ & Hdev & Hh & _ & Hp & ->).
  pose proof (Hfresh a eq_refl) as Ha.
  assert (Hnotin : a ∉ bpf_prog_offload_devs s).
  { intros Hin. destruct (wf_live s Hwf a Hin) as [x Hx]. congruence. }
  eexists _, _. split.
  - eapply (destroy_run _ p (set_aux_offload (Some a) v) a
              {| prog := Some p; netdev := Some d; dev_ops := None;
                 dev_state := false |}); simpl.
    + apply lookup_insert_eq.
    + reflexivity.
    + apply lookup_insert_eq.
    + intros d' Hd'. injection Hd' as <-. simpl. eauto.
  - simpl. split; [by apply delete_insert_id |]. split; [done |].
    split; [by apply filter_ne_snoc |].
    split; [by rewrite lookup_insert_eq |].
    split; [reflexivity |].
    intros cmd q. reflexivity.
Qed.

Lemma init_then_destroy_witness :
  let s1 := Sample.exec (bpf_prog_offload_init true 1%nat (Some 100%nat) 1%nat
                           (Sample.attr 2)) Sample.boot in
  exists s2,
    bpf_prog_offload_destroy 1%nat s1 = Done tt s2 /\
    offloads s2 = offloads Sample.boot /\
    bpf_prog_offload_devs s2 = bpf_prog_offload_devs Sample.boot.
Proof.
  cbv zeta.
  destruct (init_then_destroy true 1%nat (Some 100%nat) 1%nat (Sample.attr 2)
              Sample.boot
              (Sample.exec (bpf_prog_offload_init true 1%nat (Some 100%nat) 1%nat
                              (Sample.attr 2)) Sample.boot) wf_sample_boot)
    as (s2 & new & Hrun & Ho & _ & Hl & _).
  - intros a Ha. injection Ha as <-. reflexivity.
  - vm_compute. reflexivity.
  - exists s2. split; [exact Hrun |]. split; [exact Ho | exact Hl].
Defined.

(** ** Dispatching to the driver *)

(** [__bpf_offload_ndo]: with the descriptor's [netdev] NULL it returns
    -ENODEV and the driver is not called, the state and the log staying as
    they are; with a device bound it calls the driver's [ndo_bpf] once, logs
    that one dispatch, and hands back the driver's reply unmodified. *)
Theorem offload_ndo_passthrough (s : kstate) (p : nat) (v : bpf_prog) (o : nat)
    (off : bpf_prog_offload) (cmd : bpf_netdev_command) :
  progs s !! p = Some v -> aux_offload v = Some o ->
  offloads s !! o = Some off ->
  (netdev off = None ->
     __bpf_offload_ndo p cmd s
       = Done {| ndo_ret := - ENODEV; ndo_verifier_ops := None |} s) /\
  (forall d dev h,
     netdev off = Some d -> netdevs s !! d = Some dev -> ndo_bpf dev = Some h ->
     __bpf_offload_ndo p cmd s
       = Done (h cmd p) (log [EvNdo d cmd p (ndo_ret (h cmd p))] s)).
Proof.
  intros Hp Hv Ho. split.
  - intros Hnd. by eapply offload_ndo_nodev.
  - intros d dev h Hnd Hdev Hh. by eapply offload_ndo_run.
Qed.

Lemma offload_ndo_passthrough_witness :
  __bpf_offload_ndo 1%nat BPF_OFFLOAD_TRANSLATE Sample.swept
    = Done {| ndo_ret := - ENODEV; ndo_verifier_ops := None |} Sample.swept /\
  __bpf_offload_ndo 1%nat BPF_OFFLOAD_TRANSLATE Sample.driver_failing
    = Done (Sample.failing_driver BPF_OFFLOAD_TRANSLATE 1%nat)
           (log [EvNdo 10%nat BPF_OFFLOAD_TRANSLATE 1%nat (-5)]
              Sample.driver_failing).
Proof.
  split.
  - apply (proj1 (offload_ndo_passthrough Sample.swept 1%nat
                    {| aux_offload := Some 100%nat; aux_id := 0;
                       bpf_func := Sample.interp |}
                    100%nat
                    {| prog := Some 1%nat; netdev := None;
                       dev_ops := Some Sample.hooks; dev_state := false |}
                    BPF_OFFLOAD_TRANSLATE eq_refl eq_refl eq_refl)).
    reflexivity.
  - apply (proj2 (offload_ndo_passthrough Sample.driver_failing 1%nat
                    {| aux_offload := Some 100%nat; aux_id := 41;
                       bpf_func := Sample.interp |}
                    100%nat
                    {| prog := Some 1%nat; netdev := Some 10%nat;
                       dev_ops := Some Sample.hooks; dev_state := true |}
                    BPF_OFFLOAD_TRANSLATE eq_refl eq_refl eq_refl)
             10%nat
             {| ifindex := 2; reg_state := NETREG_REGISTERED; nd_net := 1%nat;
                ndo_bpf := Some Sample.failing_driver |}
             Sample.failing_driver); reflexivity.
Defined.

(** [bpf_prog_offload_verifier_prep] touches one descriptor at most: when
    the driver (or the missing device) answers with an error, every
    descriptor is as before; when it answers 0, the program's descriptor
    gets the driver's hook table and [dev_state] set, keeping its program and
    device; programs, devices and the list are never changed. *)
Theorem verifier_prep_outcomes (s : kstate) (p : nat) (r : Z) (s' : kstate) :
  bpf_prog_offload_verifier_prep p s = Done r s' ->
  progs s' = progs s /\ netdevs s' = netdevs s /\
  bpf_prog_offload_devs s' = bpf_prog_offload_devs s /\
  (r <> 0 -> offloads s' = offloads s) /\
  (r = 0 ->
     exists v o off rep,
       progs s !! p = Some v /\ aux_offload v = Some o /\
       offloads s !! o = Some off /\
       driver_reply s p BPF_OFFLOAD_VERIFIER_PREP = Some rep /\
       ndo_ret rep = 0 /\
       offloads s' = <[o := prepared rep off]> (offloads s)).
Proof.
  intros H.
  apply verifier_prep_inv in H as (v & o & off & Hp & Hv & Ho & Hcases).
  destruct Hcases as [(Hnd & -> & ->) | (d & dev & h & Hnd & Hdev & Hh & -> & Hc)].
  - repeat split; done.
  - destruct Hc as [(Hne & ->) | (Hz & ->)].
    + repeat split; try done.
    + repeat split; try done. intros _.
      exists v, o, off, (h BPF_OFFLOAD_VERIFIER_PREP p).
      repeat split; try done.
      unfold driver_reply. by rewrite Hp, Hv, Ho, Hnd, Hdev, Hh.
Qed.

Lemma verifier_prep_outcomes_witness :
  let s' := Sample.exec (bpf_prog_offload_verifier_prep 1%nat) Sample.bound1 in
  bpf_prog_offload_verifier_prep 1%nat Sample.bound1 = Done 0 s' /\
  progs s' = progs Sample.bound1 /\
  bpf_prog_offload_devs s' = bpf_prog_offload_devs Sample.bound1.
Proof.
  cbv zeta.
  assert (Hrun : bpf_prog_offload_verifier_prep 1%nat Sample.bound1
                 = Done 0 (Sample.exec (bpf_prog_offload_verifier_prep 1%nat)
                             Sample.bound1)) by (vm_compute; reflexivity).
  destruct (verifier_prep_outcomes Sample.bound1 1%nat 0 _ Hrun)
    as (Hp & _ & Hl & _).
  split; [exact Hrun |]. split; [exact Hp | exact Hl].
Defined.

(** [bpf_prog_offload_compile] hands back what the driver answered to
    TRANSLATE, or -ENODEV when the descriptor has no device left, and changes
    neither descriptors nor devices nor the list. *)
Theorem compile_returns_driver_verdict (s : kstate) (p : nat) (v : bpf_prog)
    (o : nat) (off : bpf_prog_offload) :
  progs s !! p = Some v -> aux_offload v = Some o ->
  offloads s !! o = Some off -> dispatchable s off ->
  exists s',
    bpf_prog_offload_compile p s
      = Done (match driver_reply s p BPF_OFFLOAD_TRANSLATE with
              | Some rep => ndo_ret rep
              | None => - ENODEV
              end) s' /\
    offloads s' = offloads s /\ netdevs s' = netdevs s /\
    bpf_prog_offload_devs s' = bpf_prog_offload_devs s.
Proof.
  intros Hp Hv Ho Hd.
  unfold driver_reply. rewrite Hp, Hv, Ho.
  unfold bpf_prog_offload_compile, bpf_prog_offload_translate, __bpf_offload_ndo.
  unfold_m. simpl.
  repeat (progress (rewrite ?Hp, ?Hv, ?Ho, ?lookup_insert_eq; simpl)).
  destruct (netdev off) as [d|] eqn:Hnd; simpl.
  - destruct (Hd d Hnd) as (dev & h & Hdev & Hh). rewrite Hdev, Hh. simpl.
    eexists. split; [reflexivity |]. done.
  - eexists. split; [reflexivity |]. done.
Qed.

Lemma compile_returns_driver_verdict_witness :
  (exists s', bpf_prog_offload_compile 1%nat Sample.driver_failing = Done (-5) s') /\
  (exists s', bpf_prog_offload_compile 1%nat Sample.swept = Done (- ENODEV) s').
Proof.
  split.
  - destruct (compile_returns_driver_verdict Sample.driver_failing 1%nat
                {| aux_offload := Some 100%nat; aux_id := 41;
                   bpf_func := Sample.interp |}
                100%nat
                {| prog := Some 1%nat; netdev := Some 10%nat;
                   dev_ops := Some Sample.hooks; dev_state := true |})
      as (s' & Hrun & _); try reflexivity.
    + intros d Hd. injection Hd as <-. eexists _, _. split; reflexivity.
    + exists s'. exact Hrun.
  - destruct (compile_returns_driver_verdict Sample.swept 1%nat
                {| aux_offload := Some 100%nat; aux_id := 0;
                   bpf_func := Sample.interp |}
                100%nat
                {| prog := Some 1%nat; netdev := None;
                   dev_ops := Some Sample.hooks; dev_state := false |})
      as (s' & Hrun & _); try reflexivity.
    + intros d Hd. discriminate.
    + exists s'. exact Hrun.
Defined.

(** The two observers write nothing but the log:
    [bpf_prog_offload_verify_insn] and [bpf_prog_offload_info_fill] leave
    descriptors, programs, devices and the list as they are; and when
    [bpf_prog_offload_info_fill] returns an error it has written
    [info->ifindex] only, the namespace fields of [*info] being untouched. *)
Theorem observers_are_read_only (s : kstate) (p : nat) :
  (forall i j r s',
     bpf_prog_offload_verify_insn p i j s = Done r s' ->
     offloads s' = offloads s /\ progs s' = progs s /\
     netdevs s' = netdevs s /\
     bpf_prog_offload_devs s' = bpf_prog_offload_devs s /\
     trace s' = trace s ++ [EvDownRead; EvUpRead]) /\
  (forall cb enc info r s',
     bpf_prog_offload_info_fill cb enc info p s = Done r s' ->
     offloads s' = offloads s /\ progs s' = progs s /\
     netdevs s' = netdevs s /\
     bpf_prog_offload_devs s' = bpf_prog_offload_devs s /\
     (r.1 <> 0 ->
        netns_dev r.2 = netns_dev info /\ netns_ino r.2 = netns_ino info)).
Proof.
  split.
  - intros i j r s' H. by apply verify_insn_inv in H as ->.
  - intros cb enc info r s' H.
    unfold bpf_prog_offload_info_fill, bpf_prog_offload_info_fill_ns in H.
    run; repeat split; done.
Qed.

Lemma observers_are_read_only_witness :
  exists r s',
    bpf_prog_offload_info_fill Sample.ns_resolver Sample.encode_dev
      {| info_ifindex := 9; netns_dev := 8; netns_ino := 7 |} 2%nat Sample.boot
      = Done r s' /\
    r = (- ENODEV, {| info_ifindex := 0; netns_dev := 8; netns_ino := 7 |}) /\
    offloads s' = offloads Sample.boot /\ progs s' = progs Sample.boot.
Proof.
  destruct (observers_are_read_only Sample.boot 2%nat) as [_ Hinfo].
  eexists _, _. split; [vm_compute; reflexivity |].
  split; [reflexivity |].
  destruct (Hinfo Sample.ns_resolver Sample.encode_dev
              {| info_ifindex := 9; netns_dev := 8; netns_ino := 7 |}
              (- ENODEV, {| info_ifindex := 0; netns_dev := 8; netns_ino := 7 |})
              (Sample.exec (bpf_prog_offload_info_fill Sample.ns_resolver
                              Sample.encode_dev
                              {| info_ifindex := 9; netns_dev := 8; netns_ino := 7 |}
                              2%nat) Sample.boot))
    as (Ho & Hp & _); [vm_compute; reflexivity |].
  split; [exact Ho | exact Hp].
Defined.

(** ** Programs without a descriptor *)

(** Only the info reporter tests [prog->aux->offload]: called on a program
    whose descriptor pointer is NULL, [bpf_prog_offload_verifier_prep],
    [bpf_prog_offload_verify_insn], [bpf_prog_offload_compile] and
    [bpf_prog_offload_destroy] all follow the NULL pointer. *)
Theorem entry_points_need_descriptor (s : kstate) (p : nat) (v : bpf_prog) :
  progs s !! p = Some v -> aux_offload v = None ->
  bpf_prog_offload_verifier_prep p s = Oops NullDeref /\
  (forall i j, bpf_prog_offload_verify_insn p i j s = Oops NullDeref) /\
  bpf_prog_offload_compile p s = Oops NullDeref /\
  bpf_prog_offload_destroy p s = Oops NullDeref.
Proof.
  intros Hp Hv. repeat split; try intros i j;
    unfold bpf_prog_offload_verifier_prep, bpf_prog_offload_verify_insn,
      bpf_prog_offload_compile, bpf_prog_offload_translate,
      bpf_prog_offload_destroy, __bpf_prog_offload_destroy, __bpf_offload_ndo;
    unfold_m; simpl;
    repeat (progress (rewrite ?Hp, ?Hv, ?lookup_insert_eq; simpl));
    reflexivity.
Qed.

Lemma entry_points_need_descriptor_witness :
  bpf_prog_offload_verifier_prep 2%nat Sample.boot = Oops NullDeref /\
  bpf_prog_offload_destroy 2%nat Sample.boot = Oops NullDeref.
Proof.
  destruct (entry_points_need_descriptor Sample.boot 2%nat (Sample.fresh_prog 42)
              eq_refl eq_refl) as (H1 & _ & _ & H4).
  split; [exact H1 | exact H4].
Defined.

(** ** A driver that fails to destroy *)

(** A driver error on DESTROY does not stop [bpf_prog_offload_destroy]: the
    error is logged through [WARN_ON] and the teardown goes on, the
    program's id is released, the descriptor unlinked and freed. *)
Theorem destroy_survives_driver_failure (s : kstate) (p : nat) (v : bpf_prog)
    (o : nat) (off : bpf_prog_offload) (d : nat) (dev : net_device)
    (h : bpf_netdev_command -> nat -> ndo_reply) :
  progs s !! p = Some v -> aux_offload v = Some o ->
  offloads s !! o = Some off -> dev_state off = true ->
  netdev off = Some d -> netdevs s !! d = Some dev -> ndo_bpf dev = Some h ->
  ndo_ret (h BPF_OFFLOAD_DESTROY p) <> 0 ->
  exists s',
    bpf_prog_offload_destroy p s = Done tt s' /\
    offloads s' !! o = None /\
    (o ∉ bpf_prog_offload_devs s') /\
    (progs s' !! p ≫= fun w => Some (aux_id w)) = Some 0 /\
    trace s' = trace s ++
      [EvRtnlLock; EvDownWrite;
       EvNdo d BPF_OFFLOAD_DESTROY p (ndo_ret (h BPF_OFFLOAD_DESTROY p));
       EvWarnOn (ndo_ret (h BPF_OFFLOAD_DESTROY p));
       EvFreeId p; EvListDelInit o; EvUpWrite; EvRtnlUnlock; EvKfree o].
Proof.
  intros Hp Hv Ho Hst Hnd Hdev Hh Hr.
  eexists. split.
  - eapply (destroy_run s p v o off Hp Hv Ho).
    intros d' Hd'. rewrite Hnd in Hd'. injection Hd' as <-. eauto.
  - simpl. split; [apply lookup_delete_eq |].
    split; [rewrite list_elem_of_filter; by intros [? _] |].
    split; [by rewrite lookup_insert_eq |].
    unfold destroy_dispatch_events. rewrite Hst, Hnd, Hdev, Hh.
    by rewrite decide_True.
Qed.

Lemma destroy_survives_driver_failure_witness :
  exists s',
    bpf_prog_offload_destroy 1%nat Sample.driver_failing = Done tt s' /\
    offloads s' !! 100%nat = None /\
    trace s' =
      [EvRtnlLock; EvDownWrite; EvNdo 10%nat BPF_OFFLOAD_DESTROY 1%nat (-5);
       EvWarnOn (-5); EvFreeId 1%nat; EvListDelInit 100%nat; EvUpWrite;
       EvRtnlUnlock; EvKfree 100%nat].
Proof.
  destruct (destroy_survives_driver_failure Sample.driver_failing 1%nat
              {| aux_offload := Some 100%nat; aux_id := 41;
                 bpf_func := Sample.interp |}
              100%nat
              {| prog := Some 1%nat; netdev := Some 10%nat;
                 dev_ops := Some Sample.hooks; dev_state := true |}
              10%nat
              {| ifindex := 2; reg_state := NETREG_REGISTERED; nd_net := 1%nat;
                 ndo_bpf := Some Sample.failing_driver |}
              Sample.failing_driver)
    as (s' & Hrun & Ho & _ & _ & Ht); try reflexivity.
  - simpl. lia.
  - exists s'. split; [exact Hrun |]. split; [exact Ho | exact Ht].
Defined.

(** ** After the device is gone *)

Lemma verifier_prep_nodev s p v o off :
  progs s !! p = Some v -> aux_offload v = Some o ->
  offloads s !! o = Some off -> netdev off = None ->
  bpf_prog_offload_verifier_prep p s
    = Done (- ENODEV) (log [EvRtnlLock; EvRtnlUnlock] s).
Proof.
  intros Hp Hv Ho Hnd.
  unfold bpf_prog_offload_verifier_prep, __bpf_offload_ndo. unfold_m. simpl.
  repeat (progress (rewrite ?Hp, ?Hv, ?Ho, ?Hnd; simpl)).
  f_equal. state_eq.
Qed.

Lemma compile_nodev s p v o off :
  progs s !! p = Some v -> aux_offload v = Some o ->
  offloads s !! o = Some off -> netdev off = None ->
  exists s', bpf_prog_offload_compile p s = Done (- ENODEV) s' /\
             forall cmd q, dispatches cmd q (trace s') = dispatches cmd q (trace s).
Proof.
  intros Hp Hv Ho Hnd.
  unfold bpf_prog_offload_compile, bpf_prog_offload_translate, __bpf_offload_ndo.
  unfold_m. simpl.
  repeat (progress (rewrite ?Hp, ?Hv, ?Ho, ?Hnd, ?lookup_insert_eq; simpl)).
  eexists. split; [reflexivity |]. intros cmd q. simpl.
  rewrite !dispatches_app. simpl. lia.
Qed.

(** Once the notifier has swept a device, a program that was bound to it
    sees -ENODEV and the driver is left alone:
    [bpf_prog_offload_verify_insn] and [bpf_prog_offload_verifier_prep]
    return -ENODEV, [bpf_prog_offload_compile] returns -ENODEV, and none of
    them logs a dispatch. *)
Theorem swept_program_sees_nodev (s : kstate) (nd : nat) (dev : net_device)
    (p : nat) (v : bpf_prog) (o : nat) (off : bpf_prog_offload) :
  wf s -> netdevs s !! nd = Some dev ->
  reg_state dev = NETREG_UNREGISTERING ->
  progs s !! p = Some v -> aux_offload v = Some o ->
  offloads s !! o = Some off -> netdev off = Some nd ->
  exists s',
    bpf_offload_notification NETDEV_UNREGISTER nd s = Done NOTIFY_OK s' /\
    (forall i j,
       bpf_prog_offload_verify_insn p i j s'
         = Done (- ENODEV) (log [EvDownRead; EvUpRead] s')) /\
    bpf_prog_offload_verifier_prep p s'
      = Done (- ENODEV) (log [EvRtnlLock; EvRtnlUnlock] s') /\
    (exists s'', bpf_prog_offload_compile p s' = Done (- ENODEV) s'' /\
       forall cmd q, dispatches cmd q (trace s'') = dispatches cmd q (trace s')).
Proof.
  intros Hwf Hdev Hrs Hp Hv Ho Hnd.
  pose proof (wf_log [EvDownWrite] s Hwf) as Hwf0.
  destruct (sweep_all_spec nd (bpf_prog_offload_devs s) (log [EvDownWrite] s)
              (wf_nodup s Hwf) (wf_sweep_ready _ Hwf0))
    as (_ & E2 & _ & _ & E5 & _).
  assert (Hin : o ∈ bpf_prog_offload_devs s).
  { apply (wf_member s Hwf o off Ho). congruence. }
  pose proof (E2 o off Ho) as Ho'. rewrite decide_True in Ho' by done.
  destruct (E5 p v Hp) as (v' & Hp' & Haux & _).
  rewrite Hv in Haux.
  eexists. split; [by eapply notification_run |].
  split; [| split].
  - intros i j. by eapply (verify_insn_nodev _ p v' o (unbound off)).
  - by eapply (verifier_prep_nodev _ p v' o (unbound off)).
  - by eapply (compile_nodev _ p v' o (unbound off)).
Qed.

Lemma swept_program_sees_nodev_witness :
  exists s',
    bpf_offload_notification NETDEV_UNREGISTER 10%nat Sample.unregistering
      = Done NOTIFY_OK s' /\
    bpf_prog_offload_verify_insn 1%nat 0 0 s'
      = Done (- ENODEV) (log [EvDownRead; EvUpRead] s') /\
    bpf_prog_offload_verifier_prep 2%nat s'
      = Done (- ENODEV) (log [EvRtnlLock; EvRtnlUnlock] s').
Proof.
  destruct (swept_program_sees_nodev Sample.unregistering 10%nat
              (Sample.dev 2 NETREG_UNREGISTERING) 1%nat
              {| aux_offload := Some 100%nat; aux_id := 41;
                 bpf_func := Sample.interp |}
              100%nat
              {| prog := Some 1%nat; netdev := Some 10%nat;
                 dev_ops := Some Sample.hooks; dev_state := true |}
              wf_sample_unregistering)
    as (s1 & Hrun1 & Hverify & _); try reflexivity.
  destruct (swept_program_sees_nodev Sample.unregistering 10%nat
              (Sample.dev 2 NETREG_UNREGISTERING) 2%nat
              {| aux_offload := Some 101%nat; aux_id := 42;
                 bpf_func := Sample.interp |}
              101%nat
              {| prog := Some 2%nat; netdev := Some 10%nat;
                 dev_ops := None; dev_state := false |}
              wf_sample_unregistering)
    as (s2 & Hrun2 & _ & Hprep & _); try reflexivity.
  assert (s2 = s1) as -> by congruence.
  exists s1. split; [exact Hrun1 |]. split; [apply Hverify | exact Hprep].
Defined.

(** ** [dev_state] implies a device *)

Lemma active_bound_step cb enc s s' :
  wf s -> active_bound s -> step cb enc s s' -> active_bound s'.
Proof.
  intros Hwf Hab Hstep. destruct Hstep as
    [capable net_ns mem p attr r s' Hfresh Hnew H
    | p r s' H | p i j r s' H | p r s' H | p s' H
    | info p r s' H | ev nd r s' H | d rs].
  - apply init_inv in H
      as [(_ & new & -> & _) | (_ & a & d & dev & h & v & Hs)]; [done | | done].
    destruct Hs as (_ & _ & _ & _ & _ & _ & _ & _ & ->).
    intros o off Ho Hst. simpl in Ho.
    apply lookup_insert_Some in Ho as [[_ <-] | [_ Ho]]; [done |].
    by eapply Hab.
  - apply verifier_prep_inv in H
      as (v & o & off & Hp & Hv & Ho & [(_ & _ & ->) | Hb]); [done |].
    destruct Hb as (d & dev & h & Hnd & _ & _ & _ & [(_ & ->) | (_ & ->)]);
      [done |].
    intros o' off' Ho' Hst. simpl in Ho'.
    apply lookup_insert_Some in Ho' as [[_ <-] | [_ Ho']].
    + simpl. congruence.
    + by eapply Hab.
  - by apply verify_insn_inv in H as ->.
  - by apply compile_inv in H as (v & new & Hp & ->).
  - apply destroy_inv in H as (v & o & off & Hp & Hv & Ho & ->).
    intros o' off' Ho' Hst. simpl in Ho'.
    apply lookup_delete_Some in Ho' as [_ Ho']. by eapply Hab.
  - by apply info_fill_inv in H as (new & ->).
  - apply notification_inv in H as [-> | ->]; [done | | done].
    pose proof (wf_log [EvDownWrite] s Hwf) as Hwf0.
    destruct (sweep_all_spec nd (bpf_prog_offload_devs s) (log [EvDownWrite] s)
                (wf_nodup s Hwf) (wf_sweep_ready _ Hwf0))
      as (_ & E2 & E3 & _).
    intros o off Ho Hst. simpl in Ho.
    destruct (offloads s !! o) as [off0|] eqn:Ho0.
    + rewrite (E2 o off0 Ho0) in Ho. injection Ho as <-.
      case_decide; [done |]. by eapply Hab.
    + rewrite (E3 o Ho0) in Ho. done.
  - done.
Qed.

(** In every state reached from an empty registry a descriptor whose
    [dev_state] is set has its [netdev] set: [dev_state] is raised only by a
    VERIFIER_PREP that reached the driver, and the teardown lowers it
    together with [netdev].  So the DESTROY that
    [__bpf_prog_offload_destroy] issues under [dev_state] always finds a
    device. *)
Theorem reachable_active_bound (ns_get_path_cb : option nat -> ns_path_result)
    (new_encode_dev : Z -> Z) (s : kstate) :
  reachable ns_get_path_cb new_encode_dev s -> active_bound s.
Proof.
  intros Hr.
  assert (H : wf s /\ active_bound s); [| by destruct H].
  induction Hr as [s Hinit | s s' _ [IHwf IHab] Hstep].
  - split; [by apply initial_wf |].
    destruct Hinit as (Ho & _). intros o off H. by rewrite Ho, lookup_empty in H.
  - split; [by eapply wf_step | by eapply active_bound_step].
Qed.

Lemma reachable_active_bound_witness :
  let s := Sample.exec (bpf_prog_offload_verifier_prep 1%nat)
             (Sample.exec (bpf_prog_offload_init true 1%nat (Some 100%nat) 1%nat
                             (Sample.attr 2)) Sample.boot) in
  reachable Sample.ns_resolver Sample.encode_dev s /\ active_bound s.
Proof.
  cbv zeta.
  assert (Hr : reachable Sample.ns_resolver Sample.encode_dev
                 (Sample.exec (bpf_prog_offload_verifier_prep 1%nat)
                    (Sample.exec (bpf_prog_offload_init true 1%nat (Some 100%nat)
                                    1%nat (Sample.attr 2)) Sample.boot))).
  { apply (reachable_step _ _
             (Sample.exec (bpf_prog_offload_init true 1%nat (Some 100%nat)
                             1%nat (Sample.attr 2)) Sample.boot)).
    - apply (reachable_step _ _ Sample.boot).
      + apply reachable_initial. split; [reflexivity |]. split; [reflexivity |].
        intros p v H. unfold Sample.boot in H. simpl in H.
        apply lookup_insert_Some in H as [[_ <-] | [_ H]]; [reflexivity |].
        apply lookup_insert_Some in H as [[_ <-] | [_ H]]; [reflexivity |].
        apply lookup_insert_Some in H as [[_ <-] | [_ H]]; [reflexivity |].
        by rewrite lookup_empty in H.
      + eapply (step_init _ _ Sample.boot true 1%nat (Some 100%nat) 1%nat
                  (Sample.attr 2) 0).
        * intros a Ha. injection Ha as <-. reflexivity.
        * intros v H. unfold Sample.boot in H. simpl in H.
          rewrite lookup_insert_eq in H. injection H as <-. reflexivity.
        * vm_compute. reflexivity.
    - eapply (step_verifier_prep _ _ _ 1%nat 0). vm_compute. reflexivity. }
  split; [exact Hr |].
  exact (reachable_active_bound Sample.ns_resolver Sample.encode_dev _ Hr).
Defined.

(** ** Repeated removal events *)

Lemma sweep_all_nothing_bound nd l :
  forall s,
    (forall o off, offloads s !! o = Some off -> netdev off <> Some nd) ->
    sweep_all nd l s = s.
Proof.
  induction l as [|o l IH]; intros s Hnone; [done |].
  change (sweep_all nd (o :: l) s) with (sweep_all nd l (sweep_one nd s o)).
  assert (Hone : sweep_one nd s o = s).
  { unfold sweep_one. destruct (offloads s !! o) as [off|] eqn:Ho; [| done].
    rewrite decide_False; [done |]. by eapply Hnone. }
  rewrite Hone. by apply IH.
Qed.

(** A NETDEV_UNREGISTER for an unregistering device that no descriptor is
    bound to only takes and releases the registry lock; hence a second
    NETDEV_UNREGISTER for a device changes nothing and reaches no driver:
    the first sweep left no descriptor bound to it. *)
Theorem notification_is_idempotent (s : kstate) (nd : nat) (dev : net_device) :
  wf s -> netdevs s !! nd = Some dev ->
  reg_state dev = NETREG_UNREGISTERING ->
  ((forall o off, offloads s !! o = Some off -> netdev off <> Some nd) ->
   bpf_offload_notification NETDEV_UNREGISTER nd s
     = Done NOTIFY_OK (log [EvDownWrite; EvUpWrite] s)) /\
  exists s1,
    bpf_offload_notification NETDEV_UNREGISTER nd s = Done NOTIFY_OK s1 /\
    bpf_offload_notification NETDEV_UNREGISTER nd s1
      = Done NOTIFY_OK (log [EvDownWrite; EvUpWrite] s1).
Proof.
  intros Hwf Hdev Hrs.
  assert (Hquiet : forall s0,
            wf s0 -> netdevs s0 !! nd = Some dev ->
            (forall o off, offloads s0 !! o = Some off -> netdev off <> Some nd) ->
            bpf_offload_notification NETDEV_UNREGISTER nd s0
              = Done NOTIFY_OK (log [EvDownWrite; EvUpWrite] s0)).
  { intros s0 Hwf0 Hdev0 Hnone.
    rewrite (notification_run s0 nd dev Hwf0 Hdev0 Hrs).
    rewrite sweep_all_nothing_bound by exact Hnone.
    by rewrite log_log. }
  split; [by apply Hquiet |].
  pose proof (wf_log [EvDownWrite] s Hwf) as Hwf0.
  destruct (sweep_all_spec nd (bpf_prog_offload_devs s) (log [EvDownWrite] s)
              (wf_nodup s Hwf) (wf_sweep_ready _ Hwf0))
    as (E1 & E2 & E3 & _).
  eexists. split; [by eapply notification_run |].
  apply Hquiet.
  - apply wf_log, wf_sweep_all. exact Hwf0.
  - simpl. rewrite E1. exact Hdev.
  - intros o off Ho. simpl in Ho.
    destruct (offloads s !! o) as [off0|] eqn:Ho0.
    + rewrite (E2 o off0 Ho0) in Ho. injection Ho as <-.
      case_decide as Hc; [done |].
      intros Hnd. apply Hc. split; [| done].
      apply (wf_member s Hwf o off0 Ho0). congruence.
    + rewrite (E3 o Ho0) in Ho. done.
Qed.

Lemma notification_is_idempotent_witness :
  exists s1,
    bpf_offload_notification NETDEV_UNREGISTER 10%nat Sample.unregistering
      = Done NOTIFY_OK s1 /\
    bpf_offload_notification NETDEV_UNREGISTER 10%nat s1
      = Done NOTIFY_OK (log [EvDownWrite; EvUpWrite] s1).
Proof.
  destruct (notification_is_idempotent Sample.unregistering 10%nat
              (Sample.dev 2 NETREG_UNREGISTERING) wf_sample_unregistering)
    as (_ & s1 & H1 & H2); [reflexivity | reflexivity |].
  exists s1. split; [exact H1 | exact H2].
Defined.
